(** * SkillPath: a verification development

    A shallow embedding of the plan store ([App]), the response repair
    routine and plan refinement ([geminiService]), the calendar view model
    ([PlanCalendar]) and quiz scoring ([QuizModal]), followed by the theorems
    that settle the specification's claims about them.

    Conventions of the embedding.
    - A JavaScript string is the list of its UTF-16 code units ([jsstring]).
    - A JavaScript number that the program uses as an integer (day numbers,
      indices, millisecond time values) is a [Z]; time values are assumed to
      stay inside the range on which [TimeClip] is the identity, and quotients
      of time values are taken exactly.
    - An ISO timestamp field ([startDate], [lastUpdated]) is represented by the
      time value [new Date(...)] reads from it.
    - The local time zone is a constant offset [tza] (milliseconds); daylight
      saving transitions are not modelled.
    - [Date.now()] is an oracle: the [n]-th call of a run returns [clock n].
    - Exceptions are values of [result]; [console.error] is not modelled. *)

From Stdlib Require Import ZArith NArith String Ascii Bool Lia.
From stdpp Require Import base list option.

Set Warnings "-register-all".

(** ** JavaScript strings *)

Definition jsstring := list N.

Definition js (s : string) : jsstring :=
  map N_of_ascii (list_ascii_of_string s).

Module Str.
Local Open Scope Z_scope.

Fixpoint eqb (a b : jsstring) : bool :=
  match a, b with
  | [], [] => true
  | x :: a', y :: b' => N.eqb x y && eqb a' b'
  | _, _ => false
  end.

(** [strip_prefix p s] is the rest of [s] after the prefix [p]. *)
Fixpoint strip_prefix (p s : jsstring) : option jsstring :=
  match p with
  | [] => Some s
  | x :: p' =>
      match s with
      | y :: s' => if N.eqb x y then strip_prefix p' s' else None
      | [] => None
      end
  end.

Definition starts_with (p s : jsstring) : bool :=
  match strip_prefix p s with Some _ => true | None => false end.

Fixpoint indexOf_from (s pat : jsstring) (i : Z) : Z :=
  if starts_with pat s then i
  else match s with
       | [] => -1
       | _ :: s' => indexOf_from s' pat (i + 1)
       end.

(** [String.prototype.indexOf(pat)]: first position, or [-1]. *)
Definition indexOf (s pat : jsstring) : Z := indexOf_from s pat 0.

Fixpoint lastIndexOf_from (s pat : jsstring) (i found : Z) : Z :=
  let found' := if starts_with pat s then i else found in
  match s with
  | [] => found'
  | _ :: s' => lastIndexOf_from s' pat (i + 1) found'
  end.

(** [String.prototype.lastIndexOf(pat)]: last position, or [-1]. *)
Definition lastIndexOf (s pat : jsstring) : Z := lastIndexOf_from s pat 0 (-1).

Definition clamp (len i : Z) : Z := Z.min (Z.max i 0) len.

(** [String.prototype.substring(start, end)]: both arguments are clamped
    to [0 .. length] and swapped when [start > end]. *)
Definition substring (s : jsstring) (start end_ : Z) : jsstring :=
  let len := Z.of_nat (length s) in
  let a := clamp len start in
  let b := clamp len end_ in
  let from := Z.min a b in
  let to := Z.max a b in
  take (Z.to_nat (to - from)) (drop (Z.to_nat from) s).

(** Decimal rendering of an integer, as a template literal renders it. *)
Fixpoint pos_digits (fuel : nat) (n : N) (acc : jsstring) : jsstring :=
  match fuel with
  | O => acc
  | S f =>
      let acc' := (48 + n mod 10)%N :: acc in
      if (n <? 10)%N then acc' else pos_digits f (n / 10)%N acc'
  end.

Definition of_N (n : N) : jsstring := pos_digits (S (N.to_nat (N.log2 n))) n [].

Definition of_Z (z : Z) : jsstring :=
  if z <? 0 then 45%N :: of_N (Z.to_N (- z)) else of_N (Z.to_N z).
End Str.

(** ** A backtracking matcher for the regular expressions the program uses *)

Module RegExp.

(** The pieces a pattern is a sequence of. *)
Inductive item :=
| Lit (s : jsstring)               (* the characters of [s] *)
| OptLit (s : jsstring)            (* [(?:s)?], greedy *)
| StarGreedy (cls : N -> bool)     (* [cls*] *)
| CaptureLazy (cls : N -> bool).   (* [(cls*?)], the capturing group *)

(** [\s]: the WhiteSpace and LineTerminator code points. *)
Definition is_space (c : N) : bool :=
  ((9 <=? c) && (c <=? 13) || (c =? 32) || (c =? 160) || (c =? 5760)
   || (8192 <=? c) && (c <=? 8202) || (c =? 8232) || (c =? 8233)
   || (c =? 8239) || (c =? 8287) || (c =? 12288) || (c =? 65279))%N.

(** [[\s\S]]: every code unit. *)
Definition any (c : N) : bool := is_space c || negb (is_space c).

(** [run p cap s] matches [p] against a prefix of [s], trying the
    alternatives in the priority order of a backtracking matcher, and
    returns the text of the capturing group of the first match found. *)
Fixpoint run (p : list item) (cap : jsstring) {struct p}
  : jsstring -> option jsstring :=
  match p with
  | [] => fun _ => Some cap
  | Lit l :: p' => fun s =>
      match Str.strip_prefix l s with
      | Some s' => run p' cap s'
      | None => None
      end
  | OptLit l :: p' => fun s =>
      let with_l := match Str.strip_prefix l s with
                    | Some s' => run p' cap s'
                    | None => None
                    end in
      match with_l with
      | Some r => Some r
      | None => run p' cap s
      end
  | StarGreedy cls :: p' =>
      fix loop (s : jsstring) : option jsstring :=
        match s with
        | c :: s' =>
            if cls c then
              match loop s' with
              | Some r => Some r
              | None => run p' cap s
              end
            else run p' cap s
        | [] => run p' cap s
        end
  | CaptureLazy cls :: p' =>
      (fix loop (acc : jsstring) (s : jsstring) {struct s} : option jsstring :=
         match run p' (rev acc) s with
         | Some r => Some r
         | None =>
             match s with
             | c :: s' => if cls c then loop (c :: acc) s' else None
             | [] => None
             end
         end) []
  end.

(** [String.prototype.match] with a non-global pattern: the leftmost start
    position at which the pattern matches; the result is element [1] of
    the match array. *)
Fixpoint exec (p : list item) (s : jsstring) : option jsstring :=
  match run p [] s with
  | Some r => Some r
  | None =>
      match s with
      | [] => None
      | _ :: s' => exec p s'
      end
  end.
End RegExp.

(** ** Exceptions *)

Inductive exn :=
| SyntaxError                  (* thrown by [JSON.parse] *)
| TypeError                    (* a property of [undefined] or [null], or a call of a non-function *)
| IllTyped                     (* the value does not inhabit the declared TypeScript type *)
| Error (message : jsstring).  (* [new Error(message)] *)

Inductive result (A : Type) :=
| Ok (a : A)
| Throw (e : exn).
Arguments Ok {A} a.
Arguments Throw {A} e.

Definition try_catch {A} (body : result A) (handler : exn -> result A) : result A :=
  match body with
  | Ok a => Ok a
  | Throw e => handler e
  end.

Definition rbind {A B} (m : result A) (k : A -> result B) : result B :=
  match m with
  | Ok a => k a
  | Throw e => Throw e
  end.

Fixpoint rmap {A B} (f : A -> result B) (l : list A) : result (list B) :=
  match l with
  | [] => Ok []
  | x :: l' => rbind (f x) (fun y => rbind (rmap f l') (fun ys => Ok (y :: ys)))
  end.

(** ** JSON values and [JSON.parse] *)

Module JSON.
Local Open Scope N_scope.

(** A number keeps the exact decimal it was written as:
    [JNumber m e] is [m * 10^e]. An object keeps its members in the order
    of the text; a lookup takes the last member of a name, which is the
    value [JSON.parse] leaves in the property. *)
Inductive json :=
| JNull
| JBool (b : bool)
| JNumber (m e : Z)
| JString (s : jsstring)
| JArray (l : list json)
| JObject (l : list (jsstring * json)).

Definition is_ws (c : N) : bool :=
  (c =? 32) || (c =? 9) || (c =? 10) || (c =? 13).

Fixpoint skip_ws (s : jsstring) : jsstring :=
  match s with
  | c :: s' => if is_ws c then skip_ws s' else s
  | [] => []
  end.

Definition digit_val (c : N) : option Z :=
  if (48 <=? c) && (c <=? 57) then Some (Z.of_N (c - 48)) else None.

Definition hex_val (c : N) : option N :=
  if (48 <=? c) && (c <=? 57) then Some (c - 48)
  else if (97 <=? c) && (c <=? 102) then Some (c - 87)
  else if (65 <=? c) && (c <=? 70) then Some (c - 55)
  else None.

Fixpoint take_digits (s : jsstring) : list Z * jsstring :=
  match s with
  | c :: s' =>
      match digit_val c with
      | Some d => let '(ds, r) := take_digits s' in (d :: ds, r)
      | None => ([], s)
      end
  | [] => ([], [])
  end.

Definition digits_value (ds : list Z) : Z :=
  fold_left (fun acc d => acc * 10 + d)%Z ds 0%Z.

(** A number: an optional minus sign, an integer part without leading
    zeros, an optional fraction and an optional exponent. *)
Definition parse_number (s : jsstring) : option (json * jsstring) :=
  let '(neg, s1) := match s with
                    | 45 :: r => (true, r)
                    | _ => (false, s)
                    end in
  let '(ids, s2) := take_digits s1 in
  match ids with
  | [] => None
  | d0 :: more =>
      if Z.eqb d0 0 && negb (Nat.eqb (length more) 0) then None
      else
        let frac := match s2 with
                    | 46 :: r =>
                        let '(fds, r') := take_digits r in
                        match fds with
                        | [] => None
                        | _ => Some (fds, r')
                        end
                    | _ => Some ([], s2)
                    end in
        match frac with
        | None => None
        | Some (fds, s3) =>
            let expo := match s3 with
                        | c :: r =>
                            if (c =? 101) || (c =? 69) then
                              let '(eneg, r1) := match r with
                                                 | 45 :: r' => (true, r')
                                                 | 43 :: r' => (false, r')
                                                 | _ => (false, r)
                                                 end in
                              let '(eds, r2) := take_digits r1 in
                              match eds with
                              | [] => None
                              | _ => Some (if eneg then (- digits_value eds)%Z
                                           else digits_value eds, r2)
                              end
                            else Some (0%Z, s3)
                        | [] => Some (0%Z, s3)
                        end in
            match expo with
            | None => None
            | Some (e, s4) =>
                let m := digits_value (ids ++ fds) in
                Some (JNumber (if neg then (- m)%Z else m)
                              (e - Z.of_nat (length fds))%Z, s4)
            end
        end
  end.

(** The characters of a string after its opening quote, up to and
    including the closing quote. *)
Fixpoint parse_chars (s : jsstring) (acc : jsstring) : option (jsstring * jsstring) :=
  match s with
  | [] => None
  | 34 :: r => Some (rev acc, r)
  | 92 :: r =>
      match r with
      | 34 :: r' => parse_chars r' (34 :: acc)
      | 92 :: r' => parse_chars r' (92 :: acc)
      | 47 :: r' => parse_chars r' (47 :: acc)
      | 98 :: r' => parse_chars r' (8 :: acc)
      | 102 :: r' => parse_chars r' (12 :: acc)
      | 110 :: r' => parse_chars r' (10 :: acc)
      | 114 :: r' => parse_chars r' (13 :: acc)
      | 116 :: r' => parse_chars r' (9 :: acc)
      | 117 :: h1 :: h2 :: h3 :: h4 :: r' =>
          match hex_val h1, hex_val h2, hex_val h3, hex_val h4 with
          | Some a, Some b, Some c, Some d =>
              parse_chars r' (((a * 16 + b) * 16 + c) * 16 + d :: acc)
          | _, _, _, _ => None
          end
      | _ => None
      end
  | c :: r => if c <? 32 then None else parse_chars r (c :: acc)
  end.

Fixpoint parse_value (fuel : nat) (s : jsstring) : option (json * jsstring) :=
  match fuel with
  | O => None
  | S f =>
      match skip_ws s with
      | 110 :: 117 :: 108 :: 108 :: r => Some (JNull, r)
      | 116 :: 114 :: 117 :: 101 :: r => Some (JBool true, r)
      | 102 :: 97 :: 108 :: 115 :: 101 :: r => Some (JBool false, r)
      | 34 :: r =>
          match parse_chars r [] with
          | Some (str, r') => Some (JString str, r')
          | None => None
          end
      | 91 :: r =>
          match skip_ws r with
          | 93 :: r' => Some (JArray [], r')
          | _ =>
              match parse_elements f r with
              | Some (vs, r') => Some (JArray vs, r')
              | None => None
              end
          end
      | 123 :: r =>
          match skip_ws r with
          | 125 :: r' => Some (JObject [], r')
          | _ =>
              match parse_members f r with
              | Some (ms, r') => Some (JObject ms, r')
              | None => None
              end
          end
      | s' => parse_number s'
      end
  end
with parse_elements (fuel : nat) (s : jsstring) : option (list json * jsstring) :=
  match fuel with
  | O => None
  | S f =>
      match parse_value f s with
      | Some (v, r) =>
          match skip_ws r with
          | 44 :: r' =>
              match parse_elements f r' with
              | Some (vs, r'') => Some (v :: vs, r'')
              | None => None
              end
          | 93 :: r' => Some ([v], r')
          | _ => None
          end
      | None => None
      end
  end
with parse_members (fuel : nat) (s : jsstring)
  : option (list (jsstring * json) * jsstring) :=
  match fuel with
  | O => None
  | S f =>
      match skip_ws s with
      | 34 :: r =>
          match parse_chars r [] with
          | Some (key, r1) =>
              match skip_ws r1 with
              | 58 :: r2 =>
                  match parse_value f r2 with
                  | Some (v, r3) =>
                      match skip_ws r3 with
                      | 44 :: r4 =>
                          match parse_members f r4 with
                          | Some (ms, r5) => Some ((key, v) :: ms, r5)
                          | None => None
                          end
                      | 125 :: r4 => Some ([(key, v)], r4)
                      | _ => None
                      end
                  | None => None
                  end
              | _ => None
              end
          | None => None
          end
      | _ => None
      end
  end.

(** [JSON.parse(text)]: one value, surrounded by white space only. The
    fuel bounds the nesting of the calls, which take a character each. *)
Definition parse (text : jsstring) : result json :=
  match parse_value (2 * length text + 2) text with
  | Some (v, r) =>
      match skip_ws r with
      | [] => Ok v
      | _ => Throw SyntaxError
      end
  | None => Throw SyntaxError
  end.

(** The value of property [k] of an object, as [o.k] reads it. *)
Fixpoint lookup_last (k : jsstring) (ms : list (jsstring * json)) (found : option json)
  : option json :=
  match ms with
  | [] => found
  | (k', v) :: ms' => lookup_last k ms' (if Str.eqb k k' then Some v else found)
  end.

Definition prop (o : list (jsstring * json)) (k : string) : option json :=
  lookup_last (js k) o None.

(** The integer a number denotes, when it denotes one. *)
Definition as_integer (m e : Z) : option Z :=
  if (0 <=? e)%Z then Some (m * 10 ^ e)%Z
  else if (m mod 10 ^ (- e) =? 0)%Z then Some (m / 10 ^ (- e))%Z
  else None.
End JSON.

(** ** The data model ([types.ts]) *)

Module Resource.
Inductive kind := video | blog | documentation | other.
Record t := mk { title : jsstring; url : jsstring; type : kind }.
End Resource.

Module Task.
Record t := mk {
  id : jsstring;
  text : jsstring;
  isCompleted : bool;
  resources : option (list Resource.t) }.
End Task.

Module Session.
(** [end_] is the field [end]; [None] is [null]. *)
Record t := mk { start : Z; end_ : option Z }.
End Session.

Module DayPlan.
(** [notes] and [sessions] are optional fields; [None] is an absent one. *)
Record t := mk {
  dayNumber : Z;
  title : jsstring;
  description : jsstring;
  tasks : list Task.t;
  notes : option jsstring;
  sessions : option (list Session.t) }.
End DayPlan.

Module LearningPlan.
Record t := mk {
  id : jsstring;
  topic : jsstring;
  durationDays : Z;
  dailyTime : jsstring;
  startDate : Z;
  lastUpdated : Z;
  days : list DayPlan.t }.
End LearningPlan.

Module QuizQuestion.
Record t := mk {
  question : jsstring;
  options : list jsstring;
  correctAnswerIndex : Z;
  explanation : jsstring }.
End QuizQuestion.

(** ** Computations that read the clock *)

Definition Clock := nat -> Z.

(** A computation that may throw and that counts the clock readings it
    takes: it is run from the number of readings taken so far. *)
Definition M (A : Type) := nat -> result A * nat.

Definition retM {A} (a : A) : M A := fun n => (Ok a, n).

Definition throwM {A} (e : exn) : M A := fun n => (Throw e, n).

Definition bindM {A B} (m : M A) (k : A -> M B) : M B :=
  fun n => match m n with
           | (Ok a, n') => k a n'
           | (Throw e, n') => (Throw e, n')
           end.

Definition lift {A} (r : result A) : M A := fun n => (r, n).

(** [Date.now()], and the time value of [new Date()]. *)
Definition Date_now (clock : Clock) : M Z := fun n => (Ok (clock n), S n).

Notation "'let*' x ':=' m 'in' k" := (bindM m (fun x => k))
  (at level 10, x name, m at level 100, k at level 200).

(** [l.map((x, idx) => f x idx)], the callback run from left to right. *)
Fixpoint mmapi {A B} (f : A -> nat -> M B) (l : list A) (idx : nat) : M (list B) :=
  match l with
  | [] => retM []
  | x :: l' =>
      let* y := f x idx in
      let* ys := mmapi f l' (S idx) in
      retM (y :: ys)
  end.

(** ** The response repair routine of [geminiService] *)

Module geminiService.
Import JSON.
Local Open Scope Z_scope.

(** The pattern of [extractJson]: three backticks, an optional [json]
    tag, white space, the lazily captured block content, white space,
    three backticks. *)
Definition codeBlockPattern : list RegExp.item :=
  [ RegExp.Lit (js "```");
    RegExp.OptLit (js "json");
    RegExp.StarGreedy RegExp.is_space;
    RegExp.CaptureLazy RegExp.any;
    RegExp.StarGreedy RegExp.is_space;
    RegExp.Lit (js "```") ].

(** [text.match(...)], reduced to element [1] of the match. *)
Definition codeBlockMatch (text : jsstring) : option jsstring :=
  RegExp.exec codeBlockPattern text.

Definition invalidFormat : exn :=
  Error (js "The model generated an invalid format. Please try again.").

(** The [catch] branch of [extractJson]: the inner [try] returns the
    parsed value, its [catch] falls through to the final [throw]. *)
Definition lastResort (text : jsstring) : result json :=
  let firstOpen := Str.indexOf text (js "{") in
  let lastClose := Str.lastIndexOf text (js "}") in
  let returned :=
    if negb (firstOpen =? -1) && negb (lastClose =? -1) then
      let potentialJson := Str.substring text firstOpen (lastClose + 1) in
      match JSON.parse potentialJson with
      | Ok v => Some v
      | Throw e2 => None
      end
    else None in
  match returned with
  | Some v => Ok v
  | None => Throw invalidFormat
  end.

Definition extractJson (text : jsstring) : result json :=
  try_catch
    (match codeBlockMatch text with
     | Some block => JSON.parse block
     | None => JSON.parse text
     end)
    (fun e => lastResort text).
(** *** Reading the parsed value at the declared types

    The parsed response is an [any]; the program reads its properties
    without checking them. [get], [call_map] and [truthy] follow
    JavaScript; a property whose value is not of the type [types.ts]
    declares for it is reported as [IllTyped], where JavaScript would carry
    the value along. *)

(** [v.k] *)
Definition get (v : json) (k : string) : result (option json) :=
  match v with
  | JNull => Throw TypeError
  | JObject ms => Ok (prop ms k)
  | _ => Ok None
  end.

(** The receiver of [v.map(...)]: an array, or a [TypeError]. *)
Definition call_map (v : option json) : result (list json) :=
  match v with
  | Some (JArray l) => Ok l
  | _ => Throw TypeError
  end.

Definition truthy (v : option json) : bool :=
  match v with
  | None | Some JNull => false
  | Some (JBool b) => b
  | Some (JNumber m _) => negb (m =? 0)
  | Some (JString s) => negb (Nat.eqb (length s) 0)
  | Some (JArray _) | Some (JObject _) => true
  end.

Definition as_string (v : option json) : result jsstring :=
  match v with
  | Some (JString s) => Ok s
  | _ => Throw IllTyped
  end.

Definition as_number (v : option json) : result Z :=
  match v with
  | Some (JNumber m e) =>
      match as_integer m e with
      | Some z => Ok z
      | None => Throw IllTyped
      end
  | _ => Throw IllTyped
  end.

Definition as_kind (v : option json) : result Resource.kind :=
  rbind (as_string v) (fun s =>
    if Str.eqb s (js "video") then Ok Resource.video
    else if Str.eqb s (js "blog") then Ok Resource.blog
    else if Str.eqb s (js "documentation") then Ok Resource.documentation
    else if Str.eqb s (js "other") then Ok Resource.other
    else Throw IllTyped).

Definition as_resource (v : json) : result Resource.t :=
  match v with
  | JObject ms =>
      rbind (as_string (prop ms "title")) (fun title =>
      rbind (as_string (prop ms "url")) (fun url =>
      rbind (as_kind (prop ms "type")) (fun type =>
      Ok (Resource.mk title url type))))
  | _ => Throw IllTyped
  end.

Definition as_resources (v : option json) : result (list Resource.t) :=
  match v with
  | Some (JArray l) => rmap as_resource l
  | _ => Throw IllTyped
  end.

(** [typeof t === 'string' ? t : t.text] *)
Definition taskText (t : json) : result jsstring :=
  match t with
  | JString s => Ok s
  | _ => rbind (get t "text") as_string
  end.

(** [typeof t === 'object' && t.resources ? t.resources : []] *)
Definition taskResources (t : json) : result (list Resource.t) :=
  match t with
  | JNull | JArray _ | JObject _ =>
      rbind (get t "resources") (fun r =>
        if truthy r then as_resources r else Ok [])
  | _ => Ok []
  end.

Definition dash : jsstring := js "-".

(** *** [generateLearningPlan] *)

(** The callback of [d.tasks.map] in [generateLearningPlan]. *)
Definition formatTask (dayNumber : Z) (t : json) (idx : nat) : M Task.t :=
  let id := js "task-" ++ Str.of_Z dayNumber ++ dash ++ Str.of_Z (Z.of_nat idx) in
  let* text := lift (taskText t) in
  let* resources := lift (taskResources t) in
  retM (Task.mk id text false (Some resources)).

(** The callback of [data.days.map] in [generateLearningPlan]. *)
Definition formatDay (d : json) (_ : nat) : M DayPlan.t :=
  let* dayNumber := lift (rbind (get d "dayNumber") as_number) in
  let* title := lift (rbind (get d "title") as_string) in
  let* description := lift (rbind (get d "description") as_string) in
  let* ts := lift (rbind (get d "tasks") call_map) in
  let* tasks := mmapi (formatTask dayNumber) ts 0 in
  retM (DayPlan.mk dayNumber title description tasks None None).

(** What [generateLearningPlan] resolves to: a plan without [id],
    [startDate] and [lastUpdated]. *)
Record GeneratedPlan := mkGenerated {
  g_topic : jsstring;
  g_durationDays : Z;
  g_dailyTime : jsstring;
  g_days : list DayPlan.t }.

(** [if (!text) throw new Error("No response from Gemini")] *)
Definition responseText (response : result (option jsstring)) : result jsstring :=
  rbind response (fun text =>
    match text with
    | None | Some [] => Throw (Error (js "No response from Gemini"))
    | Some t => Ok t
    end).

(** [response] is what [ai.models.generateContent] settles to: a
    rejection, or the [text] of the response. The enclosing [try]
    rethrows what it catches. *)
Definition generateLearningPlan (response : result (option jsstring)) : M GeneratedPlan :=
  let* text := lift (responseText response) in
  let* data := lift (extractJson text) in
  let* ds := lift (rbind (get data "days") call_map) in
  let* formattedDays := mmapi formatDay ds 0 in
  let* topic := lift (rbind (get data "topic") as_string) in
  let* durationDays := lift (rbind (get data "durationDays") as_number) in
  let* dailyTime := lift (rbind (get data "dailyTime") as_string) in
  retM (mkGenerated topic durationDays dailyTime formattedDays).

(** *** [updatePlanWithChat] *)

(** The callback of [d.tasks.map] in [updatePlanWithChat]. *)
Definition updateTask (clock : Clock) (dayNumber : Z) (t : json) (idx : nat) : M Task.t :=
  let* now := Date_now clock in
  let id := js "task-" ++ Str.of_Z dayNumber ++ dash ++ Str.of_Z (Z.of_nat idx)
            ++ dash ++ Str.of_Z now in
  let* text := lift (taskText t) in
  let* resources := lift (taskResources t) in
  retM (Task.mk id text false (Some resources)).

(** The callback of [data.days.map] in [updatePlanWithChat]. *)
Definition updateDay (clock : Clock) (d : json) (_ : nat) : M DayPlan.t :=
  let* dayNumber := lift (rbind (get d "dayNumber") as_number) in
  let* title := lift (rbind (get d "title") as_string) in
  let* description := lift (rbind (get d "description") as_string) in
  let* ts := lift (rbind (get d "tasks") call_map) in
  let* tasks := mmapi (updateTask clock dayNumber) ts 0 in
  retM (DayPlan.mk dayNumber title description tasks None None).

(** The days of [currentPlan] reach the model through the prompt only;
    the result is built from [response]. *)
Definition updatePlanWithChat (clock : Clock) (currentPlan : LearningPlan.t)
    (response : result (option jsstring)) : M LearningPlan.t :=
  let* text := lift (responseText response) in
  let* data := lift (extractJson text) in
  let* ds := lift (rbind (get data "days") call_map) in
  let* updatedDays := mmapi (updateDay clock) ds 0 in
  let* lastUpdated := Date_now clock in
  retM (LearningPlan.mk
          (LearningPlan.id currentPlan)
          (LearningPlan.topic currentPlan)
          (Z.of_nat (length updatedDays))
          (LearningPlan.dailyTime currentPlan)
          (LearningPlan.startDate currentPlan)
          lastUpdated
          updatedDays).
End geminiService.

(** ** [Date]: the time-value arithmetic of ECMAScript *)

Module JsDate.
Local Open Scope Z_scope.

Definition msPerDay : Z := 86400000.

Definition Day (t : Z) : Z := t / msPerDay.
Definition TimeWithinDay (t : Z) : Z := t mod msPerDay.

(** The day number of the first day of year [y]. *)
Definition DayFromYear (y : Z) : Z :=
  365 * (y - 1970) + (y - 1969) / 4 - (y - 1901) / 100 + (y - 1601) / 400.

Definition DaysInYear (y : Z) : Z := DayFromYear (y + 1) - DayFromYear y.

(** The year a day falls in: the largest [y] with [DayFromYear y <= d],
    found from an estimate that is off by at most one. *)
Definition YearFromDay (d : Z) : Z :=
  let y := 1970 + (d * 400) / 146097 in
  if DayFromYear (y + 1) <=? d then y + 1
  else if d <? DayFromYear y then y - 1
  else y.

Definition YearFromTime (t : Z) : Z := YearFromDay (Day t).

Definition InLeapYear (t : Z) : Z :=
  if DaysInYear (YearFromTime t) =? 366 then 1 else 0.

Definition DayWithinYear (t : Z) : Z := Day t - DayFromYear (YearFromTime t).

(** The day within the year on which month [m] (0 to 11) starts. *)
Definition monthStart (m leap : Z) : Z :=
  match m with
  | 0 => 0
  | 1 => 31
  | 2 => 59 + leap
  | 3 => 90 + leap
  | 4 => 120 + leap
  | 5 => 151 + leap
  | 6 => 181 + leap
  | 7 => 212 + leap
  | 8 => 243 + leap
  | 9 => 273 + leap
  | 10 => 304 + leap
  | _ => 334 + leap
  end.

Definition MonthFromTime (t : Z) : Z :=
  let d := DayWithinYear t in
  let leap := InLeapYear t in
  if d <? 31 then 0
  else if d <? 59 + leap then 1
  else if d <? 90 + leap then 2
  else if d <? 120 + leap then 3
  else if d <? 151 + leap then 4
  else if d <? 181 + leap then 5
  else if d <? 212 + leap then 6
  else if d <? 243 + leap then 7
  else if d <? 273 + leap then 8
  else if d <? 304 + leap then 9
  else if d <? 334 + leap then 10
  else 11.

Definition DateFromTime (t : Z) : Z :=
  DayWithinYear t - monthStart (MonthFromTime t) (InLeapYear t) + 1.

(** [MakeDay(year, month, date)]: the day number of the first day of the
    month, plus [date - 1]. *)
Definition MakeDay (year month date : Z) : Z :=
  let ym := year + month / 12 in
  let mn := month mod 12 in
  let leap := if DaysInYear ym =? 366 then 1 else 0 in
  DayFromYear ym + monthStart mn leap + date - 1.

Definition MakeDate (day time : Z) : Z := day * msPerDay + time.

Section LocalTime.
(** The offset of local time from UTC, in milliseconds. *)
Variable tza : Z.

Definition LocalTime (t : Z) : Z := t + tza.
Definition UTC (t : Z) : Z := t - tza.

Definition getFullYear (d : Z) : Z := YearFromTime (LocalTime d).
Definition getMonth (d : Z) : Z := MonthFromTime (LocalTime d).
Definition getDate (d : Z) : Z := DateFromTime (LocalTime d).

(** [d.setDate(dt)]: the new time value of [d]. *)
Definition setDate (d dt : Z) : Z :=
  let t := LocalTime d in
  UTC (MakeDate (MakeDay (YearFromTime t) (MonthFromTime t) dt) (TimeWithinDay t)).

(** [d.setHours(0, 0, 0, 0)]: the new time value of [d]. *)
Definition setHours0 (d : Z) : Z :=
  let t := LocalTime d in
  UTC (MakeDate (Day t) 0).

(** The calendar day of local time a time value falls on. *)
Definition localDay (d : Z) : Z := Day (LocalTime d).
End LocalTime.

(** [Math.ceil(a / b)] for [b > 0]. *)
Definition ceil_div (a b : Z) : Z := - ((- a) / b).
End JsDate.

(** ** The plan store ([App]) *)

Module App.
Local Open Scope Z_scope.

Inductive ViewMode := create | view.

(** The state of the component, and the entry of [localStorage] under
    [STORAGE_KEY] ([None]: no entry), kept as the plans it serializes. *)
Record State := mk {
  plans : list LearningPlan.t;
  activePlanId : option jsstring;
  viewMode : ViewMode;
  selectedDay : option DayPlan.t;
  isSidePanelOpen : bool;
  storage : option (list LearningPlan.t) }.

Definition initial : State := mk [] None view None false None.

(** [plan.id === activePlanId] *)
Definition isActive (activePlanId : option jsstring) (plan : LearningPlan.t) : bool :=
  match activePlanId with
  | Some a => Str.eqb (LearningPlan.id plan) a
  | None => false
  end.

(** [!activePlanId]: [null] and the empty string are falsy. *)
Definition noActivePlan (activePlanId : option jsstring) : bool :=
  match activePlanId with
  | None | Some [] => true
  | Some _ => false
  end.

Definition setPlans (ps : list LearningPlan.t) (s : State) : State :=
  mk ps (activePlanId s) (viewMode s) (selectedDay s) (isSidePanelOpen s) (storage s).

Definition setDays (ds : list DayPlan.t) (p : LearningPlan.t) : LearningPlan.t :=
  LearningPlan.mk (LearningPlan.id p) (LearningPlan.topic p)
    (LearningPlan.durationDays p) (LearningPlan.dailyTime p)
    (LearningPlan.startDate p) (LearningPlan.lastUpdated p) ds.

(** *** Mount: hydrate from [localStorage] *)
Definition load (s : State) : State :=
  match storage s with
  | Some parsedPlans =>
      match parsedPlans with
      | p :: _ =>
          mk parsedPlans (Some (LearningPlan.id p)) (viewMode s)
             (selectedDay s) (isSidePanelOpen s) (storage s)
      | [] =>
          mk parsedPlans (activePlanId s) create
             (selectedDay s) (isSidePanelOpen s) (storage s)
      end
  | None =>
      mk (plans s) (activePlanId s) create
         (selectedDay s) (isSidePanelOpen s) (storage s)
  end.

(** *** The effect that saves the plans *)
Definition saveEffect (s : State) : State :=
  match plans s with
  | [] => s
  | _ :: _ =>
      mk (plans s) (activePlanId s) (viewMode s) (selectedDay s)
         (isSidePanelOpen s) (Some (plans s))
  end.

(** *** The effect that selects today's day *)

(** The day the effect selects for [plan], if any; [now] is the time
    value of [new Date()]. *)
Definition todaysDay (tza now : Z) (plan : LearningPlan.t) : option DayPlan.t :=
  let today := JsDate.setHours0 tza now in
  let startDate := LearningPlan.startDate plan in
  let diffTime := Z.abs (today - startDate) in
  let diffDays := JsDate.ceil_div diffTime (1000 * 60 * 60 * 24) in
  if (today >=? startDate) && (diffDays <? Z.of_nat (length (LearningPlan.days plan)))
  then find (fun d => DayPlan.dayNumber d =? diffDays + 1) (LearningPlan.days plan)
  else None.

Definition autoSelectEffect (tza now : Z) (s : State) : State :=
  if negb (noActivePlan (activePlanId s)) && (0 <? Z.of_nat (length (plans s))) then
    match find (isActive (activePlanId s)) (plans s) with
    | Some plan =>
        match todaysDay tza now plan with
        | Some targetDay =>
            mk (plans s) (activePlanId s) (viewMode s) (Some targetDay)
               (isSidePanelOpen s) (storage s)
        | None => s
        end
    | None => s
    end
  else s.

(** *** The handlers *)

Definition handleCreatePlan (newPlan : LearningPlan.t) (s : State) : State :=
  mk (newPlan :: plans s) (Some (LearningPlan.id newPlan)) view
     (head (LearningPlan.days newPlan)) true (storage s).

(** [confirmed] is the answer of [window.confirm]. *)
Definition handleDeletePlan (id : jsstring) (confirmed : bool) (s : State) : State :=
  if confirmed then
    let newPlans := List.filter (fun p => negb (Str.eqb (LearningPlan.id p) id)) (plans s) in
    if match activePlanId s with Some a => Str.eqb a id | None => false end then
      mk newPlans
         (match newPlans with p :: _ => Some (LearningPlan.id p) | [] => None end)
         (match newPlans with [] => create | _ => viewMode s end)
         (selectedDay s) (isSidePanelOpen s) (storage s)
    else setPlans newPlans s
  else s.

Definition toggleTaskInTask (taskId : jsstring) (task : Task.t) : Task.t :=
  if Str.eqb (Task.id task) taskId
  then Task.mk (Task.id task) (Task.text task) (negb (Task.isCompleted task))
               (Task.resources task)
  else task.

Definition toggleTaskInDay (dayNumber : Z) (taskId : jsstring) (day : DayPlan.t)
  : DayPlan.t :=
  if negb (DayPlan.dayNumber day =? dayNumber) then day
  else DayPlan.mk (DayPlan.dayNumber day) (DayPlan.title day) (DayPlan.description day)
         (map (toggleTaskInTask taskId) (DayPlan.tasks day))
         (DayPlan.notes day) (DayPlan.sessions day).

Definition handleToggleTask (dayNumber : Z) (taskId : jsstring) (s : State) : State :=
  if noActivePlan (activePlanId s) then s
  else
    setPlans
      (map (fun plan =>
              if negb (isActive (activePlanId s) plan) then plan
              else setDays (map (toggleTaskInDay dayNumber taskId)
                                (LearningPlan.days plan)) plan)
           (plans s)) s.

Definition updateNotesInDay (dayNumber : Z) (notes : jsstring) (day : DayPlan.t)
  : DayPlan.t :=
  if negb (DayPlan.dayNumber day =? dayNumber) then day
  else DayPlan.mk (DayPlan.dayNumber day) (DayPlan.title day) (DayPlan.description day)
         (DayPlan.tasks day) (Some notes) (DayPlan.sessions day).

Definition handleUpdateNotes (dayNumber : Z) (notes : jsstring) (s : State) : State :=
  if noActivePlan (activePlanId s) then s
  else
    setPlans
      (map (fun plan =>
              if negb (isActive (activePlanId s) plan) then plan
              else setDays (map (updateNotesInDay dayNumber notes)
                                (LearningPlan.days plan)) plan)
           (plans s)) s.

(** The new session list of a day whose session is toggled at [now]. *)
Definition toggleSessions (now : Z) (sessions : list Session.t) : list Session.t :=
  let lastSession :=
    if (0 <? length sessions)%nat then sessions !! (length sessions - 1)%nat
    else None in
  let isRunning :=
    match lastSession with
    | Some l => match Session.end_ l with None => true | Some _ => false end
    | None => false
    end in
  match lastSession with
  | Some l =>
      if isRunning
      then <[(length sessions - 1)%nat := Session.mk (Session.start l) (Some now)]> sessions
      else sessions ++ [Session.mk now None]
  | None => sessions ++ [Session.mk now None]
  end.

(** The callback of [plan.days.map] in [handleSessionToggle]: a day of
    the given number takes one reading of the clock. *)
Definition toggleSessionInDay (clock : Clock) (dayNumber : Z) (day : DayPlan.t)
    (n : nat) : DayPlan.t * nat :=
  if negb (DayPlan.dayNumber day =? dayNumber) then (day, n)
  else
    let sessions := match DayPlan.sessions day with Some l => l | None => [] end in
    let newSessions := toggleSessions (clock n) sessions in
    (DayPlan.mk (DayPlan.dayNumber day) (DayPlan.title day) (DayPlan.description day)
       (DayPlan.tasks day) (DayPlan.notes day) (Some newSessions), S n).

(** [l.map(f)] for a callback that reads the clock. *)
Fixpoint mapC {A B} (f : A -> nat -> B * nat) (l : list A) (n : nat) : list B * nat :=
  match l with
  | [] => ([], n)
  | x :: l' =>
      let '(y, n1) := f x n in
      let '(ys, n2) := mapC f l' n1 in
      (y :: ys, n2)
  end.

(** [n] is the number of clock readings taken before the handler runs. *)
Definition handleSessionToggle (clock : Clock) (n : nat) (dayNumber : Z) (s : State)
  : State :=
  if noActivePlan (activePlanId s) then s
  else
    setPlans
      (fst (mapC (fun plan k =>
                    if negb (isActive (activePlanId s) plan) then (plan, k)
                    else
                      let '(ds, k') := mapC (toggleSessionInDay clock dayNumber)
                                            (LearningPlan.days plan) k in
                      (setDays ds plan, k'))
                 (plans s) n)) s.

Definition handleUpdatePlan (updatedPlan : LearningPlan.t) (s : State) : State :=
  setPlans
    (map (fun p => if Str.eqb (LearningPlan.id p) (LearningPlan.id updatedPlan)
                   then updatedPlan else p)
         (plans s)) s.

(** A click on a plan of the sidebar. *)
Definition selectPlan (id : jsstring) (s : State) : State :=
  mk (plans s) (Some id) view (selectedDay s) (isSidePanelOpen s) (storage s).

(** [onSelectDay] of the calendar. *)
Definition selectDay (day : DayPlan.t) (s : State) : State :=
  mk (plans s) (activePlanId s) (viewMode s) (Some day) true (storage s).

(** [activePlan] and [currentSelectedDay], derived on every render. *)
Definition activePlan (s : State) : option LearningPlan.t :=
  find (isActive (activePlanId s)) (plans s).

Definition currentSelectedDay (s : State) : option DayPlan.t :=
  match activePlan s, selectedDay s with
  | Some p, Some sel =>
      find (fun d => DayPlan.dayNumber d =? DayPlan.dayNumber sel) (LearningPlan.days p)
  | _, _ => None
  end.
End App.

(** ** The calendar view model ([PlanCalendar]) *)

Module PlanCalendar.
Local Open Scope Z_scope.

Section Component.
Variable tza : Z.
(** The plan shown, and the time value of [new Date()] at render. *)
Variable plan : LearningPlan.t.
Variable now : Z.

(** [startDate] and [today], both after [setHours(0,0,0,0)]. *)
Definition startDate : Z := JsDate.setHours0 tza (LearningPlan.startDate plan).
Definition today : Z := JsDate.setHours0 tza now.

Definition getDayDate (dayNumber : Z) : Z :=
  let date := startDate in
  JsDate.setDate tza date (JsDate.getDate tza startDate + (dayNumber - 1)).

Definition isSameDay (d1 d2 : Z) : bool :=
  (JsDate.getFullYear tza d1 =? JsDate.getFullYear tza d2)
  && (JsDate.getMonth tza d1 =? JsDate.getMonth tza d2)
  && (JsDate.getDate tza d1 =? JsDate.getDate tza d2).

Definition allCompleted (day : DayPlan.t) : bool :=
  (0 <? length (DayPlan.tasks day))%nat
  && forallb Task.isCompleted (DayPlan.tasks day).

Definition getStatusColor (day : DayPlan.t) (date : Z) (isSelected : bool) : string :=
  let isPast := date <? today in
  let isToday := isSameDay date today in
  if allCompleted day then "bg-emerald-50 text-emerald-900"%string
  else if isPast && negb (allCompleted day) then "bg-red-50 text-red-900"%string
  else if isToday then "bg-white text-indigo-900"%string
  else "bg-white text-gray-700"%string.
End Component.

(** What the classes returned by [getStatusColor] stand for (the legend
    of the calendar). *)
Definition completed : string := "bg-emerald-50 text-emerald-900".
Definition missed : string := "bg-red-50 text-red-900".
Definition todayStatus : string := "bg-white text-indigo-900".
Definition upcoming : string := "bg-white text-gray-700".
End PlanCalendar.

(** ** Quiz scoring ([QuizModal]) *)

Module QuizModal.
Local Open Scope Z_scope.

(** [userAnswers]: an array that may have holes; [None] is a hole. *)
Definition answers := list (option Z).

(** [userAnswers[idx]]: [None] is [undefined] (a hole, or past the end). *)
Definition answerAt (userAnswers : answers) (idx : nat) : option Z :=
  match userAnswers !! idx with
  | Some a => a
  | None => None
  end.

(** [newAnswers[currentIndex] = optionIndex] on a copy: an index past the
    end extends the array with holes. *)
Definition handleAnswer (userAnswers : answers) (currentIndex : nat) (optionIndex : Z)
  : answers :=
  if (currentIndex <? length userAnswers)%nat
  then <[currentIndex := Some optionIndex]> userAnswers
  else userAnswers ++ replicate (currentIndex - length userAnswers) None
         ++ [Some optionIndex].

(** [userAnswers[idx] === q.correctAnswerIndex] *)
Definition isCorrect (userAnswers : answers) (q : QuizQuestion.t) (idx : nat) : bool :=
  match answerAt userAnswers idx with
  | Some a => a =? QuizQuestion.correctAnswerIndex q
  | None => false
  end.

(** The loop of [calculateScore]: [forEach] from index [idx] on. *)
Fixpoint forEach_score (userAnswers : answers) (qs : list QuizQuestion.t)
    (idx : nat) (score : Z) : Z :=
  match qs with
  | [] => score
  | q :: qs' =>
      forEach_score userAnswers qs' (S idx)
        (if isCorrect userAnswers q idx then score + 1 else score)
  end.

Definition calculateScore (questions : list QuizQuestion.t) (userAnswers : answers) : Z :=
  forEach_score userAnswers questions 0 0.

(** [handleNext]: the next index, or the results. *)
Definition handleNext (questions : list QuizQuestion.t) (currentIndex : nat)
  : nat * bool :=
  if (Z.of_nat currentIndex <? Z.of_nat (length questions) - 1)
  then (S currentIndex, false)
  else (currentIndex, true).
End QuizModal.

(** ** The repair algorithm as the specification words it *)

Module RepairSpec.
Import JSON geminiService.
Local Open Scope Z_scope.

(** A recovery strategy: the value it recovers from the text, if any. *)
Definition strategy := jsstring -> option json.

Definition parses (s : jsstring) : option json :=
  match JSON.parse s with
  | Ok v => Some v
  | Throw _ => None
  end.

(** 1. The content of a fenced code block, if there is one. *)
Definition fenced : strategy := fun text =>
  match codeBlockMatch text with
  | Some block => parses block
  | None => None
  end.

(** 2. The raw response text. *)
Definition raw : strategy := parses.

(** 3. The substring from the first opening brace to the last closing
    brace, both included. *)
Definition braces : strategy := fun text =>
  let firstOpen := Str.indexOf text (js "{") in
  let lastClose := Str.lastIndexOf text (js "}") in
  if (0 <=? firstOpen) && (firstOpen <=? lastClose)
  then parses (Str.substring text firstOpen (lastClose + 1))
  else None.

(** The strategies are tried in order; the first success wins. *)
Fixpoint first_success (l : list strategy) (text : jsstring) : option json :=
  match l with
  | [] => None
  | st :: l' =>
      match st text with
      | Some v => Some v
      | None => first_success l' text
      end
  end.

(** 4. If every attempt fails, fail with the user-facing message. *)
Definition outcome (r : option json) : result json :=
  match r with
  | Some v => Ok v
  | None => Throw invalidFormat
  end.

Definition repair (text : jsstring) : result json :=
  outcome (first_success [fenced; raw; braces] text).

(** The last closing brace stands before the first opening brace: the
    text has no substring from the one to the other. *)
Definition bracesReversed (text : jsstring) : bool :=
  let firstOpen := Str.indexOf text (js "{") in
  let lastClose := Str.lastIndexOf text (js "}") in
  (0 <=? lastClose) && (lastClose <? firstOpen).
End RepairSpec.

(** ** Sample data for the examples *)

Module Sample.
Local Open Scope Z_scope.

Definition quote : jsstring := [34%N].

(** A JSON string whose content is a fenced block. *)
Definition fencedInString : jsstring := quote ++ js "```x```" ++ quote.

(** A JSON array that holds such a string. *)
Definition fencedInArray : jsstring := js "[1, " ++ fencedInString ++ js "]".

Definition proseAroundObject : jsstring := js "Here is the plan: {} Enjoy!".

(** A fenced block tagged [json], on lines of its own, between prose. *)
Definition fencedResponse : jsstring :=
  js "Sure! ```json" ++ [10%N] ++ js "[1, 2]" ++ [10%N] ++ js "``` Done.".

Definition task (id : string) (done : bool) : Task.t :=
  Task.mk (js id) (js "read") done None.

Definition day (n : Z) (tasks : list Task.t) : DayPlan.t :=
  DayPlan.mk n (js "title") (js "description") tasks None None.

Definition threeDays : list DayPlan.t :=
  [ day 1 [task "task-1-0" false];
    day 2 [task "task-2-0" false];
    day 3 [task "task-3-0" false] ].

Definition planFrom (startDate : Z) (days : list DayPlan.t) : LearningPlan.t :=
  LearningPlan.mk (js "plan-a") (js "Rocq") (Z.of_nat (length days)) (js "1 hour")
    startDate startDate days.

(** Time values: 2023-01-30T08:15Z, 2023-12-30T08:15Z, 2024-01-10T14:30Z
    and 2024-01-10T18:00Z. *)
Definition jan30_2023 : Z := 1675066500000.
Definition dec30_2023 : Z := 1703924100000.
Definition jan10_2024_afternoon : Z := 1704897000000.
Definition jan10_2024_evening : Z := 1704909600000.

(** Local time one hour ahead of UTC. *)
Definition plusOneHour : Z := 3600000.
End Sample.

(** ** The open-session invariant and the operations of the store *)

Module Store.
Import geminiService App.

(** [day.sessions || []] *)
Definition sessionsOf (d : DayPlan.t) : list Session.t :=
  match DayPlan.sessions d with
  | Some l => l
  | None => []
  end.

Definition isOpen (x : Session.t) : Prop := Session.end_ x = None.

(** At most one session of the sequence is open. *)
Definition atMostOneOpen (l : list Session.t) : Prop :=
  forall i j x y, l !! i = Some x -> l !! j = Some y -> isOpen x -> isOpen y -> i = j.

(** An open session is the last element of the sequence. *)
Definition openIsLast (l : list Session.t) : Prop :=
  forall i x, l !! i = Some x -> isOpen x -> S i = length l.

Definition dayOk (d : DayPlan.t) : Prop :=
  atMostOneOpen (sessionsOf d) /\ openIsLast (sessionsOf d).

Definition planOk (p : LearningPlan.t) : Prop := Forall dayOk (LearningPlan.days p).

(** The invariant, on the plans of the store, on the plans saved in
    [localStorage] and on the selected day, a copy of a day of a plan. *)
Definition invariant (s : State) : Prop :=
  Forall planOk (plans s)
  /\ (forall ps, storage s = Some ps -> Forall planOk ps)
  /\ (forall d, selectedDay s = Some d -> dayOk d).

(** The operations: each constructor is one handler or effect of [App].
    A plan handed to [handleCreatePlan] comes from the plan wizard, which
    completes a result of [generateLearningPlan]; a plan handed to
    [handleUpdatePlan] is a result of [updatePlanWithChat]; a day handed to
    [selectDay] is one the calendar shows. *)
Inductive step : State -> State -> Prop :=
| step_restart s :
    step s (load (mk [] None view None false (storage s)))
| step_save s :
    step s (saveEffect s)
| step_autoSelect tza now s :
    step s (autoSelectEffect tza now s)
| step_createPlan response n g n' newPlan s :
    generateLearningPlan response n = (Ok g, n') ->
    LearningPlan.days newPlan = g_days g ->
    step s (handleCreatePlan newPlan s)
| step_deletePlan id confirmed s :
    step s (handleDeletePlan id confirmed s)
| step_toggleTask dayNumber taskId s :
    step s (handleToggleTask dayNumber taskId s)
| step_updateNotes dayNumber notes s :
    step s (handleUpdateNotes dayNumber notes s)
| step_toggleSession clock n dayNumber s :
    step s (handleSessionToggle clock n dayNumber s)
| step_updatePlan clock currentPlan response n updatedPlan n' s :
    updatePlanWithChat clock currentPlan response n = (Ok updatedPlan, n') ->
    step s (handleUpdatePlan updatedPlan s)
| step_selectPlan id s :
    step s (selectPlan id s)
| step_selectDay p day s :
    activePlan s = Some p -> In day (LearningPlan.days p) ->
    step s (selectDay day s).

Inductive reachable : State -> Prop :=
| reachable_initial : reachable initial
| reachable_step s s' : reachable s -> step s s' -> reachable s'.

(** The task at position [k] of the day at position [j] of the plan at
    position [i]. *)
Definition taskAt (s : State) (i j k : nat) : option Task.t :=
  match plans s !! i with
  | Some p =>
      match LearningPlan.days p !! j with
      | Some d => DayPlan.tasks d !! k
      | None => None
      end
  | None => None
  end.


Definition flipped (t : Task.t) : Task.t :=
  Task.mk (Task.id t) (Task.text t) (negb (Task.isCompleted t)) (Task.resources t).



Definition setSessions (l : list Session.t) (d : DayPlan.t) : DayPlan.t :=
  DayPlan.mk (DayPlan.dayNumber d) (DayPlan.title d) (DayPlan.description d)
    (DayPlan.tasks d) (DayPlan.notes d) (Some l).

(** The end of a closed session is not before its start. *)
Definition wellTimed (x : Session.t) : Prop :=
  match Session.end_ x with
  | Some e => (Session.start x <= e)%Z
  | None => True
  end.

(** A callback that reads the clock never lowers the count of readings. *)
Definition monotone {A B} (f : A -> nat -> B * nat) : Prop :=
  forall x m, (m <= snd (f x m))%nat.

End Store.

(** ** Sample stores *)

Module StoreSample.
Local Open Scope Z_scope.

Definition plan : LearningPlan.t :=
  Sample.planFrom Sample.jan10_2024_afternoon Sample.threeDays.

(** The plan is the only one of the store and is active. *)
Definition store : App.State :=
  App.mk [plan] (Some (LearningPlan.id plan)) App.view None false None.

(** Day 1 has a session opened at 18:00. *)
Definition dayRunning : DayPlan.t :=
  DayPlan.mk 1 (js "title") (js "description") [Sample.task "task-1-0" false] None
    (Some [Session.mk Sample.jan10_2024_evening None]).

Definition storeRunning : App.State :=
  App.mk [Sample.planFrom Sample.jan10_2024_afternoon [dayRunning]]
    (Some (js "plan-a")) App.view None false None.

(** A clock that was set back by one hour: it reads 17:00. *)
Definition clockSetBack : Clock := fun _ => Sample.jan10_2024_evening - 3600000.

(** A clock that reads 19:00, and a millisecond more at each reading. *)
Definition clockLater : Clock :=
  fun n => Sample.jan10_2024_evening + 3600000 + Z.of_nat n.

Definition q (s : string) : jsstring := Sample.quote ++ js s ++ Sample.quote.

(** A response of the model: one day with a task given as a string and a
    task given as an object. *)
Definition refinedResponse : jsstring :=
  js "```json {" ++ q "days" ++ js ": [{" ++ q "dayNumber" ++ js ": 1, "
    ++ q "title" ++ js ": " ++ q "Basics" ++ js ", "
    ++ q "description" ++ js ": " ++ q "Start here" ++ js ", "
    ++ q "tasks" ++ js ": [" ++ q "read" ++ js ", {" ++ q "text" ++ js ": "
    ++ q "write" ++ js "}]}]} ```".

(** A plan whose only day has a completed task, notes and a session. *)
Definition planInProgress : LearningPlan.t :=
  Sample.planFrom Sample.jan10_2024_afternoon
    [ DayPlan.mk 1 (js "title") (js "description") [Sample.task "task-1-0" true]
        (Some (js "my notes"))
        (Some [Session.mk Sample.jan10_2024_evening None]) ].

(** A response of the model to a generation request. *)
Definition generatedResponse : jsstring :=
  js "{" ++ q "topic" ++ js ": " ++ q "Rocq" ++ js ", "
    ++ q "durationDays" ++ js ": 1, " ++ q "dailyTime" ++ js ": " ++ q "1 hour"
    ++ js ", " ++ q "days" ++ js ": [{" ++ q "dayNumber" ++ js ": 1, "
    ++ q "title" ++ js ": " ++ q "Basics" ++ js ", "
    ++ q "description" ++ js ": " ++ q "Start here" ++ js ", "
    ++ q "tasks" ++ js ": [" ++ q "read" ++ js "]}]}".

(** The plan the wizard makes of it. *)
Definition generatedPlan : LearningPlan.t :=
  Sample.planFrom Sample.jan10_2024_afternoon
    [ DayPlan.mk 1 (js "Basics") (js "Start here")
        [Task.mk (js "task-1-0") (js "read") false (Some [])] None None ].
End StoreSample.

(** ** Quiz scoring as the specification words it *)

Module QuizSpec.
Local Open Scope Z_scope.

(** At position [idx] the recorded answer equals the correct index of the
    question. *)
Definition matches (questions : list QuizQuestion.t) (userAnswers : QuizModal.answers)
    (idx : nat) : bool :=
  match questions !! idx, QuizModal.answerAt userAnswers idx with
  | Some q, Some a => a =? QuizQuestion.correctAnswerIndex q
  | _, _ => false
  end.

(** An answer is recorded at position [idx]. *)
Definition answered (userAnswers : QuizModal.answers) (idx : nat) : bool :=
  match QuizModal.answerAt userAnswers idx with
  | Some _ => true
  | None => false
  end.

(** The number of positions below [n] that satisfy [f]. *)
Definition countPositions (f : nat -> bool) (n : nat) : Z :=
  Z.of_nat (length (List.filter f (seq 0 n))).

Definition question (correct : Z) : QuizQuestion.t :=
  QuizQuestion.mk (js "question") [js "a"; js "b"; js "c"; js "d"] correct
    (js "explanation").
End QuizSpec.

(** ** The plan wizard ([PlanWizard]) *)

Module PlanWizard.
Import geminiService.

(** [!s.trim()]: nothing is left of [s] once its white space is trimmed. *)
Definition blank (s : jsstring) : bool := forallb RegExp.is_space s.

Record State := mk {
  topic : jsstring;
  days : Z;
  timePerDay : jsstring;
  isLoading : bool;
  error : option jsstring;
  generatedPlan : option LearningPlan.t;
  refineInput : jsstring;
  isRefining : bool }.

Definition initial : State := mk [] 7 (js "30 mins") false None None [] false.

(** [err.message || fallback]; [describe] is the message the engine gives
    an exception that is not an [Error] of the program. *)
Definition messageOr (describe : exn -> jsstring) (e : exn) (fallback : jsstring)
  : jsstring :=
  let message := match e with
                 | Error m => m
                 | _ => describe e
                 end in
  match message with
  | [] => fallback
  | _ => message
  end.

(** [{...planData, id: uuidv4(), startDate: ..., lastUpdated: ...}] *)
Definition newPlan (planData : GeneratedPlan) (id : jsstring) (startDate lastUpdated : Z)
  : LearningPlan.t :=
  LearningPlan.mk id (g_topic planData) (g_durationDays planData)
    (g_dailyTime planData) startDate lastUpdated (g_days planData).

(** [handleSubmit], from the submission to the settlement of the request:
    [uuid] is the result of [uuidv4()], [response] what the service settles
    to; the two timestamps are two readings of the clock. *)
Definition handleSubmit (describe : exn -> jsstring) (clock : Clock) (uuid : jsstring)
    (response : result (option jsstring)) (n : nat) (s : State) : State * nat :=
  if blank (topic s) then (s, n)
  else
    match generateLearningPlan response n with
    | (Ok planData, n1) =>
        (mk (topic s) (days s) (timePerDay s) false None
            (Some (newPlan planData uuid (clock n1) (clock (S n1))))
            (refineInput s) (isRefining s),
         S (S n1))
    | (Throw err, n1) =>
        (mk (topic s) (days s) (timePerDay s) false
            (Some (messageOr describe err
                     (js "Failed to generate plan. Please try again.")))
            (generatedPlan s) (refineInput s) (isRefining s),
         n1)
    end.

(** [handleRefine], from the click to the settlement of the request. *)
Definition handleRefine (clock : Clock) (response : result (option jsstring))
    (n : nat) (s : State) : State * nat :=
  match generatedPlan s with
  | Some originalPlan =>
      if blank (refineInput s) then (s, n)
      else
        match updatePlanWithChat clock originalPlan response n with
        | (Ok updated, n1) =>
            (mk (topic s) (days s) (timePerDay s) (isLoading s) None
                (Some updated) [] false,
             n1)
        | (Throw err, n1) =>
            (mk (topic s) (days s) (timePerDay s) (isLoading s)
                (Some (js "Failed to update plan. Please try again."))
                (Some originalPlan) (refineInput s) false,
             n1)
        end
  | None => (s, n)
  end.

(** The close button of the preview: [setGeneratedPlan(null)]. *)
Definition discard (s : State) : State :=
  mk (topic s) (days s) (timePerDay s) (isLoading s) (error s) None
     (refineInput s) (isRefining s).

(** The inputs of the form and of the preview. *)
Definition setTopic (t : jsstring) (s : State) : State :=
  mk t (days s) (timePerDay s) (isLoading s) (error s) (generatedPlan s)
     (refineInput s) (isRefining s).

Definition setRefineInput (r : jsstring) (s : State) : State :=
  mk (topic s) (days s) (timePerDay s) (isLoading s) (error s) (generatedPlan s)
     r (isRefining s).

(** [handleConfirm]: the plan goes to [onPlanCreated], which [App] binds to
    [handleCreatePlan]. *)
Definition handleConfirm (s : State) (app : App.State) : App.State :=
  match generatedPlan s with
  | Some plan => App.handleCreatePlan plan app
  | None => app
  end.

(** The states of the wizard. *)
Inductive step : State -> State -> Prop :=
| step_setTopic t s : step s (setTopic t s)
| step_setRefineInput r s : step s (setRefineInput r s)
| step_submit describe clock uuid response n s :
    step s (fst (handleSubmit describe clock uuid response n s))
| step_refine clock response n s :
    step s (fst (handleRefine clock response n s))
| step_discard s : step s (discard s).

Inductive reachable : State -> Prop :=
| reachable_initial : reachable initial
| reachable_step s s' : reachable s -> step s s' -> reachable s'.

(** A plan on which nothing was done yet. *)
Definition pristineDay (d : DayPlan.t) : Prop :=
  DayPlan.notes d = None /\ DayPlan.sessions d = None
  /\ Forall (fun t => Task.isCompleted t = false) (DayPlan.tasks d).

Definition pristine (p : LearningPlan.t) : Prop :=
  Forall pristineDay (LearningPlan.days p).
End PlanWizard.

(** ** The day panel ([PlanDetail]) *)

Module PlanDetail.
Local Open Scope Z_scope.

(** [if (s.end)]: [null] and [0] are falsy. *)
Definition truthyEnd (s : Session.t) : option Z :=
  match Session.end_ s with
  | Some e => if e =? 0 then None else Some e
  | None => None
  end.

(** A session that [calculateTotal] counts as ended. *)
Definition stopped (x : Session.t) : Prop := truthyEnd x <> None.

(** The loop of [calculateTotal]: the total and the [running] flag. *)
Fixpoint forEach_total (now : Z) (sessions : list Session.t) (total : Z) (running : bool)
  : Z * bool :=
  match sessions with
  | [] => (total, running)
  | s :: rest =>
      match truthyEnd s with
      | Some e => forEach_total now rest (total + (e - Session.start s)) running
      | None => forEach_total now rest (total + (now - Session.start s)) true
      end
  end.

(** [calculateTotal()]; [now] is its reading of the clock. *)
Definition calculateTotal (now : Z) (day : DayPlan.t) : Z * bool :=
  forEach_total now (Store.sessionsOf day) 0 false.

(** [day?.sessions && day.sessions.length > 0 && last.end === null] *)
Definition isSessionRunning (day : option DayPlan.t) : bool :=
  match day with
  | Some d =>
      match DayPlan.sessions d with
      | Some l =>
          (0 <? length l)%nat
          && match l !! (length l - 1)%nat with
             | Some x => match Session.end_ x with None => true | Some _ => false end
             | None => false
             end
      | None => false
      end
  | None => false
  end.

(** [n.toString().padStart(2, '0')] *)
Definition pad2 (n : Z) : jsstring :=
  let str := Str.of_Z n in
  replicate (2 - length str) 48%N ++ str.

(** The three numbers of [formatTime]. [x % 60] keeps the sign of [x]:
    [Math.floor((ms / 1000) % 60)] is the floor of [ms / 1000] less sixty
    times the truncated quotient of [ms] by a minute. *)
Definition seconds (ms : Z) : Z := ms / 1000 - 60 * (ms ÷ (1000 * 60)).
Definition minutes (ms : Z) : Z := ms / (1000 * 60) - 60 * (ms ÷ (1000 * 60 * 60)).
Definition hours (ms : Z) : Z := ms / (1000 * 60 * 60).

Definition formatTime (ms : Z) : jsstring :=
  pad2 (hours ms) ++ js ":" ++ pad2 (minutes ms) ++ js ":" ++ pad2 (seconds ms).

(** [notesInput !== day.notes] *)
Definition notesChanged (notesInput : jsstring) (day : DayPlan.t) : bool :=
  match DayPlan.notes day with
  | Some notes => negb (Str.eqb notesInput notes)
  | None => true
  end.

(** [handleNotesBlur]; [onUpdateNotes] is [handleUpdateNotes] of [App]. *)
Definition handleNotesBlur (day : option DayPlan.t) (notesInput : jsstring)
    (app : App.State) : App.State :=
  match day with
  | Some d =>
      if notesChanged notesInput d
      then App.handleUpdateNotes (DayPlan.dayNumber d) notesInput app
      else app
  | None => app
  end.
End PlanDetail.

(** ** Further notions about the store *)

Module StoreMore.
Import App.

(** The active identifier, when there is one, is that of a plan of the
    store. *)
Definition activeValid (s : State) : Prop :=
  match activePlanId s with
  | Some a => exists p, In p (plans s) /\ LearningPlan.id p = a
  | None => True
  end.

(** A new process on the same [localStorage]: every state is the initial
    one, then the mount effect runs. *)
Definition restart (s : State) : State :=
  load (mk [] None view None false (storage s)).

Definition planIds (s : State) : list jsstring := map LearningPlan.id (plans s).

(** The shape [handleToggleTask] and [handleUpdateNotes] share: [g] is
    applied to every day of every plan that has the active identifier. *)
Definition onActiveDays (g : DayPlan.t -> DayPlan.t) (s : State) : State :=
  if noActivePlan (activePlanId s) then s
  else
    setPlans
      (map (fun plan =>
              if negb (isActive (activePlanId s) plan) then plan
              else setDays (map g (LearningPlan.days plan)) plan)
           (plans s)) s.

(** The day at position [j] of the plan at position [i]. *)
Definition dayAt (s : State) (i j : nat) : option DayPlan.t :=
  match plans s !! i with
  | Some p => LearningPlan.days p !! j
  | None => None
  end.

Definition setNotes (notes : jsstring) (d : DayPlan.t) : DayPlan.t :=
  DayPlan.mk (DayPlan.dayNumber d) (DayPlan.title d) (DayPlan.description d)
    (DayPlan.tasks d) (Some notes) (DayPlan.sessions d).
End StoreMore.

(** ** Reading decimal digits back *)

Module Decimal.
Local Open Scope N_scope.

Definition is_digit (c : N) : bool := (48 <=? c) && (c <=? 57).

(** The number a sequence of digits denotes, after the number [a] of the
    digits read before. *)
Definition valueFrom (a : N) (l : jsstring) : N :=
  fold_left (fun acc c => acc * 10 + (c - 48)) l a.

Definition value (l : jsstring) : N := valueFrom 0 l.
End Decimal.

(** ** The loops of the matcher, by name *)

Module RegExpLoops.

(** The loop of [RegExp.run] at a greedy star; [k] is the rest of the
    pattern. *)
Definition greedyLoop (k : jsstring -> option jsstring) (cls : N -> bool)
  : jsstring -> option jsstring :=
  fix loop (s : jsstring) : option jsstring :=
    match s with
    | c :: s' =>
        if cls c then
          match loop s' with
          | Some r => Some r
          | None => k s
          end
        else k s
    | [] => k s
    end.

(** The loop of [RegExp.run] at the lazy capturing group; [k] is the rest
    of the pattern, given the captured text. *)
Definition lazyLoop (k : jsstring -> jsstring -> option jsstring) (cls : N -> bool)
  : jsstring -> jsstring -> option jsstring :=
  fix loop (acc : jsstring) (s : jsstring) {struct s} : option jsstring :=
    match k (rev acc) s with
    | Some r => Some r
    | None =>
        match s with
        | c :: s' => if cls c then loop (c :: acc) s' else None
        | [] => None
        end
    end.

Definition backtick : N := 96.

(** No backtick occurs in [l]. *)
Definition noBacktick (l : jsstring) : bool :=
  forallb (fun c => negb (N.eqb c backtick)) l.

(** [l] is white space only. *)
Definition allSpace (l : jsstring) : bool := forallb RegExp.is_space l.

(** [c] is not empty and neither begins nor ends with white space. *)
Definition trimmed (c : jsstring) : bool :=
  match c with
  | [] => false
  | h :: _ => negb (RegExp.is_space h) && negb (RegExp.is_space (List.last c h))
  end.

(** [r] is a contiguous piece of [s]. *)
Definition piece_of (r s : jsstring) : Prop := exists pre post, s = pre ++ r ++ post.
End RegExpLoops.


(** ** The calendar view: borders, the time badge and the month pager *)

Module CalendarView.
Local Open Scope Z_scope.
Import JsDate.

Section Component.
Variable tza : Z.
Variable plan : LearningPlan.t.
Variable now : Z.

Definition getBorderClass (day : DayPlan.t) (date : Z) (isSelected : bool) : string :=
  let allCompleted := PlanCalendar.allCompleted day in
  let isPast := date <? PlanCalendar.today tza now in
  let isToday := PlanCalendar.isSameDay tza date (PlanCalendar.today tza now) in
  if isSelected
  then "border-2 border-indigo-600 ring-4 ring-indigo-50 shadow-md transform scale-[1.02] z-10"%string
  else if isToday then "border-2 border-indigo-300 ring-2 ring-indigo-50"%string
  else if allCompleted then "border border-emerald-200 hover:border-emerald-400"%string
  else if isPast then "border border-red-200 hover:border-red-300"%string
  else "border border-gray-200 hover:border-indigo-300"%string.

(** [d.setMonth(month)]: the new time value of [d]. *)
Definition setMonth (d month : Z) : Z :=
  let t := LocalTime tza d in
  UTC tza (MakeDate (MakeDay (YearFromTime t) month (DateFromTime t)) (TimeWithinDay t)).

(** [new Date(year, month, 1)]: a year from 0 to 99 stands for a year of
    the twentieth century. *)
Definition newDate (year month : Z) : Z :=
  let yr := if (0 <=? year) && (year <=? 99) then 1900 + year else year in
  UTC tza (MakeDate (MakeDay yr month 1) 0).

Definition nextMonth (viewDate : Z) : Z :=
  let next := viewDate in
  setMonth next (getMonth tza next + 1).

Definition prevMonth (viewDate : Z) : Z :=
  let prev := viewDate in
  setMonth prev (getMonth tza prev - 1).

Definition currentDays (viewDate : Z) : list DayPlan.t :=
  List.filter
    (fun day =>
       let date := PlanCalendar.getDayDate tza plan (DayPlan.dayNumber day) in
       (getMonth tza date =? getMonth tza viewDate)
       && (getFullYear tza date =? getFullYear tza viewDate))
    (LearningPlan.days plan).

Definition planEndDate : Z :=
  let d := PlanCalendar.startDate tza plan in
  setDate tza d (getDate tza d + LearningPlan.durationDays plan - 1).

Definition planEndMonth : Z :=
  newDate (getFullYear tza planEndDate) (getMonth tza planEndDate).

Definition planStartMonth : Z :=
  newDate (getFullYear tza (PlanCalendar.startDate tza plan))
    (getMonth tza (PlanCalendar.startDate tza plan)).

Definition canGoPrev (viewDate : Z) : bool := planStartMonth <? viewDate.
Definition canGoNext (viewDate : Z) : bool := viewDate <? planEndMonth.

(** A time value at the local midnight that begins a month. *)
Definition atMonthStart (d : Z) : bool :=
  (getDate tza d =? 1) && (TimeWithinDay (LocalTime tza d) =? 0).
End Component.

(** What the classes returned by [getBorderClass] stand for. *)
Definition selectedBorder : string :=
  "border-2 border-indigo-600 ring-4 ring-indigo-50 shadow-md transform scale-[1.02] z-10".
Definition todayBorder : string := "border-2 border-indigo-300 ring-2 ring-indigo-50".
Definition completedBorder : string := "border border-emerald-200 hover:border-emerald-400".
Definition missedBorder : string := "border border-red-200 hover:border-red-300".
Definition upcomingBorder : string := "border border-gray-200 hover:border-indigo-300".

(** The day number of the first day of the month that is [k] months after
    January of year 0. *)
Definition monthDay (k : Z) : Z := MakeDay 0 k 1.

(** [sessions.reduce((acc, s) => acc + ((s.end || Date.now()) - s.start), 0)]:
    the clock is read once for each session whose end is falsy. *)
Fixpoint reduce_total (clock : Clock) (sessions : list Session.t) (acc : Z) (n : nat)
  : Z * nat :=
  match sessions with
  | [] => (acc, n)
  | s :: rest =>
      match PlanDetail.truthyEnd s with
      | Some e => reduce_total clock rest (acc + (e - Session.start s)) n
      | None => reduce_total clock rest (acc + (clock n - Session.start s)) (S n)
      end
  end.

Definition totalTimeMs (clock : Clock) (day : DayPlan.t) (n : nat) : Z * nat :=
  reduce_total clock (Store.sessionsOf day) 0 n.

(** [totalTimeMs > 60000] *)
Definition showTime (totalTimeMs : Z) : bool := 60000 <? totalTimeMs.

Definition formatShortDuration (ms : Z) : jsstring :=
  let mins := ms / (1000 * 60) in
  if mins <? 60 then Str.of_Z mins ++ js "m"
  else
    let hours := mins / 60 in
    let remainingMins := Z.rem mins 60 in
    Str.of_Z hours ++ js "h " ++ Str.of_Z remainingMins ++ js "m".
End CalendarView.

(** ** The course of a quiz *)

Module QuizFlow.
Import QuizModal.

Record State := mk {
  questions : list QuizQuestion.t;
  currentIndex : nat;
  userAnswers : answers;
  showResults : bool }.

(** The state when the generated questions arrive: the effect has reset
    the rest when the modal opened. *)
Definition loaded (qs : list QuizQuestion.t) : State := mk qs 0 [] false.

(** [questions[currentIndex]] *)
Definition currentQuestion (s : State) : option QuizQuestion.t :=
  questions s !! currentIndex s.

(** The branch of the render that shows the current question and its
    buttons: the questions are there, the results are not shown and the
    current question is defined. *)
Definition questionView (s : State) : bool :=
  negb (length (questions s) =? 0)%nat
  && negb (showResults s)
  && match currentQuestion s with Some _ => true | None => false end.

(** A click on the option of index [optionIndex]. *)
Definition answer (optionIndex : Z) (s : State) : State :=
  mk (questions s) (currentIndex s)
    (handleAnswer (userAnswers s) (currentIndex s) optionIndex) (showResults s).

(** [disabled={userAnswers[currentIndex] === undefined}], negated. *)
Definition nextEnabled (s : State) : bool :=
  match answerAt (userAnswers s) (currentIndex s) with
  | Some _ => true
  | None => false
  end.

(** A click on the button that runs [handleNext]. *)
Definition next (s : State) : State :=
  let '(i, results) := handleNext (questions s) (currentIndex s) in
  mk (questions s) i (userAnswers s) (results || showResults s).

(** What the user can do: choose one of the options of the current
    question, or go on once the button is enabled. *)
Inductive step : State -> State -> Prop :=
| step_answer s q idx :
    questionView s = true -> currentQuestion s = Some q ->
    (idx < length (QuizQuestion.options q))%nat ->
    step s (answer (Z.of_nat idx) s)
| step_next s :
    questionView s = true -> nextEnabled s = true -> step s (next s).

(** The effect keeps the generated questions only when there is one. *)
Inductive reachable : State -> Prop :=
| reach_loaded qs : qs <> [] -> reachable (loaded qs)
| reach_step s s' : reachable s -> step s s' -> reachable s'.

(** The answer recorded at [idx] is the index of an option of [q]. *)
Definition answeredWithin (userAnswers : answers) (idx : nat) (q : QuizQuestion.t)
  : Prop :=
  exists a, answerAt userAnswers idx = Some (Z.of_nat a)
            /\ (a < length (QuizQuestion.options q))%nat.

(** What holds of every state of a quiz: the index is that of a question;
    the answers recorded are those of the questions before the current one,
    with or without that of the current one; each is an option of its
    question; once the results are shown every question has its answer. *)
Definition invariant (s : State) : Prop :=
  (currentIndex s < length (questions s))%nat
  /\ (currentIndex s <= length (userAnswers s) <= S (currentIndex s))%nat
  /\ (forall idx q, (idx < length (userAnswers s))%nat ->
        questions s !! idx = Some q -> answeredWithin (userAnswers s) idx q)
  /\ (showResults s = true -> length (userAnswers s) = length (questions s)).
End QuizFlow.

(** * Theorems *)

(** ** The response repair routine *)

Section Repair.
Import JSON geminiService RepairSpec.
Local Open Scope Z_scope.

Lemma indexOf_from_lower s pat i : -1 <= i -> -1 <= Str.indexOf_from s pat i.
Proof.
  revert i. induction s as [|c s IH]; intros i Hi; simpl.
  - destruct (Str.starts_with pat []); lia.
  - destruct (Str.starts_with pat (c :: s)); [lia|]. apply IH. lia.
Qed.

Lemma lastIndexOf_from_lower s pat i found :
  -1 <= i -> -1 <= found -> -1 <= Str.lastIndexOf_from s pat i found.
Proof.
  revert i found. induction s as [|c s IH]; intros i found Hi Hf; simpl.
  - destruct (Str.starts_with pat []); lia.
  - apply IH; [lia|]. destruct (Str.starts_with pat (c :: s)); lia.
Qed.

(** Unless the braces are reversed, the [catch] branch is the third
    strategy followed by the final failure. *)
Lemma lastResort_braces text :
  bracesReversed text = false ->
  lastResort text = outcome (braces text).
Proof.
  unfold bracesReversed, lastResort, braces.
  pose proof (indexOf_from_lower text (js "{") 0 ltac:(lia)) as Ho.
  pose proof (lastIndexOf_from_lower text (js "}") 0 (-1) ltac:(lia) ltac:(lia)) as Hc.
  fold (Str.indexOf text (js "{")) in Ho.
  fold (Str.lastIndexOf text (js "}")) in Hc.
  set (firstOpen := Str.indexOf text (js "{")) in *.
  set (lastClose := Str.lastIndexOf text (js "}")) in *.
  intros Hrev.
  destruct (Z.eqb_spec firstOpen (-1)) as [E1|N1]; simpl.
  - destruct (Z.leb_spec 0 firstOpen); [lia|]. reflexivity.
  - destruct (Z.eqb_spec lastClose (-1)) as [E2|N2]; simpl.
    + destruct (Z.leb_spec 0 firstOpen); [|reflexivity].
      destruct (Z.leb_spec firstOpen lastClose); [lia|]. reflexivity.
    + destruct (Z.leb_spec 0 firstOpen); [|lia].
      destruct (Z.leb_spec firstOpen lastClose) as [Hle|Hgt]; simpl.
      * unfold parses. destruct (JSON.parse _); reflexivity.
      * exfalso. apply andb_false_iff in Hrev.
        destruct Hrev as [H1|H1]; [apply Z.leb_gt in H1|apply Z.ltb_ge in H1]; lia.
Qed.

(** The only exception that leaves [extractJson] is the one of its last
    line. *)
Lemma extractJson_throws_invalidFormat text e :
  extractJson text = Throw e -> e = invalidFormat.
Proof.
  unfold extractJson, try_catch, lastResort.
  destruct (codeBlockMatch text) as [block|].
  - destruct (JSON.parse block); [discriminate|].
    destruct (_ && _); [destruct (JSON.parse _)|]; congruence.
  - destruct (JSON.parse text); [discriminate|].
    destruct (_ && _); [destruct (JSON.parse _)|]; congruence.
Qed.

(** The routine in terms of the strategies: the first attempt is the
    fenced block when there is one and the raw text when there is none;
    the second and last attempt is the brace substring. *)
Lemma extractJson_cascade text :
  bracesReversed text = false ->
  extractJson text =
    outcome (match codeBlockMatch text with
             | Some _ => first_success [fenced; braces] text
             | None => first_success [raw; braces] text
             end).
Proof.
  intros Hrev. unfold extractJson, try_catch. rewrite (lastResort_braces _ Hrev).
  unfold first_success, fenced, raw, parses.
  destruct (codeBlockMatch text) as [block|].
  - destruct (JSON.parse block); [reflexivity|].
    destruct (braces text); reflexivity.
  - destruct (JSON.parse text); [reflexivity|].
    destruct (braces text); reflexivity.
Qed.

(** On every text but those whose fenced block does not parse while the
    raw text does, the routine is the cascade of the specification. *)
Lemma extractJson_repair text :
  bracesReversed text = false ->
  (codeBlockMatch text = None \/ fenced text <> None \/ raw text = None) ->
  extractJson text = repair text.
Proof.
  intros Hrev H. rewrite (extractJson_cascade _ Hrev). unfold repair.
  unfold first_success, fenced in *.
  destruct (codeBlockMatch text) as [block|].
  - destruct (parses block); [reflexivity|].
    destruct H as [H|[H|H]]; [discriminate|congruence|]. rewrite H. reflexivity.
  - reflexivity.
Qed.
End Repair.

(** The matcher and the parser on a typical response. *)
Example codeBlockMatch_fencedResponse :
  geminiService.codeBlockMatch Sample.fencedResponse = Some (js "[1, 2]")
  /\ geminiService.codeBlockMatch Sample.proseAroundObject = None
  /\ geminiService.extractJson Sample.fencedResponse
     = Ok (JSON.JArray [JSON.JNumber 1 0; JSON.JNumber 2 0])
  /\ RepairSpec.repair Sample.fencedResponse
     = Ok (JSON.JArray [JSON.JNumber 1 0; JSON.JNumber 2 0]).
Proof. vm_compute. repeat split; reflexivity. Qed.

(** C1 (as stated, refuted). The text is a JSON string whose content is a
    fenced block: the block [x] does not parse, the raw text does, and the
    routine fails where the cascade of the specification returns the string. *)
Lemma extractJson_skips_raw_text :
  geminiService.codeBlockMatch Sample.fencedInString = Some (js "x")
  /\ JSON.parse (js "x") = Throw SyntaxError
  /\ JSON.parse Sample.fencedInString = Ok (JSON.JString (js "```x```"))
  /\ geminiService.extractJson Sample.fencedInString = Throw geminiService.invalidFormat
  /\ RepairSpec.repair Sample.fencedInString = Ok (JSON.JString (js "```x```"))
  /\ geminiService.extractJson Sample.fencedInString
     <> RepairSpec.repair Sample.fencedInString.
Proof. vm_compute. repeat split; discriminate. Qed.

(** C1 (amended). For every response text whose last closing brace does not
    stand before its first opening brace: the routine first parses the
    content of the fenced block when there is one, and the raw text when
    there is none; if that parse fails it parses the substring from the first
    opening brace to the last closing brace; the first success wins. The raw
    text is not tried when a fenced block is present. *)
Theorem extractJson_strategy_order (text : jsstring) :
  RepairSpec.bracesReversed text = false ->
  geminiService.extractJson text =
    RepairSpec.outcome
      (match geminiService.codeBlockMatch text with
       | Some _ => RepairSpec.first_success [RepairSpec.fenced; RepairSpec.braces] text
       | None => RepairSpec.first_success [RepairSpec.raw; RepairSpec.braces] text
       end).
Proof. apply extractJson_cascade. Qed.

Lemma extractJson_strategy_order_witness :
  RepairSpec.bracesReversed Sample.proseAroundObject = false
  /\ geminiService.extractJson Sample.proseAroundObject = Ok (JSON.JObject []).
Proof.
  split; [vm_compute; reflexivity|].
  rewrite (extractJson_strategy_order Sample.proseAroundObject); vm_compute; reflexivity.
Defined.

(** C3 (as stated, refuted). The raw text is valid JSON, so one of the three
    strategies yields a value, and the routine fails. *)
Lemma extractJson_fails_on_valid_json :
  RepairSpec.raw Sample.fencedInArray
    = Some (JSON.JArray [JSON.JNumber 1 0; JSON.JString (js "```x```")])
  /\ geminiService.extractJson Sample.fencedInArray = Throw geminiService.invalidFormat.
Proof. vm_compute. split; reflexivity. Qed.

(** C3 (amended). For every response text whose last closing brace does not
    stand before its first opening brace: if the three strategies all fail,
    the routine fails with the error whose message says that the model
    generated an invalid format, and it raises no other error; it returns a
    parsed value exactly when the fenced block parses, or there is no fenced
    block and the raw text parses, or the brace substring parses. *)
Theorem extractJson_failure_and_success (text : jsstring) :
  RepairSpec.bracesReversed text = false ->
  (RepairSpec.fenced text = None -> RepairSpec.raw text = None ->
   RepairSpec.braces text = None ->
   geminiService.extractJson text = Throw geminiService.invalidFormat)
  /\ (forall e, geminiService.extractJson text = Throw e ->
                e = Error (js "The model generated an invalid format. Please try again."))
  /\ ((exists v, geminiService.extractJson text = Ok v) <->
      (RepairSpec.fenced text <> None
       \/ (geminiService.codeBlockMatch text = None /\ RepairSpec.raw text <> None)
       \/ RepairSpec.braces text <> None)).
Proof.
  intros Hrev. rewrite (extractJson_cascade _ Hrev).
  split; [|split].
  - intros Hf Hr Hb. unfold RepairSpec.first_success. rewrite Hf, Hr, Hb.
    destruct (geminiService.codeBlockMatch text); reflexivity.
  - intros e He. rewrite <- (extractJson_cascade _ Hrev) in He.
    apply (extractJson_throws_invalidFormat _ _ He).
  - unfold RepairSpec.first_success, RepairSpec.fenced.
    destruct (geminiService.codeBlockMatch text) as [block|].
    + destruct (RepairSpec.parses block) as [v|].
      * split; [intros _; left; discriminate|intros _; exists v; reflexivity].
      * destruct (RepairSpec.braces text) as [v|]; simpl.
        -- split; [intros _; right; right; discriminate|intros _; exists v; reflexivity].
        -- split; [intros [v Hv]; discriminate|].
           intros [H|[[H _]|H]]; congruence.
    + destruct (RepairSpec.raw text) as [v|]; simpl.
      * split; [intros _; right; left; split; [reflexivity|discriminate]
               |intros _; exists v; reflexivity].
      * destruct (RepairSpec.braces text) as [v|]; simpl.
        -- split; [intros _; right; right; discriminate|intros _; exists v; reflexivity].
        -- split; [intros [v Hv]; discriminate|].
           intros [H|[[_ H]|H]]; congruence.
Qed.

Lemma extractJson_failure_and_success_witness :
  RepairSpec.bracesReversed (js "no json here") = false
  /\ geminiService.extractJson (js "no json here") = Throw geminiService.invalidFormat.
Proof.
  split; [vm_compute; reflexivity|].
  apply (extractJson_failure_and_success (js "no json here"));
    vm_compute; reflexivity.
Defined.

(** The reversed braces: [substring] swaps its arguments, and the routine
    parses what stands between the closing and the opening brace. *)
Example extractJson_reversed_braces :
  geminiService.extractJson (js "}1{") = Ok (JSON.JNumber 1 0)
  /\ RepairSpec.repair (js "}1{") = Throw geminiService.invalidFormat.
Proof. vm_compute. split; reflexivity. Qed.

(** ** Dates *)

Section Dates.
Import JsDate.
Local Open Scope Z_scope.

(** [YearFromDay] finds the year ECMAScript defines: the largest [y]
    whose first day is not after [d]. *)
Lemma YearFromDay_spec d :
  DayFromYear (YearFromDay d) <= d < DayFromYear (YearFromDay d + 1).
Proof.
  unfold YearFromDay.
  set (y := 1970 + d * 400 / 146097).
  assert (Hy : 146097 * (y - 1970) <= d * 400 < 146097 * (y - 1970) + 146097).
  { subst y. pose proof (Z.div_mod (d * 400) 146097 ltac:(lia)).
    pose proof (Z.mod_pos_bound (d * 400) 146097 ltac:(lia)). lia. }
  clearbody y.
  destruct (Z.leb_spec (DayFromYear (y + 1)) d) as [H1|H1].
  - split; [exact H1|]. unfold DayFromYear in *. Z.div_mod_to_equations. lia.
  - destruct (Z.ltb_spec d (DayFromYear y)) as [H2|H2].
    + split.
      * unfold DayFromYear in *. Z.div_mod_to_equations. lia.
      * replace (y - 1 + 1) with y by lia. exact H2.
    + split; assumption.
Qed.

Lemma MonthFromTime_range t : 0 <= MonthFromTime t <= 11.
Proof.
  unfold MonthFromTime.
  repeat match goal with
         | |- context [if ?b then _ else _] => destruct b
         end; lia.
Qed.

(** A day number is recovered from its year, month and date. *)
Lemma Day_from_fields t :
  Day t = MakeDay (YearFromTime t) (MonthFromTime t) (DateFromTime t).
Proof.
  pose proof (MonthFromTime_range t) as Hm.
  unfold MakeDay.
  rewrite (Z.div_small (MonthFromTime t) 12) by lia.
  rewrite (Z.mod_small (MonthFromTime t) 12) by lia.
  rewrite Z.add_0_r.
  unfold DateFromTime, DayWithinYear, InLeapYear. lia.
Qed.

Variable tza : Z.

Lemma setDate_adds_days d k :
  setDate tza d (getDate tza d + k) = d + k * msPerDay.
Proof.
  unfold setDate, getDate, UTC, MakeDate.
  set (t := LocalTime tza d).
  pose proof (Day_from_fields t) as Hd. unfold MakeDay in *.
  replace (MakeDay (YearFromTime t) (MonthFromTime t) (DateFromTime t + k))
    with (Day t + k) by (unfold MakeDay; lia).
  unfold Day, TimeWithinDay, msPerDay in *.
  pose proof (Z.div_mod t 86400000 ltac:(lia)).
  unfold t, LocalTime in *. lia.
Qed.

Lemma LocalTime_setHours0 d :
  LocalTime tza (setHours0 tza d) = localDay tza d * msPerDay.
Proof. unfold setHours0, localDay, LocalTime, UTC, MakeDate. lia. Qed.

Lemma localDay_setHours0 d : localDay tza (setHours0 tza d) = localDay tza d.
Proof.
  unfold localDay at 1. rewrite LocalTime_setHours0.
  unfold Day, msPerDay. apply Z.div_mul. lia.
Qed.

Lemma localDay_add_days d k :
  localDay tza (d + k * msPerDay) = localDay tza d + k.
Proof.
  unfold localDay, LocalTime, Day, msPerDay.
  replace (d + k * 86400000 + tza) with (d + tza + k * 86400000) by lia.
  apply Z.div_add. lia.
Qed.

(** A time value is before a local midnight exactly when its local day
    is before the day that starts there. *)
Lemma before_midnight d now :
  d < setHours0 tza now <-> localDay tza d < localDay tza now.
Proof.
  unfold setHours0, UTC, MakeDate, localDay, LocalTime, Day, msPerDay.
  set (k := (now + tza) / 86400000).
  pose proof (Z.div_mod (d + tza) 86400000 ltac:(lia)).
  pose proof (Z.mod_pos_bound (d + tza) 86400000 ltac:(lia)).
  split; intros; nia.
Qed.

(** Two time values have the same year, month and date exactly when
    they fall on the same local day. *)
Lemma isSameDay_localDay d1 d2 :
  PlanCalendar.isSameDay tza d1 d2 = true <-> localDay tza d1 = localDay tza d2.
Proof.
  unfold PlanCalendar.isSameDay, getFullYear, getMonth, getDate, localDay.
  set (t1 := LocalTime tza d1). set (t2 := LocalTime tza d2).
  rewrite !andb_true_iff, !Z.eqb_eq. split.
  - intros [[Hy Hm] Hd].
    rewrite (Day_from_fields t1), (Day_from_fields t2). congruence.
  - intros H.
    assert (Hy : YearFromTime t1 = YearFromTime t2)
      by (unfold YearFromTime; rewrite H; reflexivity).
    assert (Hl : InLeapYear t1 = InLeapYear t2)
      by (unfold InLeapYear; rewrite Hy; reflexivity).
    assert (Hw : DayWithinYear t1 = DayWithinYear t2)
      by (unfold DayWithinYear; rewrite H, Hy; reflexivity).
    assert (Hm : MonthFromTime t1 = MonthFromTime t2)
      by (unfold MonthFromTime; rewrite Hw, Hl; reflexivity).
    unfold DateFromTime. rewrite Hw, Hm, Hl. auto.
Qed.
End Dates.

(** ** The calendar view model *)

(** C5. For every plan and every day number [N] (of any sign), the date of
    day [N] is the start date, normalised to local midnight, plus [N - 1]
    days: it depends on the plan through its start date only, it falls on the
    local calendar day of the start plus [N - 1], and day 1 is the start date
    itself. Across a month boundary, a plan that starts on 30 January 2023
    has its day 5 on 3 February 2023; across a year boundary, one that starts
    on 30 December 2023 has its day 5 on 3 January 2024. *)
Theorem getDayDate_adds_days :
  (forall (tza : Z) (plan : LearningPlan.t) (N : Z),
      PlanCalendar.getDayDate tza plan N
        = (JsDate.setHours0 tza (LearningPlan.startDate plan)
           + (N - 1) * JsDate.msPerDay)%Z
      /\ JsDate.localDay tza (PlanCalendar.getDayDate tza plan N)
        = (JsDate.localDay tza (LearningPlan.startDate plan) + (N - 1))%Z
      /\ PlanCalendar.getDayDate tza plan 1 = PlanCalendar.startDate tza plan)
  /\ (let tza := Sample.plusOneHour in
      let plan := Sample.planFrom Sample.jan30_2023 Sample.threeDays in
      let start := PlanCalendar.startDate tza plan in
      let date := PlanCalendar.getDayDate tza plan 5 in
      (JsDate.getFullYear tza start, JsDate.getMonth tza start, JsDate.getDate tza start)
        = (2023, 0, 30)
      /\ (JsDate.getFullYear tza date, JsDate.getMonth tza date, JsDate.getDate tza date)
        = (2023, 1, 3))%Z
  /\ (let tza := Sample.plusOneHour in
      let plan := Sample.planFrom Sample.dec30_2023 Sample.threeDays in
      let date := PlanCalendar.getDayDate tza plan 5 in
      (JsDate.getFullYear tza date, JsDate.getMonth tza date, JsDate.getDate tza date)
        = (2024, 0, 3))%Z.
Proof.
  split; [|split; vm_compute; auto].
  intros tza plan N.
  assert (E : PlanCalendar.getDayDate tza plan N
              = (JsDate.setHours0 tza (LearningPlan.startDate plan)
                 + (N - 1) * JsDate.msPerDay)%Z).
  { unfold PlanCalendar.getDayDate, PlanCalendar.startDate.
    apply setDate_adds_days. }
  split; [exact E|split].
  - rewrite E, localDay_add_days, localDay_setHours0. reflexivity.
  - unfold PlanCalendar.getDayDate, PlanCalendar.startDate.
    rewrite setDate_adds_days. lia.
Qed.

Section Status.
Local Open Scope Z_scope.

Lemma allCompleted_iff day :
  PlanCalendar.allCompleted day = true <->
  DayPlan.tasks day <> [] /\ Forall (fun t => Task.isCompleted t = true) (DayPlan.tasks day).
Proof.
  unfold PlanCalendar.allCompleted.
  rewrite andb_true_iff, Nat.ltb_lt, forallb_forall, Forall_forall.
  split; intros [Hn Ha]; split.
  - intros E. rewrite E in Hn. simpl in Hn. lia.
  - exact Ha.
  - destruct (DayPlan.tasks day); [congruence|simpl; lia].
  - exact Ha.
Qed.
End Status.

(** C4. For every day, every date and every reference time [now], with
    [today] the local midnight before [now]: the day is "completed" when it
    has at least one task and all its tasks are completed; otherwise it is
    "missed" when the date falls on a local day before today's; otherwise
    "today" when it falls on today's; otherwise upcoming. A day without
    tasks is never "completed". *)
Theorem getStatusColor_precedence
    (tza now : Z) (day : DayPlan.t) (date : Z) (isSelected : bool) :
  PlanCalendar.getStatusColor tza now day date isSelected
    = (if PlanCalendar.allCompleted day then PlanCalendar.completed
       else if (JsDate.localDay tza date <? JsDate.localDay tza now)%Z
            then PlanCalendar.missed
       else if (JsDate.localDay tza date =? JsDate.localDay tza now)%Z
            then PlanCalendar.todayStatus
       else PlanCalendar.upcoming)
  /\ (PlanCalendar.allCompleted day = true <->
      DayPlan.tasks day <> []
      /\ Forall (fun t => Task.isCompleted t = true) (DayPlan.tasks day))
  /\ (DayPlan.tasks day = [] ->
      PlanCalendar.getStatusColor tza now day date isSelected <> PlanCalendar.completed).
Proof.
  assert (Hpast : (date <? PlanCalendar.today tza now)%Z
                  = (JsDate.localDay tza date <? JsDate.localDay tza now)%Z).
  { unfold PlanCalendar.today.
    destruct (Z.ltb_spec date (JsDate.setHours0 tza now)) as [H|H];
      destruct (Z.ltb_spec (JsDate.localDay tza date) (JsDate.localDay tza now)) as [H'|H'];
      try reflexivity; exfalso.
    - apply before_midnight in H. lia.
    - apply before_midnight in H'. lia. }
  assert (Hsame : PlanCalendar.isSameDay tza date (PlanCalendar.today tza now)
                  = (JsDate.localDay tza date =? JsDate.localDay tza now)%Z).
  { unfold PlanCalendar.today.
    destruct (PlanCalendar.isSameDay tza date (JsDate.setHours0 tza now)) eqn:E.
    - apply isSameDay_localDay in E. rewrite localDay_setHours0 in E.
      symmetry. apply Z.eqb_eq. exact E.
    - symmetry. apply Z.eqb_neq. intros E'.
      rewrite <- (localDay_setHours0 tza now) in E'.
      apply isSameDay_localDay in E'. congruence. }
  assert (Heq : PlanCalendar.getStatusColor tza now day date isSelected
    = (if PlanCalendar.allCompleted day then PlanCalendar.completed
       else if (JsDate.localDay tza date <? JsDate.localDay tza now)%Z
            then PlanCalendar.missed
       else if (JsDate.localDay tza date =? JsDate.localDay tza now)%Z
            then PlanCalendar.todayStatus
       else PlanCalendar.upcoming)).
  { unfold PlanCalendar.getStatusColor. rewrite Hpast, Hsame.
    destruct (PlanCalendar.allCompleted day); [reflexivity|].
    simpl negb. rewrite andb_true_r.
    destruct (JsDate.localDay tza date <? JsDate.localDay tza now)%Z; [reflexivity|].
    destruct (JsDate.localDay tza date =? JsDate.localDay tza now)%Z; reflexivity. }
  split; [exact Heq|split; [apply allCompleted_iff|]].
  intros Hnil. rewrite Heq.
  unfold PlanCalendar.allCompleted. rewrite Hnil. simpl.
  destruct (JsDate.localDay tza date <? JsDate.localDay tza now)%Z; [discriminate|].
  destruct (JsDate.localDay tza date =? JsDate.localDay tza now)%Z; discriminate.
Qed.

(** ** The effect that selects today's day *)

Section AutoSelect.
Import JsDate.
Local Open Scope Z_scope.
Variable tza : Z.

Lemma ceil_div_days k r :
  0 <= r < msPerDay -> ceil_div (k * msPerDay - r) msPerDay = k.
Proof.
  unfold ceil_div, msPerDay. intros Hr.
  replace (- (k * 86400000 - r)) with (r + (- k) * 86400000) by lia.
  rewrite Z.div_add by lia. rewrite Z.div_small by lia. lia.
Qed.

(** The start of the plan, split into its local day and the time of day. *)
Lemma startDate_split start :
  start = localDay tza start * msPerDay + TimeWithinDay (LocalTime tza start) - tza
  /\ 0 <= TimeWithinDay (LocalTime tza start) < msPerDay.
Proof.
  unfold localDay, Day, TimeWithinDay, LocalTime, msPerDay.
  pose proof (Z.div_mod (start + tza) 86400000 ltac:(lia)).
  pose proof (Z.mod_pos_bound (start + tza) 86400000 ltac:(lia)).
  lia.
Qed.

(** On every day after the start date and inside the plan, the effect
    selects the day whose number is the days elapsed plus one. *)
Lemma todaysDay_after_start_date now plan :
  let S := localDay tza (LearningPlan.startDate plan) in
  let T := localDay tza now in
  S < T < S + Z.of_nat (length (LearningPlan.days plan)) ->
  App.todaysDay tza now plan
    = find (fun d => DayPlan.dayNumber d =? (T - S) + 1) (LearningPlan.days plan).
Proof.
  intros S T H. unfold App.todaysDay.
  destruct (startDate_split (LearningPlan.startDate plan)) as [Es Hr].
  fold S in Es. set (r := TimeWithinDay _) in *.
  assert (Et : setHours0 tza now = T * msPerDay - tza)
    by (unfold T, setHours0, UTC, MakeDate, localDay; ring).
  rewrite Et.
  replace (1000 * 60 * 60 * 24) with msPerDay by reflexivity.
  assert (Ed : T * msPerDay - tza - LearningPlan.startDate plan
               = (T - S) * msPerDay - r) by lia.
  rewrite Ed.
  pose proof (ceil_div_days (T - S) r Hr) as Hc.
  unfold msPerDay in *.
  rewrite Z.abs_eq by nia. rewrite Hc.
  destruct (Z.geb_spec (T * 86400000 - tza) (LearningPlan.startDate plan)); [|nia].
  destruct (Z.ltb_spec (T - S) (Z.of_nat (length (LearningPlan.days plan)))); [|lia].
  reflexivity.
Qed.

(** On the start date itself the effect selects nothing, unless the plan
    started at local midnight to the millisecond. *)
Lemma todaysDay_on_start_date now plan :
  localDay tza now = localDay tza (LearningPlan.startDate plan) ->
  TimeWithinDay (LocalTime tza (LearningPlan.startDate plan)) <> 0 ->
  App.todaysDay tza now plan = None.
Proof.
  intros HT Hr0. unfold App.todaysDay.
  destruct (startDate_split (LearningPlan.startDate plan)) as [Es Hr].
  set (r := TimeWithinDay _) in *.
  assert (Et : setHours0 tza now = localDay tza now * msPerDay - tza)
    by (unfold setHours0, UTC, MakeDate, localDay; ring).
  rewrite Et, HT.
  destruct (Z.geb_spec (localDay tza (LearningPlan.startDate plan) * msPerDay - tza)
              (LearningPlan.startDate plan)); [unfold msPerDay in *; lia|].
  reflexivity.
Qed.
End AutoSelect.

(** C2 (the code at the failing input). The plan starts on 10 January 2024
    at 14:30 and has the days 1, 2 and 3; it is opened the same day at
    18:00. Today is the start date, day 1 exists, and the effect selects no
    day. *)
Theorem autoSelect_misses_start_date :
  let tza := 0%Z in
  let plan := Sample.planFrom Sample.jan10_2024_afternoon Sample.threeDays in
  let now := Sample.jan10_2024_evening in
  let s := App.mk [plan] (Some (LearningPlan.id plan)) App.view None false None in
  JsDate.localDay tza now = JsDate.localDay tza (LearningPlan.startDate plan)
  /\ find (fun d => DayPlan.dayNumber d =? 0 + 1)%Z (LearningPlan.days plan)
     = Some (Sample.day 1 [Sample.task "task-1-0" false])
  /\ App.todaysDay tza now plan = None
  /\ App.selectedDay (App.autoSelectEffect tza now s) = None.
Proof. vm_compute. repeat split; reflexivity. Qed.

(** ** The plan store *)

Section StoreLemmas.
Import App Store.
Local Open Scope Z_scope.

Lemma Str_eqb_eq a b : Str.eqb a b = true <-> a = b.
Proof.
  revert b. induction a as [|x a IH]; intros [|y b]; simpl;
    try (split; [discriminate|congruence]); [tauto|].
  rewrite andb_true_iff, N.eqb_eq, IH. split; [intros []|intros [=]]; subst; auto.
Qed.

Lemma map_fmap {A B} (f : A -> B) (l : list A) : map f l = f <$> l.
Proof. reflexivity. Qed.

Lemma map_id_ext {A} (f : A -> A) (l : list A) :
  (forall x, In x l -> f x = x) -> map f l = l.
Proof.
  induction l as [|x l IH]; simpl; intros H; [reflexivity|].
  rewrite H by auto. rewrite IH by auto. reflexivity.
Qed.

Lemma setPlans_same s : setPlans (plans s) s = s.
Proof. destruct s; reflexivity. Qed.



(** *** [handleToggleTask] *)

Lemma toggleTaskInTask_flip taskId t :
  toggleTaskInTask taskId t = if Str.eqb (Task.id t) taskId then flipped t else t.
Proof. reflexivity. Qed.






End StoreLemmas.

Section ToggleTask.
Import App Store.

End ToggleTask.



Section ToggleSession.
Import App Store.
Local Open Scope Z_scope.


Lemma toggleSessions_opens now sessions :
  (sessions = [] \/ exists l e, sessions !! (length sessions - 1)%nat = Some l
                                /\ Session.end_ l = Some e) ->
  toggleSessions now sessions = sessions ++ [Session.mk now None].
Proof.
  unfold toggleSessions. intros [->|(l & e & Hl & He)]; [reflexivity|].
  destruct (Nat.ltb_spec 0 (length sessions)) as [Hlen|Hlen].
  - rewrite Hl, He. reflexivity.
  - reflexivity.
Qed.

Lemma toggleSessions_closes now sessions l :
  sessions !! (length sessions - 1)%nat = Some l -> Session.end_ l = None ->
  toggleSessions now sessions
  = <[(length sessions - 1)%nat := Session.mk (Session.start l) (Some now)]> sessions.
Proof.
  unfold toggleSessions. intros Hl He.
  destruct (Nat.ltb_spec 0 (length sessions)) as [Hlen|Hlen].
  - rewrite Hl, He. reflexivity.
  - apply lookup_lt_Some in Hl. lia.
Qed.

Lemma mapC_monotone {A B} (f : A -> nat -> B * nat) :
  monotone f -> forall l n, (n <= snd (mapC f l n))%nat.
Proof.
  intros Hf. induction l as [|x l IH]; intros n; simpl; [lia|].
  pose proof (Hf x n). destruct (f x n) as [y n1]. simpl in *.
  pose proof (IH n1). destruct (mapC f l n1) as [ys n2]. simpl in *. lia.
Qed.

Lemma mapC_lookup {A B} (f : A -> nat -> B * nat) :
  monotone f ->
  forall l n i x, l !! i = Some x ->
    exists k, (n <= k)%nat /\ fst (mapC f l n) !! i = Some (fst (f x k)).
Proof.
  intros Hf. induction l as [|a l IH]; intros n i x Hi; [discriminate|].
  simpl. pose proof (Hf a n) as Ha.
  destruct (f a n) as [y n1] eqn:Ey. simpl in Ha.
  specialize (IH n1). destruct (mapC f l n1) as [ys n2]. simpl in *.
  destruct i as [|i]; simpl in *.
  - injection Hi as ->. exists n. rewrite Ey. split; [lia|reflexivity].
  - destruct (IH i x Hi) as (k & Hk & E). exists k. split; [lia|exact E].
Qed.

Lemma mapC_length {A B} (f : A -> nat -> B * nat) l n :
  length (fst (mapC f l n)) = length l.
Proof.
  revert n. induction l as [|a l IH]; intros n; simpl; [reflexivity|].
  destruct (f a n) as [y n1]. specialize (IH n1).
  destruct (mapC f l n1) as [ys n2]. simpl in *. lia.
Qed.

Lemma toggleSessionInDay_monotone clock dayNumber :
  monotone (toggleSessionInDay clock dayNumber).
Proof.
  intros d m. unfold toggleSessionInDay.
  destruct (negb _); simpl; lia.
Qed.

Lemma toggleSessionInDay_day clock dayNumber d k :
  fst (toggleSessionInDay clock dayNumber d k)
  = if DayPlan.dayNumber d =? dayNumber
    then setSessions (toggleSessions (clock k) (sessionsOf d)) d
    else d.
Proof.
  unfold toggleSessionInDay. destruct (DayPlan.dayNumber d =? dayNumber); reflexivity.
Qed.

(** The store after [handleSessionToggle], day by day. *)
Lemma handleSessionToggle_days clock n dayNumber s i j p d :
  noActivePlan (activePlanId s) = false ->
  plans s !! i = Some p -> LearningPlan.days p !! j = Some d ->
  exists p' d',
    plans (handleSessionToggle clock n dayNumber s) !! i = Some p'
    /\ LearningPlan.days p' !! j = Some d'
    /\ if isActive (activePlanId s) p && (DayPlan.dayNumber d =? dayNumber)
       then exists k, (n <= k)%nat
              /\ d' = setSessions (toggleSessions (clock k) (sessionsOf d)) d
       else d' = d.
Proof.
  intros Ha Hi Hj. unfold handleSessionToggle. rewrite Ha. simpl.
  set (f := fun (plan : LearningPlan.t) (k : nat) => _).
  assert (Hf : monotone f).
  { intros q m. unfold f. destruct (negb _); simpl; [lia|].
    pose proof (mapC_monotone _ (toggleSessionInDay_monotone clock dayNumber)
                  (LearningPlan.days q) m).
    destruct (mapC _ _ m). simpl in *. lia. }
  destruct (mapC_lookup f Hf (plans s) n i p Hi) as (k & Hk & E).
  rewrite E. unfold f at 1.
  destruct (isActive (activePlanId s) p); simpl.
  - destruct (mapC_lookup _ (toggleSessionInDay_monotone clock dayNumber)
                (LearningPlan.days p) k j d Hj) as (k' & Hk' & E').
    destruct (mapC (toggleSessionInDay clock dayNumber) (LearningPlan.days p) k)
      as [ds k2]. simpl in *.
    exists (setDays ds p), (fst (toggleSessionInDay clock dayNumber d k')).
    split; [reflexivity|]. split; [exact E'|].
    rewrite toggleSessionInDay_day.
    destruct (DayPlan.dayNumber d =? dayNumber); [|reflexivity].
    exists k'. split; [lia|reflexivity].
  - exists p, d. auto.
Qed.
End ToggleSession.

(** C6 (as stated, refuted). Day 1 has a session opened at 18:00; the clock
    is set back and reads 17:00 when the session is toggled: the session is
    closed with an end that is before its start. *)
Lemma toggleSession_end_before_start :
  App.plans (App.handleSessionToggle StoreSample.clockSetBack 0 1 StoreSample.storeRunning)
  = [ Sample.planFrom Sample.jan10_2024_afternoon
        [ Store.setSessions
            [Session.mk Sample.jan10_2024_evening
               (Some (Sample.jan10_2024_evening - 3600000)%Z)]
            StoreSample.dayRunning ] ]
  /\ ~ Store.wellTimed
        (Session.mk Sample.jan10_2024_evening
           (Some (Sample.jan10_2024_evening - 3600000)%Z)).
Proof. split; [vm_compute; reflexivity|]. vm_compute. intros H. apply H. reflexivity. Qed.

(** C6 (amended). [toggleSession] alternates open and close. If the session
    list of a day is empty or its last session has an end, the toggle appends
    a session that starts at the current reading of the clock and has no end.
    If the last session has no end, the toggle sets the end of that session
    to the current reading and changes no other session; the end is not
    before the start whenever the reading is not before the start that was
    recorded (the program compares neither). In the store, the toggle does
    this to the days of the given number of the active plan, each with a
    reading of its own, and leaves every other day as it is. *)
Theorem toggleSession_alternates :
  (forall (now : Z) (sessions : list Session.t),
      let sessions' := App.toggleSessions now sessions in
      ((sessions = [] \/ exists l e, sessions !! (length sessions - 1)%nat = Some l
                                     /\ Session.end_ l = Some e) ->
       sessions' = sessions ++ [Session.mk now None])
      /\ (forall l, sessions !! (length sessions - 1)%nat = Some l ->
                    Session.end_ l = None ->
            length sessions' = length sessions
            /\ sessions' !! (length sessions - 1)%nat
               = Some (Session.mk (Session.start l) (Some now))
            /\ (forall i, i <> (length sessions - 1)%nat -> sessions' !! i = sessions !! i)
            /\ ((Session.start l <= now)%Z ->
                Store.wellTimed (Session.mk (Session.start l) (Some now)))))
  /\ (forall (clock : Clock) (n : nat) (dayNumber : Z) (s : App.State) i j p d,
        App.noActivePlan (App.activePlanId s) = false ->
        App.plans s !! i = Some p -> LearningPlan.days p !! j = Some d ->
        exists p' d',
          App.plans (App.handleSessionToggle clock n dayNumber s) !! i = Some p'
          /\ LearningPlan.days p' !! j = Some d'
          /\ if App.isActive (App.activePlanId s) p && (DayPlan.dayNumber d =? dayNumber)%Z
             then exists k, (n <= k)%nat
                    /\ d' = Store.setSessions
                              (App.toggleSessions (clock k) (Store.sessionsOf d)) d
             else d' = d).
Proof.
  split.
  - intros now sessions sessions'. split; [apply toggleSessions_opens|].
    intros l Hl He. unfold sessions'. rewrite (toggleSessions_closes _ _ _ Hl He).
    pose proof (lookup_lt_Some _ _ _ Hl) as Hlt.
    split; [apply length_insert|].
    split; [apply list_lookup_insert_eq; exact Hlt|].
    split; [intros i Hi; apply list_lookup_insert_ne; congruence|].
    intros Hle. exact Hle.
  - intros. eapply handleSessionToggle_days; eassumption.
Qed.

Lemma toggleSession_alternates_witness :
  App.toggleSessions 5 [] = [Session.mk 5 None]
  /\ App.toggleSessions 9 [Session.mk 5 None] !! 0%nat = Some (Session.mk 5 (Some 9%Z))
  /\ Store.wellTimed (Session.mk 5 (Some 9%Z)).
Proof.
  destruct toggleSession_alternates as [Hday _].
  split; [apply (Hday 5%Z []); left; reflexivity|].
  destruct (proj2 (Hday 9%Z [Session.mk 5 None]) (Session.mk 5 None)) as (_ & Hlast & _ & Hwt);
    [reflexivity|reflexivity|].
  split; [exact Hlast|apply Hwt; simpl; lia].
Defined.

(** ** Plan generation and refinement *)

Section Refinement.
Import JSON geminiService.

Lemma bindM_Ok {A B} (m : M A) (k : A -> M B) n b n' :
  bindM m k n = (Ok b, n') ->
  exists a n1, m n = (Ok a, n1) /\ k a n1 = (Ok b, n').
Proof.
  unfold bindM. destruct (m n) as [[a|e] n1]; [eauto|discriminate].
Qed.

Lemma lift_Ok {A} (r : result A) n a n1 :
  lift r n = (Ok a, n1) -> r = Ok a /\ n1 = n.
Proof. unfold lift. intros [= -> ->]. auto. Qed.

(** Invert a chain of binds that ended in [Ok]. *)
Ltac invM H :=
  repeat match type of H with
    | bindM _ _ _ = (Ok _, _) =>
        let a := fresh "a" in
        let n1 := fresh "n" in
        let H1 := fresh "H" in
        apply bindM_Ok in H; destruct H as (a & n1 & H1 & H);
        try (apply lift_Ok in H1; destruct H1 as [H1 ->])
    end.

Lemma mmapi_lookup {A B} (f : A -> nat -> M B) :
  (forall x i m y m', f x i m = (Ok y, m') -> m <= m') ->
  forall l i n ys n',
    mmapi f l i n = (Ok ys, n') ->
    n <= n' /\ length ys = length l
    /\ forall j y, ys !! j = Some y ->
         exists x m m', l !! j = Some x /\ n <= m /\ m' <= n'
                        /\ f x (i + j) m = (Ok y, m').
Proof.
  intros Hf. induction l as [|x l IH]; intros i n ys n' H; simpl in H.
  - injection H as <- <-. split; [lia|]. split; [reflexivity|]. intros j y [=].
  - apply bindM_Ok in H. destruct H as (y0 & n1 & H0 & H).
    apply bindM_Ok in H. destruct H as (ys0 & n2 & H1 & H).
    injection H as <- <-.
    pose proof (Hf _ _ _ _ _ H0) as Hle.
    destruct (IH _ _ _ _ H1) as (Hle' & Hlen & Hys).
    split; [lia|]. split; [simpl; lia|].
    intros [|j] y Hy; simpl in Hy.
    + injection Hy as ->. exists x, n, n1. rewrite Nat.add_0_r.
      repeat split; [lia|lia|exact H0].
    + destruct (Hys j y Hy) as (x' & m & m' & Hx & Hm & Hm' & E).
      exists x', m, m'. replace (i + S j) with (S i + j) by lia.
      repeat split; [exact Hx|lia|lia|exact E].
Qed.

(** The identifier [updatePlanWithChat] gives a task. *)
Lemma updateTask_Ok clock dayNumber t idx m y m' :
  updateTask clock dayNumber t idx m = (Ok y, m') ->
  m' = S m
  /\ Task.isCompleted y = false
  /\ Task.id y = js "task-" ++ Str.of_Z dayNumber ++ js "-"
                 ++ Str.of_Z (Z.of_nat idx) ++ js "-" ++ Str.of_Z (clock m).
Proof.
  unfold updateTask. intros H.
  apply bindM_Ok in H. destruct H as (now & n1 & H0 & H).
  injection H0 as <- <-. invM H. injection H as <- <-. auto.
Qed.

Lemma updateDay_Ok clock d i m y m' :
  updateDay clock d i m = (Ok y, m') ->
  m <= m'
  /\ DayPlan.notes y = None /\ DayPlan.sessions y = None
  /\ forall idx t, DayPlan.tasks y !! idx = Some t ->
       Task.isCompleted t = false
       /\ exists k, m <= k < m'
            /\ Task.id t = js "task-" ++ Str.of_Z (DayPlan.dayNumber y) ++ js "-"
                           ++ Str.of_Z (Z.of_nat idx) ++ js "-" ++ Str.of_Z (clock k).
Proof.
  unfold updateDay. intros H. invM H. injection H as <- <-.
  match goal with
  | Hm : mmapi _ _ _ _ = (Ok _, _) |- _ =>
      apply mmapi_lookup in Hm;
      [destruct Hm as (Hle & _ & Hts)
      |intros x j k y k' E; apply updateTask_Ok in E; lia]
  end.
  split; [exact Hle|]. split; [reflexivity|]. split; [reflexivity|].
  simpl. intros idx t Ht.
  destruct (Hts idx t Ht) as (x & k & k' & _ & Hk & Hk' & E).
  apply updateTask_Ok in E. destruct E as (-> & Hc & Hid).
  split; [exact Hc|]. exists k. split; [lia|exact Hid].
Qed.

Lemma formatTask_Ok dayNumber t idx m y m' :
  formatTask dayNumber t idx m = (Ok y, m') -> m' = m.
Proof. unfold formatTask. intros H. invM H. injection H as <- <-. reflexivity. Qed.


Lemma mmapi_Forall {A B} (f : A -> nat -> M B) (P : B -> Prop) :
  (forall x i m y m', f x i m = (Ok y, m') -> P y) ->
  forall l i n ys n', mmapi f l i n = (Ok ys, n') -> Forall P ys.
Proof.
  intros Hf. induction l as [|x l IH]; intros i n ys n' H; simpl in H.
  - injection H as <- <-. constructor.
  - apply bindM_Ok in H. destruct H as (y0 & n1 & H0 & H).
    apply bindM_Ok in H. destruct H as (ys0 & n2 & H1 & H).
    injection H as <- <-. constructor; eauto.
Qed.


End Refinement.

(** C10. Whenever [updatePlanWithChat] succeeds: no day of the returned
    plan carries notes or sessions; every task of it is not completed and has
    an identifier synthesized from the day number, the position of the task
    and a reading of the clock taken during the call; the returned days are
    built from the response alone, so that another current plan gets the same
    days; the other fields are those of the current plan, but the duration,
    which is the number of returned days, and the time of the last update,
    which is the last reading. *)
Theorem refinement_discards_progress
    (clock : Clock) (currentPlan : LearningPlan.t)
    (response : result (option jsstring)) (n : nat)
    (plan' : LearningPlan.t) (n' : nat) :
  geminiService.updatePlanWithChat clock currentPlan response n = (Ok plan', n') ->
  (forall d, In d (LearningPlan.days plan') ->
     DayPlan.notes d = None /\ DayPlan.sessions d = None
     /\ forall idx t, DayPlan.tasks d !! idx = Some t ->
          Task.isCompleted t = false
          /\ exists k, n <= k < n'
               /\ Task.id t = js "task-" ++ Str.of_Z (DayPlan.dayNumber d) ++ js "-"
                              ++ Str.of_Z (Z.of_nat idx) ++ js "-" ++ Str.of_Z (clock k))
  /\ (forall otherPlan, exists plan'',
        geminiService.updatePlanWithChat clock otherPlan response n = (Ok plan'', n')
        /\ LearningPlan.days plan'' = LearningPlan.days plan')
  /\ LearningPlan.id plan' = LearningPlan.id currentPlan
  /\ LearningPlan.topic plan' = LearningPlan.topic currentPlan
  /\ LearningPlan.dailyTime plan' = LearningPlan.dailyTime currentPlan
  /\ LearningPlan.startDate plan' = LearningPlan.startDate currentPlan
  /\ LearningPlan.durationDays plan' = Z.of_nat (length (LearningPlan.days plan'))
  /\ (exists k, n' = S k /\ LearningPlan.lastUpdated plan' = clock k).
Proof.
  intros H. split; [|split].
  - unfold geminiService.updatePlanWithChat in H.
    repeat match type of H with
      | bindM _ _ _ = (Ok _, _) =>
          let a := fresh "a" in
          let n1 := fresh "n" in
          let H1 := fresh "H" in
          apply bindM_Ok in H; destruct H as (a & n1 & H1 & H);
          try (apply lift_Ok in H1; destruct H1 as [H1 ->])
      end.
    injection H as <- <-. cbn [LearningPlan.days].
    match goal with
    | Hm : mmapi _ _ _ _ = (Ok _, _) |- _ =>
        apply mmapi_lookup in Hm;
        [destruct Hm as (Hle & _ & Hds)
        |intros x j k y k' E; apply updateDay_Ok in E; tauto]
    end.
    intros d Hd. apply list_elem_of_In, list_elem_of_lookup in Hd.
    destruct Hd as (j & Hj).
    destruct (Hds j d Hj) as (x & m & m' & _ & Hm & Hm' & E).
    apply updateDay_Ok in E. destruct E as (Hmm & Hn & Hs & Hts).
    split; [exact Hn|]. split; [exact Hs|].
    intros idx t Ht. destruct (Hts idx t Ht) as (Hc & k & Hk & Hid).
    split; [exact Hc|]. exists k. split; [lia|exact Hid].
  - intros otherPlan.
    unfold geminiService.updatePlanWithChat, bindM, lift, Date_now, retM in H |- *.
    destruct (geminiService.responseText response) as [text|]; [|discriminate].
    destruct (geminiService.extractJson text) as [data|]; [|discriminate].
    destruct (rbind (geminiService.get data "days") geminiService.call_map)
      as [ds|]; [|discriminate].
    destruct (mmapi (geminiService.updateDay clock) ds 0 n) as [[days|] n1];
      [|discriminate].
    injection H as <- <-. eexists. split; reflexivity.
  - unfold geminiService.updatePlanWithChat, bindM, lift, Date_now, retM in H.
    destruct (geminiService.responseText response) as [text|]; [|discriminate].
    destruct (geminiService.extractJson text) as [data|]; [|discriminate].
    destruct (rbind (geminiService.get data "days") geminiService.call_map)
      as [ds|]; [|discriminate].
    destruct (mmapi (geminiService.updateDay clock) ds 0 n) as [[days|] n1];
      [|discriminate].
    injection H as <- <-. cbn. repeat split; try reflexivity.
    exists n1. split; reflexivity.
Qed.

Lemma refinement_discards_progress_witness :
  exists plan' n',
    geminiService.updatePlanWithChat StoreSample.clockLater StoreSample.planInProgress
      (Ok (Some StoreSample.refinedResponse)) 0 = (Ok plan', n')
    /\ length (LearningPlan.days plan') = 1
    /\ forall d, In d (LearningPlan.days plan') ->
         DayPlan.notes d = None /\ DayPlan.sessions d = None.
Proof.
  eexists. eexists. split; [vm_compute; reflexivity|].
  split; [reflexivity|].
  intros d Hd.
  destruct (refinement_discards_progress StoreSample.clockLater StoreSample.planInProgress
              (Ok (Some StoreSample.refinedResponse)) 0 _ _ eq_refl) as [Hdays _].
  destruct (Hdays d Hd) as (Hn & Hs & _). split; assumption.
Defined.

(** ** The open-session invariant *)

Section Invariant.
Import geminiService App Store.


Lemma dayOk_no_sessions d : DayPlan.sessions d = None -> dayOk d.
Proof.
  intros H. unfold dayOk, sessionsOf. rewrite H.
  split; [intros i j x y [=]|intros i x [=]].
Qed.














Lemma initial_invariant : invariant initial.
Proof. split; [constructor|]. split; [intros ps [=]|intros d [=]]. Qed.

End Invariant.



(** ** Quiz scoring *)

Section Quiz.
Import QuizModal QuizSpec.
Local Open Scope Z_scope.

Lemma filter_length_le {A} (f g : A -> bool) l :
  (forall x, f x = true -> g x = true) ->
  (length (List.filter f l) <= length (List.filter g l))%nat.
Proof.
  intros H. induction l as [|x l IH]; simpl; [lia|].
  destruct (f x) eqn:Ef.
  - rewrite (H x Ef). simpl. lia.
  - destruct (g x); simpl; lia.
Qed.

Lemma filter_length_bound {A} (f : A -> bool) l :
  (length (List.filter f l) <= length l)%nat.
Proof. induction l as [|x l IH]; simpl; [lia|]. destruct (f x); simpl; lia. Qed.

(** The loop from position [idx] on, with the questions that remain. *)
Lemma forEach_score_count userAnswers qs idx score :
  forEach_score userAnswers qs idx score
  = score + Z.of_nat (length (List.filter
              (fun i => match qs !! (i - idx)%nat with
                        | Some q => isCorrect userAnswers q i
                        | None => false
                        end)
              (seq idx (length qs)))).
Proof.
  revert idx score. induction qs as [|q qs IH]; intros idx score; simpl.
  - lia.
  - rewrite IH. rewrite Nat.sub_diag. simpl.
    rewrite (filter_ext_in
               (fun i => match (q :: qs) !! (i - idx)%nat with
                         | Some q0 => isCorrect userAnswers q0 i
                         | None => false
                         end)
               (fun i => match qs !! (i - S idx)%nat with
                         | Some q0 => isCorrect userAnswers q0 i
                         | None => false
                         end)).
    + destruct (isCorrect userAnswers q idx); simpl; lia.
    + intros i Hi. apply in_seq in Hi.
      replace (i - idx)%nat with (S (i - S idx)) by lia. reflexivity.
Qed.

Lemma calculateScore_count questions userAnswers :
  calculateScore questions userAnswers
  = countPositions (matches questions userAnswers) (length questions).
Proof.
  unfold calculateScore, countPositions. rewrite forEach_score_count.
  rewrite Z.add_0_l. f_equal. f_equal. apply filter_ext. intros i.
  rewrite Nat.sub_0_r.
  unfold matches, isCorrect. destruct (questions !! i); reflexivity.
Qed.
End Quiz.

(** C8. For every sequence of questions and every array of recorded
    answers, the score is the number of positions at which the recorded
    answer equals the correct index of the question; a question without a
    recorded answer at its position does not count, so the score is at most
    the number of answered questions, and at most the number of questions. *)
Theorem calculateScore_counts_matches
    (questions : list QuizQuestion.t) (userAnswers : QuizModal.answers) :
  QuizModal.calculateScore questions userAnswers
    = QuizSpec.countPositions (QuizSpec.matches questions userAnswers) (length questions)
  /\ (forall q idx, QuizModal.answerAt userAnswers idx = None ->
                    QuizModal.isCorrect userAnswers q idx = false)
  /\ (forall idx, QuizSpec.answered userAnswers idx = false ->
                  QuizSpec.matches questions userAnswers idx = false)
  /\ (QuizModal.calculateScore questions userAnswers
      <= QuizSpec.countPositions (QuizSpec.answered userAnswers) (length questions))%Z
  /\ (0 <= QuizModal.calculateScore questions userAnswers
      <= Z.of_nat (length questions))%Z.
Proof.
  assert (Hun : forall idx, QuizSpec.answered userAnswers idx = false ->
                            QuizSpec.matches questions userAnswers idx = false).
  { intros idx. unfold QuizSpec.answered, QuizSpec.matches.
    destruct (QuizModal.answerAt userAnswers idx); [discriminate|].
    destruct (questions !! idx); reflexivity. }
  split; [apply calculateScore_count|].
  split; [intros q idx H; unfold QuizModal.isCorrect; rewrite H; reflexivity|].
  split; [exact Hun|].
  rewrite calculateScore_count. unfold QuizSpec.countPositions. split.
  - apply inj_le. apply filter_length_le. intros idx Hm.
    destruct (QuizSpec.answered userAnswers idx) eqn:E; [reflexivity|].
    rewrite (Hun idx E) in Hm. discriminate.
  - split; [lia|].
    pose proof (filter_length_bound (QuizSpec.matches questions userAnswers)
                  (seq 0 (length questions))) as Hb.
    rewrite length_seq in Hb. lia.
Qed.

(** Three questions, the second left without an answer and the third
    answered wrongly: the score is 1. *)
Example calculateScore_sample :
  let questions := [QuizSpec.question 1; QuizSpec.question 2; QuizSpec.question 0] in
  let userAnswers := QuizModal.handleAnswer (QuizModal.handleAnswer [] 0 1) 2 3 in
  userAnswers = [Some 1%Z; None; Some 3%Z]
  /\ QuizModal.calculateScore questions userAnswers = 1%Z.
Proof. vm_compute. split; reflexivity. Qed.

(** * Further properties of the code *)

(** ** The store: deletion, notes, replacement, persistence *)

Section StoreMoreLemmas.
Import App Store StoreMore.
Local Open Scope Z_scope.

Lemma Str_eqb_refl a : Str.eqb a a = true.
Proof. apply Str_eqb_eq. reflexivity. Qed.

Lemma Str_eqb_neq a b : Str.eqb a b = false <-> a <> b.
Proof.
  split.
  - intros H E. apply Str_eqb_eq in E. congruence.
  - intros H. destruct (Str.eqb a b) eqn:E; [|reflexivity].
    apply Str_eqb_eq in E. contradiction.
Qed.

Lemma find_map {A} (f : A -> A) (p : A -> bool) l :
  (forall x, p (f x) = p x) ->
  find p (map f l) = option_map f (find p l).
Proof.
  intros H. induction l as [|x l IH]; simpl; [reflexivity|].
  rewrite H. destruct (p x); [reflexivity|exact IH].
Qed.

Lemma filter_sublist {A} (f : A -> bool) (l : list A) : sublist (List.filter f l) l.
Proof.
  induction l as [|x l IH]; simpl; [constructor|].
  destruct (f x); [apply sublist_skip|apply sublist_cons]; exact IH.
Qed.

(** *** [handleDeletePlan] *)

Lemma handleDeletePlan_plans id s :
  plans (handleDeletePlan id true s)
  = List.filter (fun p => negb (Str.eqb (LearningPlan.id p) id)) (plans s).
Proof.
  unfold handleDeletePlan.
  destruct (match activePlanId s with Some a => Str.eqb a id | None => false end);
    reflexivity.
Qed.

Lemma handleDeletePlan_activeValid id confirmed s :
  activeValid s -> activeValid (handleDeletePlan id confirmed s).
Proof.
  intros Hv. destruct confirmed; [|exact Hv].
  unfold activeValid. pose proof (handleDeletePlan_plans id s) as Hp.
  unfold handleDeletePlan in *.
  destruct (activePlanId s) as [a|] eqn:Ea.
  - destruct (Str.eqb a id) eqn:E; simpl in *.
    + destruct (List.filter _ (plans s)) as [|p ps]; [exact I|].
      exists p. split; [left; reflexivity|reflexivity].
    + rewrite Ea. unfold activeValid in Hv. rewrite Ea in Hv.
      destruct Hv as (p & Hin & Hid). exists p. split; [|exact Hid].
      apply filter_In. split; [exact Hin|]. rewrite Hid, E. reflexivity.
  - simpl. rewrite Ea. exact I.
Qed.
End StoreMoreLemmas.

(** X1. [handleDeletePlan], once confirmed, removes every plan of the given
    identifier and keeps the other plans in their order; declined, it
    changes nothing. If the deleted plan was the active one, the first
    remaining plan becomes active, or none and the view turns to creation
    when no plan remains; otherwise the active plan and the view stay. *)
Theorem deletePlan_removes_and_reselects (id : jsstring) (s : App.State) :
  let s' := App.handleDeletePlan id true s in
  (forall p, In p (App.plans s') <-> In p (App.plans s) /\ LearningPlan.id p <> id)
  /\ sublist (App.plans s') (App.plans s)
  /\ (App.activePlanId s = Some id ->
      App.activePlanId s' = option_map LearningPlan.id (head (App.plans s'))
      /\ App.viewMode s' = match App.plans s' with
                            | [] => App.create
                            | _ => App.viewMode s
                            end)
  /\ (App.activePlanId s <> Some id ->
      App.activePlanId s' = App.activePlanId s /\ App.viewMode s' = App.viewMode s)
  /\ App.selectedDay s' = App.selectedDay s
  /\ App.handleDeletePlan id false s = s.
Proof.
  intros s'. pose proof (handleDeletePlan_plans id s) as Hp. fold s' in Hp.
  split; [|split; [|split; [|split; [|split]]]].
  - intros p. rewrite Hp, filter_In, negb_true_iff, Str_eqb_neq. reflexivity.
  - rewrite Hp. apply filter_sublist.
  - intros Ha. unfold s', App.handleDeletePlan. rewrite Ha, Str_eqb_refl. simpl.
    destruct (List.filter _ (App.plans s)); split; reflexivity.
  - intros Ha. unfold s', App.handleDeletePlan.
    destruct (App.activePlanId s) as [a|] eqn:Ea.
    + destruct (Str.eqb a id) eqn:E.
      * apply Str_eqb_eq in E. congruence.
      * simpl. rewrite Ea. split; reflexivity.
    + simpl. rewrite Ea. split; reflexivity.
  - unfold s', App.handleDeletePlan.
    destruct (match App.activePlanId s with Some a => Str.eqb a id | None => false end);
      reflexivity.
  - reflexivity.
Qed.

Section ActiveValid.
Import App Store StoreMore.

Lemma activeValid_ids s s' :
  planIds s' = planIds s -> activePlanId s' = activePlanId s ->
  activeValid s -> activeValid s'.
Proof.
  unfold activeValid, planIds. intros Hids Ha Hv. rewrite Ha.
  destruct (activePlanId s) as [a|]; [|exact I].
  destruct Hv as (p & Hin & Hid).
  assert (Hm : In a (map LearningPlan.id (plans s')))
    by (rewrite Hids, <- Hid; apply in_map, Hin).
  apply in_map_iff in Hm. destruct Hm as (p' & Hid' & Hin'). eauto.
Qed.

Lemma map_map_id {A B} (g : A -> B) (f : A -> A) l :
  (forall x, g (f x) = g x) -> map g (map f l) = map g l.
Proof. intros H. rewrite map_map. apply map_ext. exact H. Qed.

Lemma map_mapC {A B} (g : A -> B) (f : A -> nat -> A * nat) :
  (forall x n, g (fst (f x n)) = g x) ->
  forall l n, map g (fst (mapC f l n)) = map g l.
Proof.
  intros H. induction l as [|x l IH]; intros n; simpl; [reflexivity|].
  pose proof (H x n) as Hx. destruct (f x n) as [y n1].
  specialize (IH n1). destruct (mapC f l n1) as [ys n2]. simpl in *.
  rewrite Hx, IH. reflexivity.
Qed.

Lemma handleToggleTask_ids dayNumber taskId s :
  planIds (handleToggleTask dayNumber taskId s) = planIds s
  /\ activePlanId (handleToggleTask dayNumber taskId s) = activePlanId s.
Proof.
  unfold handleToggleTask, planIds.
  destruct (noActivePlan _); [split; reflexivity|]. split; [|reflexivity].
  simpl. apply map_map_id. intros p. destruct (negb _); reflexivity.
Qed.

Lemma handleUpdateNotes_ids dayNumber notes s :
  planIds (handleUpdateNotes dayNumber notes s) = planIds s
  /\ activePlanId (handleUpdateNotes dayNumber notes s) = activePlanId s.
Proof.
  unfold handleUpdateNotes, planIds.
  destruct (noActivePlan _); [split; reflexivity|]. split; [|reflexivity].
  simpl. apply map_map_id. intros p. destruct (negb _); reflexivity.
Qed.

Lemma handleSessionToggle_ids clock n dayNumber s :
  planIds (handleSessionToggle clock n dayNumber s) = planIds s
  /\ activePlanId (handleSessionToggle clock n dayNumber s) = activePlanId s.
Proof.
  unfold handleSessionToggle, planIds.
  destruct (noActivePlan _); [split; reflexivity|]. split; [|reflexivity].
  simpl. apply map_mapC. intros p k. destruct (negb _); [reflexivity|].
  destruct (mapC _ _ k). reflexivity.
Qed.

Lemma handleUpdatePlan_ids updatedPlan s :
  planIds (handleUpdatePlan updatedPlan s) = planIds s
  /\ activePlanId (handleUpdatePlan updatedPlan s) = activePlanId s.
Proof.
  unfold handleUpdatePlan, planIds. split; [|reflexivity].
  simpl. apply map_map_id. intros p.
  destruct (Str.eqb _ _) eqn:E; [|reflexivity].
  apply Str_eqb_eq in E. congruence.
Qed.

Lemma activeValid_activePlan s a :
  activeValid s -> activePlanId s = Some a ->
  exists p, activePlan s = Some p /\ LearningPlan.id p = a.
Proof.
  unfold activeValid, activePlan. intros Hv Ha. rewrite Ha in *.
  destruct Hv as (p & Hin & Hid).
  destruct (find (isActive (Some a)) (plans s)) as [q|] eqn:Ef.
  - exists q. split; [reflexivity|].
    apply find_some in Ef. destruct Ef as [_ E]. apply Str_eqb_eq in E. exact E.
  - exfalso. pose proof (find_none _ _ Ef p Hin) as E. simpl in E.
    rewrite Hid, Str_eqb_refl in E. discriminate.
Qed.
End ActiveValid.

(** X2. The active identifier stays that of a plan of the store: when it is
    one, it still is one after a plan is created, deleted or replaced, after
    a task, the notes or a session are changed, after a plan of the list is
    selected, after the effects and after a restart; and then the view
    always finds the active plan. *)
Theorem active_plan_stays_valid (s : App.State) :
  StoreMore.activeValid s ->
  (forall newPlan, StoreMore.activeValid (App.handleCreatePlan newPlan s))
  /\ (forall id confirmed, StoreMore.activeValid (App.handleDeletePlan id confirmed s))
  /\ (forall dayNumber taskId,
        StoreMore.activeValid (App.handleToggleTask dayNumber taskId s))
  /\ (forall dayNumber notes,
        StoreMore.activeValid (App.handleUpdateNotes dayNumber notes s))
  /\ (forall clock n dayNumber,
        StoreMore.activeValid (App.handleSessionToggle clock n dayNumber s))
  /\ (forall updatedPlan, StoreMore.activeValid (App.handleUpdatePlan updatedPlan s))
  /\ (forall p, In p (App.plans s) ->
        StoreMore.activeValid (App.selectPlan (LearningPlan.id p) s))
  /\ (forall day, StoreMore.activeValid (App.selectDay day s))
  /\ StoreMore.activeValid (App.saveEffect s)
  /\ (forall tza now, StoreMore.activeValid (App.autoSelectEffect tza now s))
  /\ StoreMore.activeValid (StoreMore.restart s)
  /\ (forall a, App.activePlanId s = Some a ->
        exists p, App.activePlan s = Some p /\ LearningPlan.id p = a).
Proof.
  intros Hv.
  split; [intros newPlan; exists newPlan; split; [left|]; reflexivity|].
  split; [intros; apply handleDeletePlan_activeValid, Hv|].
  split; [intros dn tid; destruct (handleToggleTask_ids dn tid s);
          eapply activeValid_ids; eauto|].
  split; [intros dn notes; destruct (handleUpdateNotes_ids dn notes s);
          eapply activeValid_ids; eauto|].
  split; [intros clock n dn; destruct (handleSessionToggle_ids clock n dn s);
          eapply activeValid_ids; eauto|].
  split; [intros u; destruct (handleUpdatePlan_ids u s);
          eapply activeValid_ids; eauto|].
  split; [intros p Hp; exists p; split; [exact Hp|reflexivity]|].
  split; [intros day; exact Hv|].
  split; [unfold App.saveEffect; destruct (App.plans s) eqn:E; [exact Hv|];
          unfold StoreMore.activeValid in *; cbn [App.activePlanId App.plans];
          rewrite E in Hv; exact Hv|].
  split.
  { intros tza now. unfold App.autoSelectEffect.
    destruct (_ && _); [|exact Hv].
    destruct (find _ _); [|exact Hv].
    destruct (App.todaysDay tza now t); exact Hv. }
  split.
  { unfold StoreMore.restart, App.load. simpl.
    destruct (App.storage s) as [[|p ps]|]; simpl; try exact I.
    exists p. split; [left|]; reflexivity. }
  intros a. apply activeValid_activePlan, Hv.
Qed.

Lemma active_plan_stays_valid_witness :
  StoreMore.activeValid StoreSample.store
  /\ StoreMore.activeValid
       (App.handleDeletePlan (js "plan-a") true StoreSample.store)
  /\ exists p, App.activePlan StoreSample.store = Some p
               /\ LearningPlan.id p = js "plan-a".
Proof.
  assert (Hv : StoreMore.activeValid StoreSample.store).
  { exists StoreSample.plan. split; [left|]; reflexivity. }
  split; [exact Hv|].
  pose proof (active_plan_stays_valid StoreSample.store Hv) as H.
  split; [apply H|]. apply H. reflexivity.
Defined.

Section ActiveDays.
Import App Store StoreMore.
Local Open Scope Z_scope.

Lemma handleToggleTask_onActiveDays dayNumber taskId s :
  handleToggleTask dayNumber taskId s = onActiveDays (toggleTaskInDay dayNumber taskId) s.
Proof. reflexivity. Qed.

Lemma handleUpdateNotes_onActiveDays dayNumber notes s :
  handleUpdateNotes dayNumber notes s = onActiveDays (updateNotesInDay dayNumber notes) s.
Proof. reflexivity. Qed.

Lemma isActive_setDays a ds p : isActive a (setDays ds p) = isActive a p.
Proof. destruct a; reflexivity. Qed.

Lemma onActiveDays_compose g h s :
  onActiveDays g (onActiveDays h s) = onActiveDays (fun d => g (h d)) s.
Proof.
  unfold onActiveDays.
  destruct (noActivePlan (activePlanId s)) eqn:E; [rewrite E; reflexivity|].
  cbn [activePlanId setPlans plans]. rewrite E. unfold setPlans.
  cbn [activePlanId plans viewMode selectedDay isSidePanelOpen storage].
  f_equal. rewrite map_map. apply map_ext. intros p.
  destruct (isActive (activePlanId s) p) eqn:Ea; cbn [negb].
  - rewrite isActive_setDays, Ea. cbn [negb]. unfold setDays.
    cbn [LearningPlan.days LearningPlan.id LearningPlan.topic LearningPlan.durationDays
         LearningPlan.dailyTime LearningPlan.startDate LearningPlan.lastUpdated].
    rewrite map_map. reflexivity.
  - rewrite Ea. reflexivity.
Qed.

Lemma onActiveDays_ext g h s :
  (forall d, g d = h d) -> onActiveDays g s = onActiveDays h s.
Proof.
  intros H. unfold onActiveDays. destruct (noActivePlan _); [reflexivity|].
  f_equal. apply map_ext. intros p. destruct (negb _); [reflexivity|].
  f_equal. apply map_ext. exact H.
Qed.

Lemma dayAt_onActiveDays g s i j :
  dayAt (onActiveDays g s) i j
  = match plans s !! i with
    | Some p =>
        match LearningPlan.days p !! j with
        | Some d =>
            Some (if negb (noActivePlan (activePlanId s)) && isActive (activePlanId s) p
                  then g d else d)
        | None => None
        end
    | None => None
    end.
Proof.
  unfold dayAt, onActiveDays.
  destruct (noActivePlan (activePlanId s)); cbn [negb andb].
  - destruct (plans s !! i) as [p|]; [|reflexivity].
    destruct (LearningPlan.days p !! j); reflexivity.
  - cbn [setPlans plans]. rewrite map_fmap, list_lookup_fmap.
    destruct (plans s !! i) as [p|]; cbn; [|reflexivity].
    destruct (isActive (activePlanId s) p); cbn.
    + rewrite map_fmap, list_lookup_fmap.
      destruct (LearningPlan.days p !! j); reflexivity.
    + destruct (LearningPlan.days p !! j); reflexivity.
Qed.

Lemma updateNotesInDay_setNotes dayNumber notes d :
  updateNotesInDay dayNumber notes d
  = if DayPlan.dayNumber d =? dayNumber then setNotes notes d else d.
Proof. unfold updateNotesInDay. destruct (_ =? _); reflexivity. Qed.

Lemma updateNotesInDay_twice dayNumber n1 n2 d :
  updateNotesInDay dayNumber n2 (updateNotesInDay dayNumber n1 d)
  = updateNotesInDay dayNumber n2 d.
Proof.
  rewrite !updateNotesInDay_setNotes.
  destruct (DayPlan.dayNumber d =? dayNumber) eqn:E; cbn; rewrite E; reflexivity.
Qed.

Lemma updateNotes_toggleTask_day dn notes dn' taskId d :
  updateNotesInDay dn notes (toggleTaskInDay dn' taskId d)
  = toggleTaskInDay dn' taskId (updateNotesInDay dn notes d).
Proof.
  unfold updateNotesInDay, toggleTaskInDay.
  destruct (DayPlan.dayNumber d =? dn) eqn:E1;
    destruct (DayPlan.dayNumber d =? dn') eqn:E2; cbn; rewrite ?E1, ?E2; reflexivity.
Qed.

Lemma toggleTaskInTask_comm a b t :
  toggleTaskInTask a (toggleTaskInTask b t) = toggleTaskInTask b (toggleTaskInTask a t).
Proof.
  unfold toggleTaskInTask.
  destruct (Str.eqb (Task.id t) a) eqn:E1;
    destruct (Str.eqb (Task.id t) b) eqn:E2; cbn; rewrite ?E1, ?E2; reflexivity.
Qed.

Lemma toggleTaskInDay_comm dn a dn' b d :
  toggleTaskInDay dn a (toggleTaskInDay dn' b d)
  = toggleTaskInDay dn' b (toggleTaskInDay dn a d).
Proof.
  unfold toggleTaskInDay.
  destruct (DayPlan.dayNumber d =? dn) eqn:E1;
    destruct (DayPlan.dayNumber d =? dn') eqn:E2; cbn; rewrite ?E1, ?E2; cbn;
    try reflexivity.
  f_equal. rewrite !map_map. apply map_ext. intros t. apply toggleTaskInTask_comm.
Qed.

(** The day the panel shows follows the store. *)
Lemma currentSelectedDay_onActiveDays g s :
  (forall d, DayPlan.dayNumber (g d) = DayPlan.dayNumber d) ->
  activePlanId s <> Some [] ->
  currentSelectedDay (onActiveDays g s) = option_map g (currentSelectedDay s).
Proof.
  intros Hg Hne. unfold currentSelectedDay, activePlan, onActiveDays.
  destruct (activePlanId s) as [a|] eqn:Ea.
  - assert (Hn : noActivePlan (Some a) = false)
      by (destruct a; [exfalso; apply Hne; reflexivity|reflexivity]).
    rewrite Hn. cbn [setPlans activePlanId plans selectedDay]. rewrite Ea.
    set (P := isActive (Some a)).
    rewrite (find_map
               (fun plan => if negb (P plan) then plan
                            else setDays (map g (LearningPlan.days plan)) plan)).
    + destruct (find P (plans s)) as [p|] eqn:Ef; cbn [option_map]; [|reflexivity].
      apply find_some in Ef. destruct Ef as [_ Ep]. rewrite Ep. cbn [negb].
      destruct (selectedDay s) as [sel|]; [|reflexivity].
      cbn [setDays LearningPlan.days]. apply find_map.
      intros d. rewrite Hg. reflexivity.
    + intros p. destruct (P p) eqn:Ep; cbn [negb]; [|exact Ep].
      unfold P. rewrite isActive_setDays. exact Ep.
  - cbn [noActivePlan]. rewrite Ea. cbn [isActive].
    assert (Hn : find (fun _ : LearningPlan.t => false) (plans s) = None).
    { induction (plans s); [reflexivity|assumption]. }
    unfold isActive. rewrite Hn. reflexivity.
Qed.
End ActiveDays.

(** X3. [handleUpdateNotes] writes the notes of the days of the given number
    of the active plan and changes nothing else: the last write wins (a
    repeated write is idle), the tasks are untouched, and the handler
    commutes with [handleToggleTask]. *)
Theorem updateNotes_last_write_wins
    (s : App.State) (dayNumber : Z) (n1 n2 : jsstring) :
  App.handleUpdateNotes dayNumber n2 (App.handleUpdateNotes dayNumber n1 s)
    = App.handleUpdateNotes dayNumber n2 s
  /\ (forall i j,
        StoreMore.dayAt (App.handleUpdateNotes dayNumber n1 s) i j
        = match App.plans s !! i with
          | Some p =>
              match LearningPlan.days p !! j with
              | Some d =>
                  Some (if negb (App.noActivePlan (App.activePlanId s))
                           && App.isActive (App.activePlanId s) p
                           && (DayPlan.dayNumber d =? dayNumber)%Z
                        then StoreMore.setNotes n1 d else d)
              | None => None
              end
          | None => None
          end)
  /\ (forall i j k,
        Store.taskAt (App.handleUpdateNotes dayNumber n1 s) i j k = Store.taskAt s i j k)
  /\ (forall dn' taskId,
        App.handleUpdateNotes dayNumber n1 (App.handleToggleTask dn' taskId s)
        = App.handleToggleTask dn' taskId (App.handleUpdateNotes dayNumber n1 s)).
Proof.
  assert (Hday : forall i j,
        StoreMore.dayAt (App.handleUpdateNotes dayNumber n1 s) i j
        = match App.plans s !! i with
          | Some p =>
              match LearningPlan.days p !! j with
              | Some d =>
                  Some (if negb (App.noActivePlan (App.activePlanId s))
                           && App.isActive (App.activePlanId s) p
                           && (DayPlan.dayNumber d =? dayNumber)%Z
                        then StoreMore.setNotes n1 d else d)
              | None => None
              end
          | None => None
          end).
  { intros i j. rewrite handleUpdateNotes_onActiveDays, dayAt_onActiveDays.
    destruct (App.plans s !! i) as [p|]; [|reflexivity].
    destruct (LearningPlan.days p !! j) as [d|]; [|reflexivity].
    rewrite updateNotesInDay_setNotes.
    destruct (negb _ && _); destruct (_ =? _)%Z; reflexivity. }
  split; [|split; [exact Hday|split]].
  - rewrite !handleUpdateNotes_onActiveDays, onActiveDays_compose.
    apply onActiveDays_ext. intros d. apply updateNotesInDay_twice.
  - intros i j k. unfold Store.taskAt. specialize (Hday i j).
    unfold StoreMore.dayAt in Hday.
    destruct (App.plans (App.handleUpdateNotes dayNumber n1 s) !! i) as [p'|];
      destruct (App.plans s !! i) as [p|].
    + rewrite Hday. destruct (LearningPlan.days p !! j) as [d|]; [|reflexivity].
      destruct (_ && _); reflexivity.
    + rewrite Hday. reflexivity.
    + destruct (LearningPlan.days p !! j); [discriminate|reflexivity].
    + reflexivity.
  - intros dn' taskId.
    rewrite !handleUpdateNotes_onActiveDays, !handleToggleTask_onActiveDays,
      !onActiveDays_compose.
    apply onActiveDays_ext. intros d. apply updateNotes_toggleTask_day.
Qed.

(** X4. Two invocations of [toggleTask] commute, whatever their day numbers
    and task identifiers. *)
Theorem toggleTask_commutes
    (s : App.State) (dn1 dn2 : Z) (id1 id2 : jsstring) :
  App.handleToggleTask dn1 id1 (App.handleToggleTask dn2 id2 s)
  = App.handleToggleTask dn2 id2 (App.handleToggleTask dn1 id1 s).
Proof.
  rewrite !handleToggleTask_onActiveDays, !onActiveDays_compose.
  apply onActiveDays_ext. intros d. apply toggleTaskInDay_comm.
Qed.

(** X5. The day the panel shows stays in step with the store: after a task
    is toggled or the notes are written, [currentSelectedDay] is the day it
    was, with the same change applied, although [selectedDay] itself keeps
    the copy taken at selection. The active identifier is assumed not to be
    the empty string, on which the handlers do nothing. *)
Theorem selected_day_follows_store (s : App.State) :
  App.activePlanId s <> Some [] ->
  (forall dayNumber taskId,
      App.currentSelectedDay (App.handleToggleTask dayNumber taskId s)
      = option_map (App.toggleTaskInDay dayNumber taskId) (App.currentSelectedDay s)
      /\ App.selectedDay (App.handleToggleTask dayNumber taskId s) = App.selectedDay s)
  /\ (forall dayNumber notes,
      App.currentSelectedDay (App.handleUpdateNotes dayNumber notes s)
      = option_map (App.updateNotesInDay dayNumber notes) (App.currentSelectedDay s)
      /\ App.selectedDay (App.handleUpdateNotes dayNumber notes s) = App.selectedDay s).
Proof.
  intros Hne. split.
  - intros dn tid. split.
    + rewrite handleToggleTask_onActiveDays. apply currentSelectedDay_onActiveDays;
        [|exact Hne].
      intros d. unfold App.toggleTaskInDay. destruct (negb _); reflexivity.
    + unfold App.handleToggleTask. destruct (App.noActivePlan _); reflexivity.
  - intros dn notes. split.
    + rewrite handleUpdateNotes_onActiveDays. apply currentSelectedDay_onActiveDays;
        [|exact Hne].
      intros d. unfold App.updateNotesInDay. destruct (negb _); reflexivity.
    + unfold App.handleUpdateNotes. destruct (App.noActivePlan _); reflexivity.
Qed.

Lemma selected_day_follows_store_witness :
  let s := App.selectDay (Sample.day 1 [Sample.task "task-1-0" false]) StoreSample.store in
  App.currentSelectedDay (App.handleToggleTask 1 (js "task-1-0") s)
  = Some (Sample.day 1 [Sample.task "task-1-0" true]).
Proof.
  intros s.
  destruct (selected_day_follows_store s) as [Ht _]; [discriminate|].
  rewrite (proj1 (Ht 1%Z (js "task-1-0"))). vm_compute. reflexivity.
Defined.

Section Pristine.
Import JSON geminiService PlanWizard.

Ltac invM' H :=
  repeat match type of H with
    | bindM _ _ _ = (Ok _, _) =>
        let a := fresh "a" in
        let n1 := fresh "n" in
        let H1 := fresh "H" in
        apply bindM_Ok in H; destruct H as (a & n1 & H1 & H);
        try (apply lift_Ok in H1; destruct H1 as [H1 ->])
    end.

Lemma formatTask_fresh dayNumber t idx m y m' :
  formatTask dayNumber t idx m = (Ok y, m') ->
  m' = m
  /\ Task.isCompleted y = false
  /\ Task.id y = js "task-" ++ Str.of_Z dayNumber ++ js "-" ++ Str.of_Z (Z.of_nat idx).
Proof.
  unfold formatTask. intros H. invM' H. injection H as <- <-. auto.
Qed.

Lemma mmapi_same_count {A B} (f : A -> nat -> M B) :
  (forall x i m y m', f x i m = (Ok y, m') -> m' = m) ->
  forall l i n ys n', mmapi f l i n = (Ok ys, n') -> n' = n.
Proof.
  intros Hf. induction l as [|x l IH]; intros i n ys n' H; simpl in H.
  - injection H as _ <-. reflexivity.
  - apply bindM_Ok in H. destruct H as (y0 & n1 & H0 & H).
    apply bindM_Ok in H. destruct H as (ys0 & n2 & H1 & H).
    injection H as _ <-. apply Hf in H0. subst n1. eapply IH; eauto.
Qed.

Lemma formatDay_fresh d i m y m' :
  formatDay d i m = (Ok y, m') ->
  m' = m /\ pristineDay y
  /\ forall idx t, DayPlan.tasks y !! idx = Some t ->
       Task.id t = js "task-" ++ Str.of_Z (DayPlan.dayNumber y) ++ js "-"
                   ++ Str.of_Z (Z.of_nat idx).
Proof.
  unfold formatDay. intros H. invM' H. injection H as <- <-.
  match goal with
  | Hm : mmapi _ _ _ _ = (Ok _, _) |- _ =>
      pose proof (mmapi_Forall _ (fun t => Task.isCompleted t = false)
                    (fun x i m y m' E => proj1 (proj2 (formatTask_fresh _ x i m y m' E)))
                    _ _ _ _ _ Hm) as Hc;
      pose proof (mmapi_same_count _
                    (fun x i m y m' E => proj1 (formatTask_fresh _ x i m y m' E))
                    _ _ _ _ _ Hm) as Hn;
      apply mmapi_lookup in Hm;
      [destruct Hm as (_ & _ & Hts)
      |intros x j k y k' E; apply formatTask_fresh in E; lia]
  end.
  split; [exact Hn|]. split; [repeat split; assumption|].
  cbn [DayPlan.tasks DayPlan.dayNumber]. intros idx t Ht.
  destruct (Hts idx t Ht) as (x & k & k' & _ & _ & _ & E).
  apply formatTask_fresh in E. apply E.
Qed.

Lemma generateLearningPlan_fresh response n g n' :
  generateLearningPlan response n = (Ok g, n') ->
  n' = n /\ Forall pristineDay (g_days g).
Proof.
  unfold generateLearningPlan. intros H. invM' H. injection H as <- <-.
  cbn [g_days].
  match goal with
  | Hm : mmapi _ _ _ _ = (Ok _, _) |- _ =>
      split;
      [apply (mmapi_same_count _
                (fun x i m y m' E => proj1 (formatDay_fresh x i m y m' E))
                _ _ _ _ _ Hm)
      |apply (mmapi_Forall _ pristineDay
                (fun x i m y m' E => proj1 (proj2 (formatDay_fresh x i m y m' E)))
                _ _ _ _ _ Hm)]
  end.
Qed.

Lemma updateDay_pristine clock d i m y m' :
  updateDay clock d i m = (Ok y, m') -> pristineDay y.
Proof.
  intros H. apply updateDay_Ok in H. destruct H as (_ & Hn & Hs & Hts).
  split; [exact Hn|]. split; [exact Hs|].
  apply Forall_lookup. intros idx t Ht. apply (Hts idx t Ht).
Qed.

Lemma updatePlanWithChat_pristine clock currentPlan response n plan' n' :
  updatePlanWithChat clock currentPlan response n = (Ok plan', n') ->
  pristine plan'
  /\ LearningPlan.id plan' = LearningPlan.id currentPlan
  /\ LearningPlan.startDate plan' = LearningPlan.startDate currentPlan.
Proof.
  unfold updatePlanWithChat. intros H. invM' H. injection H as <- <-.
  split; [|split; reflexivity]. unfold pristine. cbn [LearningPlan.days].
  match goal with
  | Hm : mmapi _ _ _ _ = (Ok _, _) |- _ =>
      apply (mmapi_Forall _ pristineDay
               (fun x i m y m' E => updateDay_pristine clock x i m y m' E)
               _ _ _ _ _ Hm)
  end.
Qed.
End Pristine.

Section ReplaceAndPersist.
Import App Store StoreMore.

Lemma handleUpdatePlan_lookup u s i p :
  plans s !! i = Some p ->
  plans (handleUpdatePlan u s) !! i
  = Some (if Str.eqb (LearningPlan.id p) (LearningPlan.id u) then u else p).
Proof.
  intros H. unfold handleUpdatePlan. cbn [setPlans plans].
  rewrite map_fmap, list_lookup_fmap, H. reflexivity.
Qed.

Lemma handleUpdatePlan_twice u s :
  handleUpdatePlan u (handleUpdatePlan u s) = handleUpdatePlan u s.
Proof.
  unfold handleUpdatePlan, setPlans. cbn. f_equal. rewrite map_map.
  apply map_ext. intros p.
  destruct (Str.eqb (LearningPlan.id p) (LearningPlan.id u)) eqn:E.
  - rewrite Str_eqb_refl. reflexivity.
  - rewrite E. reflexivity.
Qed.

Lemma handleUpdatePlan_absent u s :
  (forall p, In p (plans s) -> LearningPlan.id p <> LearningPlan.id u) ->
  handleUpdatePlan u s = s.
Proof.
  intros H. unfold handleUpdatePlan. rewrite map_id_ext; [apply setPlans_same|].
  intros p Hp. apply H in Hp. apply Str_eqb_neq in Hp. rewrite Hp. reflexivity.
Qed.
End ReplaceAndPersist.

(** X6. A refinement applied to the store: the plan [updatePlanWithChat]
    returns takes the place of every plan that has the identifier of the
    plan that was refined, with all its days back to no notes, no sessions
    and no completed task; the other plans, their order, the active
    identifier and the selection stay; nothing changes when no plan has the
    identifier; applying the result a second time changes nothing more. *)
Theorem refinement_replaces_plan_in_store
    (clock : Clock) (currentPlan : LearningPlan.t)
    (response : result (option jsstring)) (n : nat)
    (updatedPlan : LearningPlan.t) (n' : nat) (s : App.State) :
  geminiService.updatePlanWithChat clock currentPlan response n = (Ok updatedPlan, n') ->
  let s' := App.handleUpdatePlan updatedPlan s in
  length (App.plans s') = length (App.plans s)
  /\ (forall i p, App.plans s !! i = Some p ->
        App.plans s' !! i
        = Some (if Str.eqb (LearningPlan.id p) (LearningPlan.id currentPlan)
                then updatedPlan else p))
  /\ PlanWizard.pristine updatedPlan
  /\ App.activePlanId s' = App.activePlanId s
  /\ App.selectedDay s' = App.selectedDay s
  /\ ((forall p, In p (App.plans s) -> LearningPlan.id p <> LearningPlan.id currentPlan) ->
      s' = s)
  /\ App.handleUpdatePlan updatedPlan s' = s'.
Proof.
  intros H s'. apply updatePlanWithChat_pristine in H. destruct H as (Hp & Hid & _).
  split; [unfold s', App.handleUpdatePlan; cbn; apply length_map|].
  split; [intros i p Hi; rewrite <- Hid; apply handleUpdatePlan_lookup, Hi|].
  split; [exact Hp|]. split; [reflexivity|]. split; [reflexivity|].
  split; [rewrite <- Hid; apply handleUpdatePlan_absent|apply handleUpdatePlan_twice].
Qed.

Lemma refinement_replaces_plan_in_store_witness :
  exists updatedPlan n',
    geminiService.updatePlanWithChat StoreSample.clockLater StoreSample.planInProgress
      (Ok (Some StoreSample.refinedResponse)) 0 = (Ok updatedPlan, n')
    /\ App.plans (App.handleUpdatePlan updatedPlan StoreSample.storeRunning)
       = [updatedPlan]
    /\ PlanWizard.pristine updatedPlan.
Proof.
  eexists. eexists. split; [vm_compute; reflexivity|].
  destruct (refinement_replaces_plan_in_store StoreSample.clockLater
              StoreSample.planInProgress (Ok (Some StoreSample.refinedResponse)) 0
              _ _ StoreSample.storeRunning eq_refl) as (_ & _ & Hp & _).
  split; [reflexivity|exact Hp].
Defined.

(** X7. Persistence. After the save effect, a restart brings back the plans
    as they were and makes the first one active, with no day selected. The
    save effect writes nothing when the store is empty: when the only plan is
    deleted the storage keeps it, and after a restart the deleted plan is
    back in the store. *)
Theorem storage_restores_plans (s : App.State) :
  (App.plans s <> [] ->
   let r := StoreMore.restart (App.saveEffect s) in
   App.plans r = App.plans s
   /\ App.activePlanId r = option_map LearningPlan.id (head (App.plans s))
   /\ App.selectedDay r = None
   /\ App.viewMode r = App.view)
  /\ (App.plans s = [] -> App.storage (App.saveEffect s) = App.storage s)
  /\ (forall p, App.plans s = [p] ->
        let s1 := App.saveEffect
                    (App.handleDeletePlan (LearningPlan.id p) true (App.saveEffect s)) in
        App.plans s1 = [] /\ App.plans (StoreMore.restart s1) = [p]).
Proof.
  split; [|split].
  - intros Hne r. unfold r, StoreMore.restart, App.saveEffect, App.load.
    destruct (App.plans s) as [|p ps] eqn:E; [congruence|]. cbn.
    repeat split; reflexivity.
  - intros E. unfold App.saveEffect. rewrite E. reflexivity.
  - intros p E s1.
    assert (Hd : App.plans (App.handleDeletePlan (LearningPlan.id p) true (App.saveEffect s))
                 = []).
    { rewrite handleDeletePlan_plans. unfold App.saveEffect. rewrite E. cbn.
      rewrite Str_eqb_refl. reflexivity. }
    assert (Hs : App.storage
                   (App.handleDeletePlan (LearningPlan.id p) true (App.saveEffect s))
                 = Some [p]).
    { unfold App.handleDeletePlan, App.saveEffect. rewrite E. cbn.
      destruct (match App.activePlanId s with
                | Some a => Str.eqb a (LearningPlan.id p)
                | None => false
                end); reflexivity. }
    unfold s1, StoreMore.restart, App.load.
    unfold App.saveEffect at 1 3. rewrite Hd. cbn [App.storage App.plans].
    rewrite Hs. split; [exact Hd|reflexivity].
Qed.

(** X8. After [handleCreatePlan] the new plan is the first of the store and
    the one the view shows, its first day is the day the panel shows, and
    the panel is open. *)
Theorem createPlan_shows_new_plan (newPlan : LearningPlan.t) (s : App.State) :
  let s' := App.handleCreatePlan newPlan s in
  App.plans s' = newPlan :: App.plans s
  /\ App.activePlan s' = Some newPlan
  /\ App.currentSelectedDay s' = head (LearningPlan.days newPlan)
  /\ App.viewMode s' = App.view
  /\ App.isSidePanelOpen s' = true
  /\ App.storage s' = App.storage s.
Proof.
  intros s'.
  assert (Ha : App.activePlan s' = Some newPlan).
  { unfold s', App.activePlan, App.handleCreatePlan. cbn.
    rewrite Str_eqb_refl. reflexivity. }
  split; [reflexivity|]. split; [exact Ha|].
  split; [|repeat split; reflexivity].
  unfold App.currentSelectedDay. rewrite Ha. unfold s', App.handleCreatePlan.
  cbn [App.selectedDay].
  destruct (LearningPlan.days newPlan) as [|d ds]; [reflexivity|].
  cbn. rewrite Z.eqb_refl. reflexivity.
Qed.

(** ** The plan wizard *)

Section Wizard.
Import geminiService PlanWizard.

Lemma pristine_planOk p : pristine p -> Store.planOk p.
Proof.
  unfold pristine, Store.planOk. apply Forall_impl.
  intros d (_ & Hs & _). apply dayOk_no_sessions, Hs.
Qed.

Lemma handleCreatePlan_invariant p app :
  Store.planOk p -> Store.invariant app -> Store.invariant (App.handleCreatePlan p app).
Proof.
  intros Hp (Hplans & Hst & Hsel).
  split; [constructor; assumption|]. split; [exact Hst|].
  cbn. intros d Hd. destruct (LearningPlan.days p) as [|d0 ds] eqn:E; [discriminate|].
  injection Hd as <-. unfold Store.planOk in Hp. rewrite E in Hp.
  inversion Hp; assumption.
Qed.

Lemma handleSubmit_pristine describe clock uuid response n w :
  (forall p, generatedPlan w = Some p -> pristine p) ->
  forall p, generatedPlan (fst (handleSubmit describe clock uuid response n w)) = Some p ->
            pristine p.
Proof.
  intros Hw p. unfold handleSubmit. destruct (blank (topic w)); [apply Hw|].
  destruct (generateLearningPlan response n) as [[g|e] n1] eqn:E; cbn; [|apply Hw].
  intros [= <-]. apply generateLearningPlan_fresh in E. apply E.
Qed.

Lemma handleRefine_plan clock response n w p p' :
  generatedPlan w = Some p ->
  generatedPlan (fst (handleRefine clock response n w)) = Some p' ->
  (p' = p \/ exists n1, updatePlanWithChat clock p response n = (Ok p', n1)).
Proof.
  intros Hp. unfold handleRefine. rewrite Hp.
  destruct (blank (refineInput w)); [cbn; rewrite Hp; intros [= <-]; auto|].
  destruct (updatePlanWithChat clock p response n) as [[u|e] n1] eqn:E; cbn;
    intros [= <-]; eauto.
Qed.

Lemma reachable_pristine w :
  reachable w -> forall p, generatedPlan w = Some p -> pristine p.
Proof.
  induction 1 as [|w w' _ IH Hstep]; [intros p [=]|].
  destruct Hstep; try exact IH.
  - apply handleSubmit_pristine, IH.
  - intros p' Hp'. destruct (generatedPlan s) as [p|] eqn:Ep.
    + destruct (handleRefine_plan _ _ _ _ _ _ Ep Hp') as [->|(n1 & E)];
        [apply IH; reflexivity|].
      apply updatePlanWithChat_pristine in E. apply E.
    + unfold handleRefine in Hp'. rewrite Ep in Hp'. cbn in Hp'. congruence.
  - intros p [=].
Qed.
End Wizard.

(** X9. Whatever the user did in the wizard (submissions, refinements that
    succeeded or failed, discarded previews), the plan of the preview has no
    notes, no sessions and no completed task, and handing it over with
    [handleConfirm] keeps the open-session invariant of the store. A
    refinement keeps the identifier and the start date of the previewed
    plan, and a refinement that fails keeps the plan itself and reports
    the failure. *)
Theorem wizard_hands_over_pristine_plan (w : PlanWizard.State) :
  PlanWizard.reachable w ->
  (forall p, PlanWizard.generatedPlan w = Some p -> PlanWizard.pristine p)
  /\ (forall app, Store.invariant app -> Store.invariant (PlanWizard.handleConfirm w app))
  /\ (forall clock response n p p',
        PlanWizard.generatedPlan w = Some p ->
        PlanWizard.generatedPlan (fst (PlanWizard.handleRefine clock response n w))
          = Some p' ->
        LearningPlan.id p' = LearningPlan.id p
        /\ LearningPlan.startDate p' = LearningPlan.startDate p)
  /\ (forall clock response n p e n1,
        PlanWizard.generatedPlan w = Some p ->
        PlanWizard.blank (PlanWizard.refineInput w) = false ->
        geminiService.updatePlanWithChat clock p response n = (Throw e, n1) ->
        let w' := fst (PlanWizard.handleRefine clock response n w) in
        PlanWizard.generatedPlan w' = Some p
        /\ PlanWizard.error w' = Some (js "Failed to update plan. Please try again.")
        /\ PlanWizard.refineInput w' = PlanWizard.refineInput w).
Proof.
  intros Hr. pose proof (reachable_pristine w Hr) as Hp.
  split; [exact Hp|]. split; [|split].
  - intros app Hinv. unfold PlanWizard.handleConfirm.
    destruct (PlanWizard.generatedPlan w) as [p|]; [|exact Hinv].
    apply handleCreatePlan_invariant; [|exact Hinv].
    apply pristine_planOk, Hp. reflexivity.
  - intros clock response n p p' Hg Hg'.
    destruct (handleRefine_plan _ _ _ _ _ _ Hg Hg') as [->|(n1 & E)];
      [split; reflexivity|].
    apply updatePlanWithChat_pristine in E. apply E.
  - intros clock response n p e n1 Hg Hb E w'. unfold w', PlanWizard.handleRefine.
    rewrite Hg, Hb, E. cbn. repeat split; reflexivity.
Qed.

Lemma wizard_hands_over_pristine_plan_witness :
  let w := fst (PlanWizard.handleSubmit (fun _ => js "error") StoreSample.clockLater
                  (js "plan-a") (Ok (Some StoreSample.generatedResponse)) 0
                  (PlanWizard.setTopic (js "Rocq") PlanWizard.initial)) in
  PlanWizard.reachable w
  /\ (exists p, PlanWizard.generatedPlan w = Some p /\ PlanWizard.pristine p)
  /\ Store.invariant (PlanWizard.handleConfirm w App.initial).
Proof.
  intros w.
  assert (Hr : PlanWizard.reachable w).
  { apply (PlanWizard.reachable_step
             (PlanWizard.setTopic (js "Rocq") PlanWizard.initial));
      [|apply PlanWizard.step_submit].
    apply (PlanWizard.reachable_step PlanWizard.initial);
      [apply PlanWizard.reachable_initial|apply PlanWizard.step_setTopic]. }
  destruct (wizard_hands_over_pristine_plan w Hr) as (Hp & Hc & _).
  split; [exact Hr|]. split.
  - eexists. split; [vm_compute; reflexivity|]. apply Hp. vm_compute. reflexivity.
  - apply Hc. apply initial_invariant.
Defined.

(** ** Task identifiers *)

Section TaskIds.
Import geminiService Decimal.
Local Open Scope N_scope.

Lemma pos_digits_value fuel : forall n acc,
  n < 2 ^ N.of_nat fuel ->
  value (Str.pos_digits fuel n acc) = valueFrom n acc.
Proof.
  induction fuel as [|f IH]; intros n acc Hn.
  - simpl in *. assert (n = 0) by lia. subst. reflexivity.
  - cbn [Str.pos_digits]. destruct (N.ltb_spec n 10) as [Hlt|Hge].
    + unfold value, valueFrom. cbn [fold_left].
      rewrite N.mod_small by exact Hlt. f_equal. lia.
    + rewrite IH.
      * unfold valueFrom. cbn [fold_left]. f_equal.
        assert (H10 : 10 <> 0) by lia.
        pose proof (N.div_mod n 10 H10) as Hdm.
        set (q := n / 10) in *. set (r := n mod 10) in *. clearbody q r.
        clear Hn IH. lia.
      * rewrite Nat2N.inj_succ, N.pow_succ_r' in Hn.
        apply N.Div0.div_lt_upper_bound. lia.
Qed.

Lemma of_N_value n : value (Str.of_N n) = n.
Proof.
  unfold Str.of_N. rewrite pos_digits_value; [reflexivity|].
  rewrite Nat2N.inj_succ, N2Nat.id.
  destruct n as [|p]; [reflexivity|]. apply N.log2_spec. reflexivity.
Qed.

Lemma pos_digits_digits fuel : forall n acc,
  Forall (fun c => is_digit c = true) acc ->
  Forall (fun c => is_digit c = true) (Str.pos_digits fuel n acc).
Proof.
  induction fuel as [|f IH]; intros n acc Hacc; [exact Hacc|].
  cbn [Str.pos_digits].
  assert (Hd : is_digit (48 + n mod 10) = true).
  { unfold is_digit. assert (H10 : 10 <> 0) by lia.
    pose proof (N.mod_upper_bound n 10 H10) as Hr.
    set (r := n mod 10) in *. clearbody r.
    apply andb_true_iff. split; apply N.leb_le; lia. }
  destruct (n <? 10); [|apply IH]; constructor; assumption.
Qed.

Lemma of_N_digits n : Forall (fun c => is_digit c = true) (Str.of_N n).
Proof. apply pos_digits_digits. constructor. Qed.

Lemma of_N_inj a b : Str.of_N a = Str.of_N b -> a = b.
Proof. intros H. rewrite <- (of_N_value a), <- (of_N_value b), H. reflexivity. Qed.

Lemma of_Z_nat i : Str.of_Z (Z.of_nat i) = Str.of_N (N.of_nat i).
Proof.
  unfold Str.of_Z. destruct (Z.ltb_spec (Z.of_nat i) 0); [lia|].
  f_equal. lia.
Qed.

(** Digits, then a character that is no digit: the split is unique. *)
Lemma digits_split (l1 l2 x y : jsstring) (c : N) :
  is_digit c = false ->
  Forall (fun c => is_digit c = true) l1 ->
  Forall (fun c => is_digit c = true) l2 ->
  l1 ++ c :: x = l2 ++ c :: y -> l1 = l2.
Proof.
  intros Hc H1. revert l2. induction H1 as [|a l1 Ha _ IH]; intros l2 H2 E.
  - destruct H2 as [|b l2 Hb _]; [reflexivity|].
    simpl in E. injection E as -> _. congruence.
  - destruct H2 as [|b l2 Hb H2].
    + simpl in E. injection E as -> _. congruence.
    + simpl in E. injection E as -> E. f_equal. apply IH; assumption.
Qed.

Lemma generated_id_inj prefix i j :
  prefix ++ Str.of_Z (Z.of_nat i) = prefix ++ Str.of_Z (Z.of_nat j) -> i = j.
Proof.
  intros H. apply app_inv_head in H. rewrite !of_Z_nat in H.
  apply of_N_inj in H. lia.
Qed.

Lemma refined_id_inj prefix i j x y :
  prefix ++ Str.of_Z (Z.of_nat i) ++ js "-" ++ x
  = prefix ++ Str.of_Z (Z.of_nat j) ++ js "-" ++ y -> i = j.
Proof.
  intros H. apply app_inv_head in H. rewrite !of_Z_nat in H.
  apply digits_split in H; [|reflexivity|apply of_N_digits|apply of_N_digits].
  apply of_N_inj in H. lia.
Qed.
End TaskIds.

(** X10. The task identifiers the service synthesizes are unique within a
    day: in every plan [generateLearningPlan] returns and in every plan
    [updatePlanWithChat] returns, no two tasks of one day have the same
    identifier. *)
Theorem synthesized_task_ids_unique :
  (forall response n g n',
      geminiService.generateLearningPlan response n = (Ok g, n') ->
      forall d, In d (geminiService.g_days g) -> NoDup (map Task.id (DayPlan.tasks d)))
  /\ (forall clock currentPlan response n plan' n',
      geminiService.updatePlanWithChat clock currentPlan response n = (Ok plan', n') ->
      forall d, In d (LearningPlan.days plan') -> NoDup (map Task.id (DayPlan.tasks d))).
Proof.
  split.
  - intros response n g n' H d Hd.
    unfold geminiService.generateLearningPlan in H.
    repeat match type of H with
      | bindM _ _ _ = (Ok _, _) =>
          let a := fresh "a" in
          let n1 := fresh "n" in
          let H1 := fresh "H" in
          apply bindM_Ok in H; destruct H as (a & n1 & H1 & H);
          try (apply lift_Ok in H1; destruct H1 as [H1 ->])
      end.
    injection H as <- <-. cbn [geminiService.g_days] in Hd.
    match goal with
    | Hm : mmapi _ _ _ _ = (Ok _, _) |- _ =>
        pose proof (mmapi_Forall _
                      (fun y => forall idx t, DayPlan.tasks y !! idx = Some t ->
                         Task.id t = js "task-" ++ Str.of_Z (DayPlan.dayNumber y)
                                     ++ js "-" ++ Str.of_Z (Z.of_nat idx))
                      (fun x i m y m' E => proj2 (proj2 (formatDay_fresh x i m y m' E)))
                      _ _ _ _ _ Hm) as Hall
    end.
    rewrite Forall_forall in Hall. specialize (Hall d Hd).
    apply NoDup_alt. intros i j x Hi Hj.
    rewrite map_fmap, list_lookup_fmap in Hi, Hj.
    destruct (DayPlan.tasks d !! i) as [ti|] eqn:Ei; [|discriminate].
    destruct (DayPlan.tasks d !! j) as [tj|] eqn:Ej; [|discriminate].
    cbn in Hi, Hj. injection Hi as Hi. injection Hj as Hj.
    rewrite (Hall i ti Ei) in Hi. rewrite (Hall j tj Ej) in Hj.
    rewrite <- Hj in Hi. rewrite !app_assoc in Hi.
    apply generated_id_inj in Hi. exact Hi.
  - intros clock currentPlan response n plan' n' H d Hd.
    unfold geminiService.updatePlanWithChat in H.
    repeat match type of H with
      | bindM _ _ _ = (Ok _, _) =>
          let a := fresh "a" in
          let n1 := fresh "n" in
          let H1 := fresh "H" in
          apply bindM_Ok in H; destruct H as (a & n1 & H1 & H);
          try (apply lift_Ok in H1; destruct H1 as [H1 ->])
      end.
    injection H as <- <-. cbn [LearningPlan.days] in Hd.
    match goal with
    | Hm : mmapi _ _ _ _ = (Ok _, _) |- _ =>
        pose proof (mmapi_Forall _
                      (fun y => forall idx t, DayPlan.tasks y !! idx = Some t ->
                         exists k, Task.id t
                           = js "task-" ++ Str.of_Z (DayPlan.dayNumber y) ++ js "-"
                             ++ Str.of_Z (Z.of_nat idx) ++ js "-" ++ Str.of_Z (clock k))
                      (fun x i m y m' E idx t Ht =>
                         match proj2 (proj2 (proj2 (proj2 (updateDay_Ok clock x i m y m' E)))
                                        idx t Ht) with
                         | ex_intro _ k (conj _ Hid) => ex_intro _ k Hid
                         end)
                      _ _ _ _ _ Hm) as Hall
    end.
    rewrite Forall_forall in Hall. specialize (Hall d Hd).
    apply NoDup_alt. intros i j x Hi Hj.
    rewrite map_fmap, list_lookup_fmap in Hi, Hj.
    destruct (DayPlan.tasks d !! i) as [ti|] eqn:Ei; [|discriminate].
    destruct (DayPlan.tasks d !! j) as [tj|] eqn:Ej; [|discriminate].
    cbn in Hi, Hj. injection Hi as Hi. injection Hj as Hj.
    destruct (Hall i ti Ei) as (ki & Hki). destruct (Hall j tj Ej) as (kj & Hkj).
    rewrite Hki in Hi. rewrite Hkj in Hj. rewrite <- Hj in Hi.
    rewrite !(app_assoc (js "task-")), !(app_assoc (js "task-" ++ _)) in Hi.
    apply refined_id_inj in Hi. exact Hi.
Qed.

Lemma synthesized_task_ids_unique_witness :
  exists plan' n',
    geminiService.updatePlanWithChat StoreSample.clockLater StoreSample.planInProgress
      (Ok (Some StoreSample.refinedResponse)) 0 = (Ok plan', n')
    /\ forall d, In d (LearningPlan.days plan') -> NoDup (map Task.id (DayPlan.tasks d)).
Proof.
  eexists. eexists. split; [vm_compute; reflexivity|].
  apply (proj2 synthesized_task_ids_unique StoreSample.clockLater
           StoreSample.planInProgress (Ok (Some StoreSample.refinedResponse)) 0 _ _ eq_refl).
Defined.


(** ** The matcher of fenced blocks *)

Section Matcher.
Import RegExp RegExpLoops geminiService.

Lemma run_greedy cls p' cap s :
  run (StarGreedy cls :: p') cap s = greedyLoop (run p' cap) cls s.
Proof. reflexivity. Qed.

Lemma run_lazy cls p' cap s :
  run (CaptureLazy cls :: p') cap s = lazyLoop (run p') cls [] s.
Proof. reflexivity. Qed.

Lemma run_lit l p' cap s :
  run (Lit l :: p') cap s
  = match Str.strip_prefix l s with Some s' => run p' cap s' | None => None end.
Proof. reflexivity. Qed.

Lemma run_opt l p' cap s :
  run (OptLit l :: p') cap s
  = match (match Str.strip_prefix l s with
           | Some s' => run p' cap s'
           | None => None
           end) with
    | Some r => Some r
    | None => run p' cap s
    end.
Proof. reflexivity. Qed.

Lemma strip_prefix_app l s : Str.strip_prefix l (l ++ s) = Some s.
Proof.
  induction l as [|x l IH]; simpl; [reflexivity|]. rewrite N.eqb_refl. exact IH.
Qed.

Lemma strip_prefix_Some l s s' : Str.strip_prefix l s = Some s' -> s = l ++ s'.
Proof.
  revert s. induction l as [|x l IH]; intros s H; simpl in H.
  - injection H as ->. reflexivity.
  - destruct s as [|y s]; [discriminate|].
    destruct (N.eqb_spec x y) as [->|]; [|discriminate].
    simpl. f_equal. apply IH, H.
Qed.

Lemma any_true c : any c = true.
Proof. unfold any. destruct (is_space c); reflexivity. Qed.

(** *** Whatever is captured is a piece of the text *)

Lemma piece_of_suffix r s1 s2 : piece_of r s2 -> piece_of r (s1 ++ s2).
Proof.
  intros (pre & post & ->). exists (s1 ++ pre), post. rewrite <- app_assoc. reflexivity.
Qed.

Lemma greedyLoop_suffix k cls s r :
  greedyLoop k cls s = Some r -> exists s1 s2, s = s1 ++ s2 /\ k s2 = Some r.
Proof.
  induction s as [|c s IH]; simpl; intros H.
  - exists [], []. auto.
  - destruct (cls c).
    + destruct (greedyLoop k cls s) as [r'|] eqn:E.
      * injection H as ->. destruct (IH eq_refl) as (s1 & s2 & -> & Hk).
        exists (c :: s1), s2. auto.
      * exists [], (c :: s). auto.
    + exists [], (c :: s). auto.
Qed.

Lemma lazyLoop_split k cls s : forall acc r,
  lazyLoop k cls acc s = Some r ->
  exists s1 s2, s = s1 ++ s2 /\ k (rev acc ++ s1) s2 = Some r.
Proof.
  induction s as [|c s IH]; intros acc r H; simpl in H.
  - destruct (k (rev acc) []) eqn:E; [|discriminate]. injection H as ->.
    exists [], []. split; [reflexivity|rewrite app_nil_r; exact E].
  - destruct (k (rev acc) (c :: s)) eqn:E.
    + injection H as ->. exists [], (c :: s).
      split; [reflexivity|rewrite app_nil_r; exact E].
    + destruct (cls c); [|discriminate].
      destruct (IH _ _ H) as (s1 & s2 & -> & Hk).
      exists (c :: s1), s2. split; [reflexivity|].
      simpl in Hk. rewrite <- app_assoc in Hk. exact Hk.
Qed.

Lemma run_piece p : forall cap s r,
  run p cap s = Some r -> r = cap \/ piece_of r s.
Proof.
  induction p as [|it p IH]; intros cap s r H.
  - simpl in H. injection H as <-. left. reflexivity.
  - destruct it as [l|l|cls|cls].
    + rewrite run_lit in H. destruct (Str.strip_prefix l s) as [s'|] eqn:E; [|discriminate].
      apply strip_prefix_Some in E. subst s.
      destruct (IH _ _ _ H) as [->|Hp]; [left; reflexivity|right].
      apply piece_of_suffix, Hp.
    + rewrite run_opt in H.
      destruct (Str.strip_prefix l s) as [s'|] eqn:E.
      * destruct (run p cap s') as [r'|] eqn:E'.
        -- injection H as ->. apply strip_prefix_Some in E. subst s.
           destruct (IH _ _ _ E') as [->|Hp]; [left; reflexivity|right].
           apply piece_of_suffix, Hp.
        -- apply IH, H.
      * apply IH, H.
    + rewrite run_greedy in H. apply greedyLoop_suffix in H.
      destruct H as (s1 & s2 & -> & Hk).
      destruct (IH _ _ _ Hk) as [->|Hp]; [left; reflexivity|right].
      apply piece_of_suffix, Hp.
    + rewrite run_lazy in H. apply lazyLoop_split in H.
      destruct H as (s1 & s2 & -> & Hk). right.
      destruct (IH _ _ _ Hk) as [->|Hp].
      * exists [], s2. reflexivity.
      * apply piece_of_suffix, Hp.
Qed.

Lemma exec_piece p s r : exec p s = Some r -> piece_of r s.
Proof.
  induction s as [|c s IH]; simpl; intros H.
  - destruct (run p [] []) eqn:E; [|discriminate]. injection H as ->.
    destruct (run_piece _ _ _ _ E) as [->|Hp]; [exists [], []; reflexivity|exact Hp].
  - destruct (run p [] (c :: s)) eqn:E.
    + injection H as ->.
      destruct (run_piece _ _ _ _ E) as [->|Hp]; [exists [], (c :: s); reflexivity|exact Hp].
    + apply (piece_of_suffix r [c] s), IH, H.
Qed.

Lemma substring_piece s a b : piece_of (Str.substring s a b) s.
Proof.
  unfold Str.substring. cbv zeta.
  match goal with
  | |- piece_of (take ?n (drop ?m s)) s =>
      exists (take m s), (drop n (drop m s));
      rewrite (take_drop n), (take_drop m); reflexivity
  end.
Qed.
End Matcher.

(** X11. [extractJson] never makes a value up: whenever it returns a value,
    that value is what [JSON.parse] yields on a contiguous piece of the
    response text (the fenced block, the whole text, or a substring between
    braces). *)
Theorem extractJson_parses_a_piece (text : jsstring) (v : JSON.json) :
  geminiService.extractJson text = Ok v ->
  exists pre piece post, text = pre ++ piece ++ post /\ JSON.parse piece = Ok v.
Proof.
  unfold geminiService.extractJson, try_catch. intros H.
  assert (Hlast : geminiService.lastResort text = Ok v ->
                  exists pre piece post, text = pre ++ piece ++ post
                                         /\ JSON.parse piece = Ok v).
  { unfold geminiService.lastResort. destruct (_ && _); [|discriminate].
    destruct (JSON.parse (Str.substring _ _ _)) as [v'|] eqn:E; [|discriminate].
    intros [= ->]. destruct (substring_piece text
      (Str.indexOf text (js "{")) (Str.lastIndexOf text (js "}") + 1)) as (pre & post & Ht).
    eauto. }
  destruct (geminiService.codeBlockMatch text) as [block|] eqn:Eb.
  - destruct (JSON.parse block) as [v'|] eqn:Ep; [|apply Hlast, H].
    injection H as ->. apply exec_piece in Eb. destruct Eb as (pre & post & Ht). eauto.
  - destruct (JSON.parse text) as [v'|] eqn:Ep; [|apply Hlast, H].
    injection H as ->. exists [], text, []. rewrite app_nil_r. auto.
Qed.

Lemma extractJson_parses_a_piece_witness :
  exists pre piece post,
    Sample.fencedResponse = pre ++ piece ++ post
    /\ JSON.parse piece = Ok (JSON.JArray [JSON.JNumber 1 0; JSON.JNumber 2 0]).
Proof.
  apply (extractJson_parses_a_piece Sample.fencedResponse).
  vm_compute. reflexivity.
Defined.

Section Fence.
Import RegExp RegExpLoops geminiService.

Lemma greedyLoop_skip k cls ws rest r :
  forallb cls ws = true ->
  match rest with x :: _ => cls x = false | [] => True end ->
  k rest = Some r ->
  greedyLoop k cls (ws ++ rest) = Some r.
Proof.
  intros Hws Hrest Hk. induction ws as [|w ws IH]; simpl in *.
  - destruct rest as [|x rest]; [exact Hk|]. simpl. rewrite Hrest. exact Hk.
  - apply andb_true_iff in Hws. destruct Hws as [Hw Hws].
    rewrite Hw, (IH Hws). reflexivity.
Qed.

Lemma lit_fence_fail cap ch s :
  ch <> backtick -> run [Lit (js "```")] cap (ch :: s) = None.
Proof.
  intros Hch. rewrite run_lit. change (js "```") with [backtick; backtick; backtick].
  cbn [Str.strip_prefix]. destruct (N.eqb_spec backtick ch); [congruence|reflexivity].
Qed.

(** The closing part of the pattern fails in front of a text that has a
    character other than white space before any backtick. *)
Lemma closing_fails cap u tail :
  noBacktick u = true ->
  Exists (fun ch => is_space ch = false) u ->
  run [StarGreedy is_space; Lit (js "```")] cap (u ++ tail) = None.
Proof.
  intros Hb Hex. rewrite run_greedy.
  induction u as [|ch u IH]; [inversion Hex|].
  cbn [noBacktick forallb] in Hb. apply andb_true_iff in Hb. destruct Hb as [Hch Hb].
  apply negb_true_iff, N.eqb_neq in Hch.
  cbn [app greedyLoop]. fold (greedyLoop (run [Lit (js "```")] cap) is_space).
  destruct (is_space ch) eqn:Es.
  - inversion Hex as [? ? Hns|? ? Hex']; subst; [congruence|].
    rewrite (IH Hb Hex'). apply lit_fence_fail, Hch.
  - apply lit_fence_fail, Hch.
Qed.

Lemma closing_matches cap ws post :
  allSpace ws = true ->
  run [StarGreedy is_space; Lit (js "```")] cap (ws ++ js "```" ++ post) = Some cap.
Proof.
  intros Hws. rewrite run_greedy. apply greedyLoop_skip; [exact Hws|reflexivity|].
  rewrite run_lit, strip_prefix_app. reflexivity.
Qed.

Lemma lazyLoop_unfold k cls acc s :
  lazyLoop k cls acc s
  = match k (rev acc) s with
    | Some r => Some r
    | None =>
        match s with
        | c :: s' => if cls c then lazyLoop k cls (c :: acc) s' else None
        | [] => None
        end
    end.
Proof. destruct s; reflexivity. Qed.

(** The lazy group takes the content up to the white space that precedes
    the closing fence. *)
Lemma lazyLoop_content u : forall acc ws post,
  noBacktick u = true ->
  (forall v w, u = v ++ w -> w <> [] -> Exists (fun ch => is_space ch = false) w) ->
  allSpace ws = true ->
  lazyLoop (run [StarGreedy is_space; Lit (js "```")]) any acc
    (u ++ ws ++ js "```" ++ post)
  = Some (rev acc ++ u).
Proof.
  induction u as [|ch u IH]; intros acc ws post Hb Hsuf Hws.
  - rewrite lazyLoop_unfold. cbn [app]. rewrite closing_matches by exact Hws.
    rewrite app_nil_r. reflexivity.
  - rewrite lazyLoop_unfold.
    rewrite (closing_fails (rev acc) (ch :: u)); [|exact Hb|].
    + cbn [app]. rewrite any_true.
      cbn [noBacktick forallb] in Hb. apply andb_true_iff in Hb.
      rewrite IH; [|apply Hb| |exact Hws].
      * cbn [rev]. rewrite <- app_assoc. reflexivity.
      * intros v w E Hw. apply (Hsuf (ch :: v) w); [rewrite E; reflexivity|exact Hw].
    + apply (Hsuf [] (ch :: u)); [reflexivity|discriminate].
Qed.

Lemma trimmed_suffixes c :
  trimmed c = true ->
  (exists h c1, c = h :: c1 /\ is_space h = false)
  /\ forall v w, c = v ++ w -> w <> [] -> Exists (fun ch => is_space ch = false) w.
Proof.
  unfold trimmed. destruct c as [|h c1]; [discriminate|].
  rewrite andb_true_iff, !negb_true_iff. intros [Hh Hl].
  split; [eauto|]. intros v w E Hw.
  destruct (exists_last Hw) as (w0 & z & ->).
  rewrite E, app_assoc, last_last in Hl.
  apply Exists_app. right. constructor. exact Hl.
Qed.

Lemma exec_unfold p s :
  exec p s = match run p [] s with
             | Some r => Some r
             | None => match s with [] => None | _ :: s' => exec p s' end
             end.
Proof. destruct s; reflexivity. Qed.

Lemma exec_skip_prose pre rest :
  noBacktick pre = true ->
  exec codeBlockPattern (pre ++ rest) = exec codeBlockPattern rest.
Proof.
  intros Hb. induction pre as [|a pre IH]; [reflexivity|].
  cbn [noBacktick forallb] in Hb. apply andb_true_iff in Hb. destruct Hb as [Ha Hb].
  apply negb_true_iff, N.eqb_neq in Ha.
  rewrite exec_unfold. cbn [app].
  replace (run codeBlockPattern [] (a :: pre ++ rest)) with (@None jsstring).
  - apply IH, Hb.
  - unfold codeBlockPattern. rewrite run_lit.
    change (js "```") with [backtick; backtick; backtick].
    cbn [Str.strip_prefix]. destruct (N.eqb_spec backtick a); [congruence|reflexivity].
Qed.

Lemma codeBlockMatch_fence pre tag ws1 c ws2 post :
  noBacktick pre = true ->
  (tag = js "json" \/ (tag = [] /\ head c <> Some 106%N)) ->
  allSpace ws1 = true -> allSpace ws2 = true ->
  noBacktick c = true -> trimmed c = true ->
  codeBlockMatch (pre ++ js "```" ++ tag ++ ws1 ++ c ++ ws2 ++ js "```" ++ post) = Some c.
Proof.
  intros Hpre Htag Hws1 Hws2 Hc Ht.
  destruct (trimmed_suffixes c Ht) as ((h & c1 & Ec & Hh) & Hsuf).
  unfold codeBlockMatch. rewrite exec_skip_prose by exact Hpre.
  rewrite exec_unfold.
  assert (Hrest : run [StarGreedy is_space; CaptureLazy any; StarGreedy is_space;
                       Lit (js "```")] []
                    (ws1 ++ c ++ ws2 ++ js "```" ++ post) = Some c).
  { rewrite run_greedy. apply greedyLoop_skip; [exact Hws1|rewrite Ec; exact Hh|].
    rewrite run_lazy. apply (lazyLoop_content c [] ws2 post Hc Hsuf Hws2). }
  replace (run codeBlockPattern []
             (js "```" ++ tag ++ ws1 ++ c ++ ws2 ++ js "```" ++ post))
    with (Some c); [reflexivity|].
  unfold codeBlockPattern. rewrite run_lit, strip_prefix_app, run_opt.
  destruct Htag as [->|[-> Hj]].
  - rewrite strip_prefix_app, Hrest. reflexivity.
  - cbn [app].
    replace (Str.strip_prefix (js "json") (ws1 ++ c ++ ws2 ++ js "```" ++ post))
      with (@None jsstring); [rewrite Hrest; reflexivity|].
    destruct ws1 as [|w ws1].
    + rewrite Ec in Hj |- *. cbn [app]. change (js "json") with [106; 115; 111; 110]%N.
      cbn [Str.strip_prefix]. destruct (N.eqb_spec 106 h); [|reflexivity].
      subst h. exfalso. apply Hj. reflexivity.
    + cbn [allSpace forallb] in Hws1. apply andb_true_iff in Hws1.
      destruct Hws1 as [Hw _]. cbn [app]. change (js "json") with [106; 115; 111; 110]%N.
      cbn [Str.strip_prefix]. destruct (N.eqb_spec 106 w); [|reflexivity].
      subst w. discriminate Hw.
Qed.
End Fence.

(** X12. A fenced block is extracted exactly. Let the response be prose
    without backticks, an opening fence with or without the tag [json],
    white space, a content that has no backtick and neither begins nor ends
    with white space (nor begins with the letter j when the tag is absent),
    white space, a closing fence and any text after it. Then the block the
    routine finds is the content, and if the content parses, [extractJson]
    returns its value, whatever the prose around it. *)
Theorem fenced_block_is_extracted (pre tag ws1 c ws2 post : jsstring) :
  RegExpLoops.noBacktick pre = true ->
  (tag = js "json" \/ (tag = [] /\ head c <> Some 106%N)) ->
  RegExpLoops.allSpace ws1 = true -> RegExpLoops.allSpace ws2 = true ->
  RegExpLoops.noBacktick c = true -> RegExpLoops.trimmed c = true ->
  let text := pre ++ js "```" ++ tag ++ ws1 ++ c ++ ws2 ++ js "```" ++ post in
  geminiService.codeBlockMatch text = Some c
  /\ (forall v, JSON.parse c = Ok v -> geminiService.extractJson text = Ok v).
Proof.
  intros Hpre Htag Hws1 Hws2 Hc Ht text.
  pose proof (codeBlockMatch_fence pre tag ws1 c ws2 post Hpre Htag Hws1 Hws2 Hc Ht) as Hm.
  fold text in Hm. split; [exact Hm|].
  intros v Hv. unfold geminiService.extractJson. rewrite Hm, Hv. reflexivity.
Qed.

Lemma fenced_block_is_extracted_witness :
  geminiService.extractJson
    (js "Sure! " ++ js "```" ++ js "json" ++ [10%N] ++ js "[1, 2]" ++ [10%N]
       ++ js "```" ++ js " Done.")
  = Ok (JSON.JArray [JSON.JNumber 1 0; JSON.JNumber 2 0]).
Proof.
  apply (fenced_block_is_extracted (js "Sure! ") (js "json") [10%N] (js "[1, 2]")
           [10%N] (js " Done."));
    try (vm_compute; reflexivity).
  left. reflexivity.
Defined.

(** ** The timer of the day panel *)

Section Timer.
Import PlanDetail Decimal.

Lemma valueFrom_zeros k : forall l, valueFrom 0 (replicate k 48%N ++ l) = valueFrom 0 l.
Proof. induction k as [|k IH]; intros l; [reflexivity|]. simpl. apply IH. Qed.

Lemma of_Z_nonneg z : (0 <= z)%Z -> Str.of_Z z = Str.of_N (Z.to_N z).
Proof. intros H. unfold Str.of_Z. destruct (Z.ltb_spec z 0); [lia|reflexivity]. Qed.

Lemma pad2_value z : (0 <= z)%Z -> value (pad2 z) = Z.to_N z.
Proof.
  intros H. unfold pad2, value. cbv zeta. rewrite valueFrom_zeros, of_Z_nonneg by exact H.
  apply of_N_value.
Qed.

Lemma pad2_digits z : (0 <= z)%Z -> Forall (fun c => is_digit c = true) (pad2 z).
Proof.
  intros H. unfold pad2. cbv zeta. apply Forall_app. split.
  - apply Forall_replicate. reflexivity.
  - rewrite of_Z_nonneg by exact H. apply of_N_digits.
Qed.

Lemma pad2_length_ge z : (2 <= length (pad2 z))%nat.
Proof. unfold pad2. cbv zeta. rewrite length_app, length_replicate. lia. Qed.

Lemma of_N_length_small n : (n < 100)%N -> (length (Str.of_N n) <= 2)%nat.
Proof.
  intros H. assert (Hc : forall m, (m < 100)%N -> (length (Str.of_N m) <=? 2)%nat = true).
  { intros m Hm.
    assert (Hall : forallb (fun i => (length (Str.of_N (N.of_nat i)) <=? 2)%nat)
                     (seq 0 100) = true)
      by (vm_compute; reflexivity).
    rewrite forallb_forall in Hall. specialize (Hall (N.to_nat m)).
    rewrite N2Nat.id in Hall. apply Hall. apply in_seq. lia. }
  apply Nat.leb_le, Hc, H.
Qed.

Lemma pad2_length_small z : (0 <= z < 100)%Z -> length (pad2 z) = 2%nat.
Proof.
  intros H. unfold pad2. cbv zeta. rewrite length_app, length_replicate.
  rewrite of_Z_nonneg by lia.
  pose proof (of_N_length_small (Z.to_N z) ltac:(lia)). lia.
Qed.

Lemma fields_nonneg ms :
  (0 <= ms)%Z ->
  (0 <= hours ms /\ 0 <= minutes ms < 60 /\ 0 <= seconds ms < 60
   /\ 3600 * hours ms + 60 * minutes ms + seconds ms = ms / 1000)%Z.
Proof.
  intros H. unfold hours, minutes, seconds.
  rewrite !Z.quot_div_nonneg by lia.
  Z.div_mod_to_equations. lia.
Qed.

Lemma pos_digits_length_ge f : forall n acc,
  (length acc <= length (Str.pos_digits f n acc))%nat.
Proof.
  induction f as [|f IH]; intros n acc; [simpl; lia|].
  cbn [Str.pos_digits]. destruct (n <? 10)%N; [simpl; lia|].
  specialize (IH (n / 10)%N ((48 + n mod 10)%N :: acc)). simpl in IH. lia.
Qed.

Lemma pad2_negative z : (z < 0)%Z -> head (pad2 z) = Some 45%N.
Proof.
  intros H. unfold pad2. cbv zeta. unfold Str.of_Z.
  destruct (Z.ltb_spec z 0) as [_|]; [|lia].
  set (d := Str.of_N (Z.to_N (- z))).
  assert (Hd : (1 <= length d)%nat).
  { subst d. unfold Str.of_N. cbn [Str.pos_digits].
    destruct (Z.to_N (- z) <? 10)%N; [simpl; lia|].
    match goal with |- (1 <= length (Str.pos_digits ?f ?n ?acc))%nat =>
      pose proof (pos_digits_length_ge f n acc) as Hl end.
    simpl in Hl. exact Hl. }
  destruct d as [|x d]; [simpl in Hd; lia|].
  cbn [length]. replace (2 - S (S (length d)))%nat with 0%nat by lia. reflexivity.
Qed.
End Timer.

(** X13. The elapsed time display. For a time of [ms >= 0] milliseconds
    [formatTime] shows three fields of decimal digits separated by colons;
    minutes and seconds have exactly two digits and are below sixty, hours
    have at least two digits, and read as numbers they give the whole seconds
    elapsed: [3600 h + 60 m + s] is the floor of [ms / 1000]. For a negative
    time (a clock that went back) the display begins with a minus sign. *)
Theorem formatTime_shows_whole_seconds (ms : Z) :
  ((0 <= ms)%Z ->
   exists H M S : jsstring,
     PlanDetail.formatTime ms = H ++ js ":" ++ M ++ js ":" ++ S
     /\ Forall (fun c => Decimal.is_digit c = true) (H ++ M ++ S)
     /\ (2 <= length H)%nat /\ length M = 2%nat /\ length S = 2%nat
     /\ (Decimal.value M < 60)%N /\ (Decimal.value S < 60)%N
     /\ (3600 * Decimal.value H + 60 * Decimal.value M + Decimal.value S
         = Z.to_N (ms / 1000))%N)
  /\ ((ms < 0)%Z -> head (PlanDetail.formatTime ms) = Some 45%N).
Proof.
  split.
  - intros Hms. pose proof (fields_nonneg ms Hms) as (Hh & Hm & Hs & Hsum).
    exists (PlanDetail.pad2 (PlanDetail.hours ms)),
      (PlanDetail.pad2 (PlanDetail.minutes ms)),
      (PlanDetail.pad2 (PlanDetail.seconds ms)).
    split; [reflexivity|].
    split; [rewrite !Forall_app; repeat split; apply pad2_digits; lia|].
    split; [apply pad2_length_ge|].
    split; [apply pad2_length_small; lia|].
    split; [apply pad2_length_small; lia|].
    rewrite !pad2_value by lia. repeat split; try lia.
  - intros Hms. unfold PlanDetail.formatTime.
    pose proof (pad2_negative (PlanDetail.hours ms)) as Hneg.
    assert (Hh : (PlanDetail.hours ms < 0)%Z)
      by (unfold PlanDetail.hours; Z.div_mod_to_equations; lia).
    specialize (Hneg Hh). destruct (PlanDetail.pad2 (PlanDetail.hours ms)); [discriminate|exact Hneg].
Qed.

Lemma formatTime_shows_whole_seconds_witness :
  (exists H M S : jsstring,
     PlanDetail.formatTime 3725999 = H ++ js ":" ++ M ++ js ":" ++ S
     /\ Forall (fun c => Decimal.is_digit c = true) (H ++ M ++ S)
     /\ (2 <= length H)%nat /\ length M = 2%nat /\ length S = 2%nat
     /\ (Decimal.value M < 60)%N /\ (Decimal.value S < 60)%N
     /\ (3600 * Decimal.value H + 60 * Decimal.value M + Decimal.value S
         = Z.to_N (3725999 / 1000))%N)
  /\ head (PlanDetail.formatTime (-1500)) = Some 45%N.
Proof.
  split.
  - apply (formatTime_shows_whole_seconds 3725999). lia.
  - apply (formatTime_shows_whole_seconds (-1500)). lia.
Defined.

Section Stopwatch.
Import PlanDetail App.
Local Open Scope Z_scope.

Lemma forEach_total_app now l1 : forall l2 total running,
  forEach_total now (l1 ++ l2) total running
  = forEach_total now l2 (fst (forEach_total now l1 total running))
      (snd (forEach_total now l1 total running)).
Proof.
  induction l1 as [|s l1 IH]; intros l2 total running; [reflexivity|].
  cbn [app forEach_total]. destruct (truthyEnd s); apply IH.
Qed.

Lemma forEach_total_clock now now' l : forall total running,
  Forall stopped l ->
  forEach_total now l total running = forEach_total now' l total running.
Proof.
  induction l as [|s l IH]; intros total running Hl; [reflexivity|].
  inversion Hl as [|? ? Hs Hl']; subst. cbn [forEach_total].
  unfold stopped in Hs. destruct (truthyEnd s) as [e|]; [|congruence].
  apply IH, Hl'.
Qed.

Lemma forEach_total_shift now l : forall total running,
  Forall stopped l ->
  forEach_total now l total running
  = (total + fst (forEach_total now l 0 false), running).
Proof.
  induction l as [|s l IH]; intros total running Hl.
  - simpl. f_equal. lia.
  - inversion Hl as [|? ? Hs Hl']; subst. cbn [forEach_total].
    unfold stopped in Hs. destruct (truthyEnd s) as [e|]; [|congruence].
    rewrite (IH (total + _) running Hl'), (IH (0 + _) false Hl'). cbn [fst]. f_equal. lia.
Qed.

Lemma forEach_total_stopped now now' l total running :
  Forall stopped l ->
  forEach_total now l total running
  = (total + fst (forEach_total now' l 0 false), running).
Proof.
  intros Hl. rewrite (forEach_total_clock now now' l _ _ Hl).
  apply forEach_total_shift, Hl.
Qed.

Lemma stopped_last l x :
  Forall stopped l -> l !! (length l - 1)%nat = Some x -> exists e, Session.end_ x = Some e.
Proof.
  intros Hl Hx. rewrite Forall_lookup in Hl. specialize (Hl _ _ Hx).
  unfold stopped, truthyEnd in Hl. destruct (Session.end_ x); [eauto|congruence].
Qed.

Lemma toggleSessions_starts now l :
  Forall stopped l -> toggleSessions now l = l ++ [Session.mk now None].
Proof.
  intros Hl. apply toggleSessions_opens.
  destruct l as [|a l]; [left; reflexivity|right].
  destruct (lookup_lt_is_Some_2 (a :: l) (length (a :: l) - 1)%nat) as [x Hx];
    [simpl; lia|].
  destruct (stopped_last _ _ Hl Hx) as [e He]. eauto.
Qed.

Lemma toggleSessions_stops now t l :
  toggleSessions now (l ++ [Session.mk t None]) = l ++ [Session.mk t (Some now)].
Proof.
  rewrite (toggleSessions_closes now _ (Session.mk t None)).
  - rewrite length_app. cbn [length]. replace (length l + 1 - 1)%nat with (length l + 0)%nat by lia.
    rewrite insert_app_r. reflexivity.
  - rewrite length_app. cbn [length]. replace (length l + 1 - 1)%nat with (length l + 0)%nat by lia.
    rewrite lookup_app_r by lia. replace (length l + 0 - length l)%nat with 0%nat by lia.
    reflexivity.
  - reflexivity.
Qed.
End Stopwatch.

(** X14. The stopwatch. Let every session of a day be stopped (its end is
    set and is not zero), so that the total the panel shows, [T], does not
    depend on the clock. Pressing start at time [t] makes the panel show
    [T + (now - t)] and report a running session; pressing stop at a time
    [t'] other than zero freezes the display at [T + (t' - t)] whatever the
    clock reads afterwards, with no session running. *)
Theorem timer_accumulates_sessions (clock : Clock) (n : nat) (day : DayPlan.t)
    (now : Z) :
  Forall PlanDetail.stopped (Store.sessionsOf day) ->
  clock (S n) <> 0%Z ->
  let T := fst (PlanDetail.calculateTotal now day) in
  let started := fst (App.toggleSessionInDay clock (DayPlan.dayNumber day) day n) in
  let stopped := fst (App.toggleSessionInDay clock (DayPlan.dayNumber day) started (S n)) in
  (forall now', PlanDetail.calculateTotal now' day = (T, false))
  /\ (forall now', PlanDetail.calculateTotal now' started
                   = ((T + (now' - clock n))%Z, true))
  /\ PlanDetail.isSessionRunning (Some started) = true
  /\ (forall now', PlanDetail.calculateTotal now' stopped
                   = ((T + (clock (S n) - clock n))%Z, false))
  /\ PlanDetail.isSessionRunning (Some stopped) = false.
Proof.
  intros Hall Hne T started stopped'.
  assert (Hday : forall now', PlanDetail.calculateTotal now' day = (T, false)).
  { intros now'. unfold T, PlanDetail.calculateTotal.
    rewrite (forEach_total_stopped now' now _ 0%Z false Hall). f_equal. }
  assert (Es : DayPlan.sessions started
               = Some (Store.sessionsOf day ++ [Session.mk (clock n) None])).
  { unfold started, App.toggleSessionInDay. rewrite Z.eqb_refl. cbn [negb fst DayPlan.sessions].
    f_equal. apply toggleSessions_starts. exact Hall. }
  assert (En : DayPlan.dayNumber started = DayPlan.dayNumber day).
  { unfold started, App.toggleSessionInDay. rewrite Z.eqb_refl. reflexivity. }
  assert (Et : DayPlan.sessions stopped'
               = Some (Store.sessionsOf day ++ [Session.mk (clock n) (Some (clock (S n)))])).
  { unfold stopped', App.toggleSessionInDay. rewrite En, Z.eqb_refl.
    cbn [negb fst DayPlan.sessions]. rewrite Es. f_equal. apply toggleSessions_stops. }
  split; [exact Hday|]. split; [|split; [|split]].
  - intros now'. unfold PlanDetail.calculateTotal, Store.sessionsOf at 1. rewrite Es.
    rewrite forEach_total_app.
    fold (PlanDetail.calculateTotal now' day). rewrite Hday. reflexivity.
  - unfold PlanDetail.isSessionRunning. rewrite Es, length_app. cbn [length].
    replace (length (Store.sessionsOf day) + 1 - 1)%nat
      with (length (Store.sessionsOf day) + 0)%nat by lia.
    rewrite lookup_app_r by lia.
    replace (length (Store.sessionsOf day) + 0 - length (Store.sessionsOf day))%nat
      with 0%nat by lia.
    cbn. destruct (length (Store.sessionsOf day) + 1)%nat eqn:E; [lia|reflexivity].
  - intros now'. unfold PlanDetail.calculateTotal, Store.sessionsOf at 1. rewrite Et.
    rewrite forEach_total_app.
    fold (PlanDetail.calculateTotal now' day). rewrite Hday.
    cbn [fst snd PlanDetail.forEach_total]. unfold PlanDetail.truthyEnd.
    cbn [Session.end_ Session.start].
    destruct (Z.eqb_spec (clock (S n)) 0); [contradiction|reflexivity].
  - unfold PlanDetail.isSessionRunning. rewrite Et, length_app. cbn [length].
    replace (length (Store.sessionsOf day) + 1 - 1)%nat
      with (length (Store.sessionsOf day) + 0)%nat by lia.
    rewrite lookup_app_r by lia.
    replace (length (Store.sessionsOf day) + 0 - length (Store.sessionsOf day))%nat
      with 0%nat by lia.
    cbn. apply andb_false_r.
Qed.

Lemma timer_accumulates_sessions_witness :
  forall now',
    PlanDetail.calculateTotal now'
      (fst (App.toggleSessionInDay StoreSample.clockLater 1%Z
              (fst (App.toggleSessionInDay StoreSample.clockLater 1%Z
                      (Sample.day 1 []) 0%nat)) 1%nat))
    = ((StoreSample.clockLater 1%nat - StoreSample.clockLater 0%nat)%Z, false).
Proof.
  apply (timer_accumulates_sessions StoreSample.clockLater 0%nat (Sample.day 1 []) 0%Z).
  - constructor.
  - vm_compute. discriminate.
Defined.

(** ** The course of a quiz *)

Section Quiz.
Import QuizModal QuizFlow.

Lemma questionView_true s :
  questionView s = true ->
  showResults s = false /\ exists q, currentQuestion s = Some q.
Proof.
  unfold questionView. rewrite !andb_true_iff.
  intros [[_ Hr] Hq]. apply negb_true_iff in Hr. split; [exact Hr|].
  destruct (currentQuestion s) as [q|]; [eauto|discriminate].
Qed.

Lemma answerAt_Some ua idx a : answerAt ua idx = Some a -> ua !! idx = Some (Some a).
Proof.
  unfold answerAt. destruct (ua !! idx) as [[b|]|]; intros H; congruence.
Qed.

Lemma loaded_invariant qs : qs <> [] -> invariant (loaded qs).
Proof.
  intros Hqs. unfold invariant, loaded.
  cbn [questions currentIndex userAnswers showResults length].
  split; [|split; [|split]].
  - destruct qs; [congruence|simpl; lia].
  - lia.
  - intros idx q Hidx. lia.
  - discriminate.
Qed.

Lemma answer_invariant s q idx :
  invariant s -> questionView s = true -> currentQuestion s = Some q ->
  (idx < length (QuizQuestion.options q))%nat ->
  invariant (answer (Z.of_nat idx) s).
Proof.
  intros (Hci & Hlen & Hans & Hres) Hv Hq Hidx.
  destruct (questionView_true s Hv) as [Hr _].
  unfold invariant, answer, handleAnswer.
  cbn [questions currentIndex userAnswers showResults]. unfold answers in *.
  destruct (Nat.ltb_spec (currentIndex s) (length (userAnswers s))) as [Hlt|Hge].
  - cbv iota. rewrite length_insert. repeat split; try lia.
    + intros i q' Hi Hq'. destruct (Nat.eq_dec i (currentIndex s)) as [->|Hne].
      * unfold currentQuestion in Hq. rewrite Hq in Hq'. injection Hq' as <-.
        exists idx. split; [|exact Hidx].
        unfold answerAt, answers. rewrite list_lookup_insert_eq by exact Hlt. reflexivity.
      * destruct (Hans i q' Hi Hq') as (a & Ha & Hb). exists a. split; [|exact Hb].
        unfold answerAt, answers in *. rewrite list_lookup_insert_ne by congruence. exact Ha.
    + rewrite Hr. discriminate.
  - cbv iota. assert (E : currentIndex s = length (userAnswers s)) by lia.
    replace (currentIndex s - length (userAnswers s))%nat with 0%nat by lia.
    cbn [replicate app]. rewrite length_app. cbn [length]. repeat split; try lia.
    + intros i q' Hi Hq'. destruct (Nat.eq_dec i (currentIndex s)) as [->|Hne].
      * unfold currentQuestion in Hq. rewrite Hq in Hq'. injection Hq' as <-.
        exists idx. split; [|exact Hidx].
        unfold answerAt, answers. rewrite E, lookup_app_r by lia.
        rewrite Nat.sub_diag. reflexivity.
      * assert (Hi' : (i < length (userAnswers s))%nat) by lia.
        destruct (Hans i q' Hi' Hq') as (a & Ha & Hb). exists a. split; [|exact Hb].
        unfold answerAt, answers in *. rewrite lookup_app_l by exact Hi'. exact Ha.
    + rewrite Hr. discriminate.
Qed.

Lemma next_invariant s :
  invariant s -> questionView s = true -> nextEnabled s = true -> invariant (next s).
Proof.
  intros (Hci & Hlen & Hans & Hres) Hv He.
  destruct (questionView_true s Hv) as [Hr _].
  assert (Hlt : (currentIndex s < length (userAnswers s))%nat).
  { unfold nextEnabled in He.
    destruct (answerAt (userAnswers s) (currentIndex s)) as [a|] eqn:Ea; [|discriminate].
    apply answerAt_Some, lookup_lt_Some in Ea. exact Ea. }
  unfold invariant, next, handleNext.
  destruct (Z.ltb_spec (Z.of_nat (currentIndex s)) (Z.of_nat (length (questions s)) - 1));
    cbn [questions currentIndex userAnswers showResults orb].
  - repeat split; try lia; [exact Hans|]. rewrite Hr. discriminate.
  - repeat split; try lia. exact Hans.
Qed.

Lemma reachable_quiz_invariant s : reachable s -> invariant s.
Proof.
  induction 1 as [qs Hqs|s s' _ IH Hstep].
  - apply loaded_invariant, Hqs.
  - destruct Hstep as [s q idx Hv Hq Hidx|s Hv He].
    + apply (answer_invariant s q idx); assumption.
    + apply next_invariant; assumption.
Qed.
End Quiz.

(** X15. A quiz is answered in full before its results are shown. From
    the arrival of the questions on, the user can only choose an option of
    the current question or, once that question has an answer, go on. So in
    every state the current index is that of a question; and when the results
    are shown there are as many answers as questions, every question has an
    answer, which is the index of one of its options, and nothing can be
    changed any more. *)
Theorem quiz_results_answer_every_question (s : QuizFlow.State) :
  QuizFlow.reachable s ->
  (exists q, QuizFlow.currentQuestion s = Some q)
  /\ (QuizFlow.showResults s = true ->
      length (QuizFlow.userAnswers s) = length (QuizFlow.questions s)
      /\ (forall idx q, QuizFlow.questions s !! idx = Some q ->
            QuizFlow.answeredWithin (QuizFlow.userAnswers s) idx q)
      /\ (forall s', ~ QuizFlow.step s s')).
Proof.
  intros Hr. destruct (reachable_quiz_invariant s Hr) as (Hci & Hlen & Hans & Hres).
  split.
  - apply lookup_lt_is_Some_2 in Hci. destruct Hci as [q Hq]. exists q. exact Hq.
  - intros Hs. specialize (Hres Hs). split; [exact Hres|]. split.
    + intros idx q Hq. apply Hans; [|exact Hq].
      rewrite Hres. apply lookup_lt_Some in Hq. exact Hq.
    + intros s' Hstep.
      assert (Hv : QuizFlow.questionView s = true) by (destruct Hstep; assumption).
      apply questionView_true in Hv. destruct Hv as [Hf _]. congruence.
Qed.

Lemma quiz_results_answer_every_question_witness :
  let qs := [QuizSpec.question 1; QuizSpec.question 3] in
  let s := QuizFlow.next (QuizFlow.answer 3 (QuizFlow.next
             (QuizFlow.answer 0 (QuizFlow.answer 2 (QuizFlow.loaded qs))))) in
  QuizFlow.reachable s
  /\ QuizFlow.showResults s = true
  /\ length (QuizFlow.userAnswers s) = length (QuizFlow.questions s)
  /\ QuizModal.calculateScore (QuizFlow.questions s) (QuizFlow.userAnswers s) = 1%Z.
Proof.
  intros qs s.
  assert (Hr : QuizFlow.reachable s).
  { unfold s.
    eapply QuizFlow.reach_step; [|apply QuizFlow.step_next; reflexivity].
    eapply QuizFlow.reach_step;
      [|apply (QuizFlow.step_answer _ (QuizSpec.question 3) 3);
        [reflexivity|reflexivity|simpl; lia]].
    eapply QuizFlow.reach_step; [|apply QuizFlow.step_next; reflexivity].
    eapply QuizFlow.reach_step;
      [|apply (QuizFlow.step_answer _ (QuizSpec.question 1) 0);
        [reflexivity|reflexivity|simpl; lia]].
    eapply QuizFlow.reach_step;
      [|apply (QuizFlow.step_answer _ (QuizSpec.question 1) 2);
        [reflexivity|reflexivity|simpl; lia]].
    apply QuizFlow.reach_loaded. discriminate. }
  destruct (quiz_results_answer_every_question s Hr) as [_ H].
  split; [exact Hr|]. split; [reflexivity|]. split; [apply H; reflexivity|].
  reflexivity.
Defined.
